(** * msmtp_mail: a shallow embedding of the mail builder and the msmtp client

    The development follows [msmtp_mail.py]: the two exception classes,
    [EmailMessageBuilder] (a mutable accumulator around an
    [email.message.EmailMessage]) and [MsmtpClient] (one synchronous call of
    the msmtp binary, with an optional log file).

    Conventions.
    - A Python [str] is held as the bytes of its UTF-8 encoding, a [bytes]
      object as its bytes; both are Rocq strings.
    - Methods that mutate [self] or raise are computations of a small state
      and exception monad; a raised exception keeps the mutations made
      before it, as in Python.
    - What the module asks of the operating system (reading a file, running
      a process, the clock, writing the log) is answered by an environment
      of oracles, and every request is recorded in a trace of events.
    - Functions of the Python library whose result depends on Unicode tables,
      on the parsers of the header values or on the MIME generator are left
      uninterpreted: they are the fields of a record [PyLib] the model is
      parameterised by, with the few facts about them the proofs use. *)

From Stdlib Require Import String Ascii List ZArith Bool Arith Lia.
From Stdlib Require Import DecimalString.
Import ListNotations.

Local Open Scope string_scope.
Local Open Scope list_scope.
Local Open Scope nat_scope.

Infix "+++" := String.append (right associativity, at level 60).

(** ** Strings *)

Definition ord (c : ascii) : nat := nat_of_ascii c.

Definition str_of_nat (n : nat) : string :=
  NilEmpty.string_of_uint (Nat.to_uint n).

(** [bool(s)] for a string: the empty string is false. *)
Definition str_truthy (s : string) : bool :=
  match s with
  | EmptyString => false
  | String _ _ => true
  end.

(** [sep.join(items)]. *)
Fixpoint join (sep : string) (items : list string) : string :=
  match items with
  | [] => ""
  | [x] => x
  | x :: rest => x +++ sep +++ join sep rest
  end.

(** [s.lower()] on the ASCII letters; the bytes of any other character are
    kept.  The model lowers header names and content types only, to compare
    them with ASCII literals. *)
Definition lower_char (c : ascii) : ascii :=
  let n := ord c in
  if (65 <=? n) && (n <=? 90) then ascii_of_nat (n + 32) else c.

Fixpoint lower (s : string) : string :=
  match s with
  | EmptyString => EmptyString
  | String c rest => String (lower_char c) (lower rest)
  end.

(** [s.startswith(p)]. *)
Definition startswith (p s : string) : bool := String.prefix p s.


(** [s.count(c)] for a one-character [c]. *)
Fixpoint count_char (c : ascii) (s : string) : nat :=
  match s with
  | EmptyString => 0
  | String d rest => (if Ascii.eqb c d then 1 else 0) + count_char c rest
  end.

(** The whitespace of [str.strip()] within ASCII. *)
Definition is_space (c : ascii) : bool :=
  let n := ord c in
  (n =? 32) || ((9 <=? n) && (n <=? 13)) || ((28 <=? n) && (n <=? 31)).

Fixpoint lstrip (s : string) : string :=
  match s with
  | EmptyString => EmptyString
  | String c rest => if is_space c then lstrip rest else s
  end.

Fixpoint rev_string (acc s : string) : string :=
  match s with
  | EmptyString => acc
  | String c rest => rev_string (String c acc) rest
  end.

Definition strip (s : string) : string :=
  rev_string "" (lstrip (rev_string "" (lstrip s))).

(** [s.partition(c)[0]]: the text before the first [c], the whole of [s]
    when there is none. *)
Fixpoint before_char (c : ascii) (s : string) : string :=
  match s with
  | EmptyString => EmptyString
  | String d rest => if Ascii.eqb c d then EmptyString else String d (before_char c rest)
  end.

(** [s.splitlines()].  With [unicode = false] the boundaries are those of
    [bytes.splitlines]: LF, CR and CR LF.  With [unicode = true] they are
    those of [str.splitlines]: in addition VT, FF, FS, GS, RS, NEL (C2 85 in
    UTF-8), LS and PS (E2 80 A8 and E2 80 A9). *)
Fixpoint splitlines_from (unicode : bool) (cur s : string) {struct s} : list string :=
  match s with
  | EmptyString => if str_truthy cur then [cur] else []
  | String c rest =>
      let n := ord c in
      let keep := splitlines_from unicode (cur +++ String c "") rest in
      if n =? 13 then
        match rest with
        | String c2 rest2 =>
            if ord c2 =? 10 then cur :: splitlines_from unicode "" rest2
            else cur :: splitlines_from unicode "" rest
        | EmptyString => [cur]
        end
      else if n =? 10 then cur :: splitlines_from unicode "" rest
      else if negb unicode then keep
      else if (n =? 11) || (n =? 12) || (n =? 28) || (n =? 29) || (n =? 30)
      then cur :: splitlines_from unicode "" rest
      else if n =? 194 then
        match rest with
        | String c2 rest2 =>
            if ord c2 =? 133 then cur :: splitlines_from unicode "" rest2 else keep
        | EmptyString => keep
        end
      else if n =? 226 then
        match rest with
        | String c2 (String c3 rest3) =>
            if (ord c2 =? 128) && ((ord c3 =? 168) || (ord c3 =? 169))
            then cur :: splitlines_from unicode "" rest3
            else keep
        | _ => keep
        end
      else keep
  end.

Definition str_splitlines (s : string) : list string := splitlines_from true "" s.
Definition bytes_splitlines (s : string) : list string := splitlines_from false "" s.

(** [name.encode('ascii')] succeeds: every byte is below 128. *)
Fixpoint is_ascii (s : string) : bool :=
  match s with
  | EmptyString => true
  | String c rest => (ord c <? 128) && is_ascii rest
  end.

(** ** Exceptions *)

(** The classes of the exceptions the module raises or lets through, those
    of the library's header parsers and generator among them.  All of them
    derive from [Exception], so [except Exception] catches each. *)
Inductive exc_class : Type :=
| EmailBuildError
| MsmtpSendError
| ValueError
| TypeError
| OSError
| TimeoutExpired
| JSONDecodeError
| IndexError
| AttributeError
| KeyError
| HeaderWriteError.

(** An exception: its class and [str(e)]. *)
Record exn : Type := Exn { exc_type : exc_class; exc_str : string }.

Definition exc_class_eqb (a b : exc_class) : bool :=
  match a, b with
  | EmailBuildError, EmailBuildError
  | MsmtpSendError, MsmtpSendError
  | ValueError, ValueError
  | TypeError, TypeError
  | OSError, OSError
  | TimeoutExpired, TimeoutExpired
  | JSONDecodeError, JSONDecodeError
  | IndexError, IndexError
  | AttributeError, AttributeError
  | KeyError, KeyError
  | HeaderWriteError, HeaderWriteError => true
  | _, _ => false
  end.

(** ** State and exception monad *)

Inductive outcome (A : Type) : Type :=
| Raise (e : exn)
| Return (a : A).
Arguments Raise {A} e.
Arguments Return {A} a.

Definition M (S A : Type) : Type := S -> outcome A * S.

Definition ret {S A} (a : A) : M S A := fun s => (Return a, s).

Definition bind {S A B} (m : M S A) (k : A -> M S B) : M S B :=
  fun s =>
    match m s with
    | (Raise e, s') => (Raise e, s')
    | (Return a, s') => k a s'
    end.

Definition raise {S A} (c : exc_class) (msg : string) : M S A :=
  fun s => (Raise (Exn c msg), s).

Definition reraise {S A} (e : exn) : M S A := fun s => (Raise e, s).

Definition get_state {S} : M S S := fun s => (Return s, s).

Definition put_state {S} (s : S) : M S unit := fun _ => (Return tt, s).

(** [try: m  except Exception as e: h e]. *)
Definition try_except {S A} (m : M S A) (h : exn -> M S A) : M S A :=
  fun s =>
    match m s with
    | (Raise e, s') => h e s'
    | r => r
    end.

(** Runs a computation on a component of the state. *)
Definition zoom {S T A} (proj : S -> T) (upd : T -> S -> S) (m : M T A) : M S A :=
  fun s => let '(r, t) := m (proj s) in (r, upd t s).

Notation "x <- m ;; k" := (bind m (fun x => k))
  (at level 61, m at next level, right associativity).
Notation "m ;;; k" := (bind m (fun _ => k))
  (at level 61, right associativity).

(** ** Characters the model needs by code *)

Definition LF : string := String (ascii_of_nat 10) "".
Definition dquote : string := String (ascii_of_nat 34) "".
Definition backslash : string := String (ascii_of_nat 92) "".

(** ** email.message.EmailMessage under the default policy *)

(** A header: its name and the text it was set from.  The library keeps a
    header object made from that text by the parser of the header's class;
    the text determines the object.  Reading the header gives the object's
    value as a string, the text as the parser has decoded it
    ([header_decoded]); the generator writes the header from the object
    ([as_bytes]). *)
Definition header : Type := string * string.

(** A subpart of a multipart message: its headers and its encoded payload. *)
Record MIMEPart : Type := { part_headers : list header; part_payload : string }.

(** [_payload]: [None], the body of a message that is not multipart, kept as
    the bytes [get_payload(decode=True)] returns for it, or the list of
    subparts of a multipart message. *)
Inductive payload : Type :=
| PayloadNone
| PayloadBody (decoded : string)
| PayloadParts (parts : list MIMEPart).

Record EmailMessage : Type := { _headers : list header; _payload : payload }.

(** ** The Python library left uninterpreted *)

(** The header values the library sets by itself in [set_content],
    [make_mixed] and [add_attachment], under the lowercased names. *)
Definition library_headers : list header :=
  [("content-type", "multipart/mixed");
   ("content-type", "text/plain");
   ("content-type", "text/html");
   ("content-type", "text/plain; charset=" +++ dquote +++ "utf-8" +++ dquote);
   ("content-type", "text/html; charset=" +++ dquote +++ "utf-8" +++ dquote);
   ("content-transfer-encoding", "7bit");
   ("content-transfer-encoding", "8bit");
   ("content-transfer-encoding", "quoted-printable");
   ("content-transfer-encoding", "base64");
   ("content-disposition", "attachment");
   ("mime-version", "1.0")].

(** The transfer encodings [set_content] chooses from. *)
Definition transfer_encodings : list string :=
  ["7bit"; "8bit"; "quoted-printable"; "base64"].

(** A text of ASCII letters, digits and blanks. *)
Definition is_word_char (c : ascii) : bool :=
  let n := ord c in
  (n =? 32) || ((48 <=? n) && (n <=? 57)) || ((65 <=? n) && (n <=? 90))
  || ((97 <=? n) && (n <=? 122)).

Fixpoint plain_words (s : string) : bool :=
  match s with
  | EmptyString => true
  | String c rest => is_word_char c && plain_words rest
  end.

Record PyLib : Type := {
  (** [msg.as_bytes()]: the wire form the generator writes, or the
      exception it raises. *)
  as_bytes : EmailMessage -> outcome string;
  (** [Charset('utf-8').header_encode(name)], an RFC 2047 encoded word. *)
  header_encode : string -> string;
  (** [data.decode(errors='ignore')]. *)
  decode_ignore : string -> string;
  (** [repr(s)] of a string. *)
  str_repr : string -> string;
  (** The transfer encoding [set_content] chooses for a text. *)
  text_cte : string -> string;
  (** [str(policy.header_factory(name, value))], by the lowercased name:
      the value of the header made from the text [value], with encoded
      words decoded and, in an address header, blanks and quotes
      normalised. *)
  header_decoded : string -> string -> string;
  (** The exception [policy.header_factory(name, value)] raises, by the
      lowercased name, when the parser of the header's class fails on the
      text; [None] when it makes the header. *)
  header_refused : string -> string -> option exn;
  (** Bytes that are all ASCII decode to the text with those bytes. *)
  decode_ignore_ascii : forall data, is_ascii data = true -> decode_ignore data = data;
  (** An exception of a parser is one of the library, not a build error of
      this module. *)
  header_refused_class : forall name value e,
    header_refused name value = Some e -> exc_type e <> EmailBuildError;
  (** The transfer encoding chosen is one of the four. *)
  text_cte_known : forall text, In (text_cte text) transfer_encodings;
  (** The library's own header values are made into headers that read as
      they were written. *)
  library_headers_kept : forall name value,
    In (name, value) library_headers ->
    header_refused name value = None /\ header_decoded name value = value;
  (** So is a Subject of ASCII letters, digits and blanks: the parser of an
      unstructured header keeps its words and its blanks. *)
  plain_subject_kept : forall value,
    plain_words value = true ->
    header_refused "subject" value = None /\ header_decoded "subject" value = value
}.

(** ** Headers *)

(** [k.lower() == name.lower()], the test of every header lookup. *)
Definition same_name (name : string) (h : header) : bool :=
  (lower (fst h) =? lower name)%string.

(** The text the first header of that name was set from. *)
Definition raw_header (name : string) (hs : list header) : option string :=
  option_map snd (find (same_name name) hs).

(** The texts the headers of that name were set from. *)
Definition raw_all (name : string) (hs : list header) : list string :=
  map snd (filter (same_name name) hs).

(** [msg.get(name)]: the value of the first header of that name, the text
    it was set from as the library has decoded it.  The class of a header
    depends on its name in lower case only, which is that of [name]. *)
Definition get_header (lib : PyLib) (name : string) (hs : list header) : option string :=
  option_map (header_decoded lib (lower name)) (raw_header name hs).

(** [msg.get_all(name)], the empty list when there is none. *)
Definition get_all (lib : PyLib) (name : string) (hs : list header) : list string :=
  map (header_decoded lib (lower name)) (raw_all name hs).

(** [policy.header_max_count(name)]: the [max_count] of the header class the
    registry of [email.headerregistry] gives the name. *)
Definition header_max_count (name : string) : option nat :=
  let unique :=
    ["subject"; "date"; "orig-date"; "sender"; "to"; "cc"; "bcc"; "from";
     "reply-to"; "mime-version"; "content-type"; "content-disposition";
     "content-transfer-encoding"; "message-id"] in
  if existsb (String.eqb (lower name)) unique then Some 1 else None.

(** The limit [msg[name] = val] finds reached: [max_count] when it is set
    and the message already has that many headers of the name. *)
Definition limit_reached (name : string) (hs : list header) : option nat :=
  match header_max_count name with
  | Some max_count =>
      if (0 <? max_count) && (max_count <=? length (raw_all name hs))
      then Some max_count else None
  | None => None
  end.

(** [policy.header_store_parse(name, val)], which makes the header object:
    it refuses a text of more than one line, then the parser of the
    header's class may fail on the text. *)
Definition header_store_parse {S : Type} (lib : PyLib) (name val : string) : M S unit :=
  if 1 <? length (str_splitlines val) then
    raise ValueError "Header values may not contain linefeed or carriage return characters"
  else
    match header_refused lib (lower name) val with
    | Some e => reraise e
    | None => ret tt
    end.

(** [msg[name] = val]: refuses one header too many of a name that is
    limited, makes the header and appends it. *)
Definition setitem (lib : PyLib) (name val : string) : M EmailMessage unit :=
  fun msg =>
    match limit_reached name (_headers msg) with
    | Some max_count =>
        raise ValueError
          ("There may be at most " +++ str_of_nat max_count +++ " " +++ name
           +++ " headers in a message") msg
    | None =>
        (header_store_parse lib name val ;;;
         put_state {| _headers := _headers msg ++ [(name, val)];
                      _payload := _payload msg |}) msg
    end.

(** [msg.get_content_type()]. *)
Definition get_content_type (lib : PyLib) (hs : list header) : string :=
  match get_header lib "content-type" hs with
  | None => "text/plain"
  | Some value =>
      let ctype := lower (strip (before_char ";" value)) in
      if count_char "/" ctype =? 1 then ctype else "text/plain"
  end.

(** [msg.get_content_maintype()]. *)
Definition get_content_maintype (lib : PyLib) (hs : list header) : string :=
  before_char "/" (get_content_type lib hs).

(** [msg.is_multipart()]. *)
Definition is_multipart (msg : EmailMessage) : bool :=
  match _payload msg with
  | PayloadParts _ => true
  | _ => false
  end.

(** [msg.get_payload(decode=True)] of a message that is not multipart. *)
Definition get_payload_decode (msg : EmailMessage) : option string :=
  match _payload msg with
  | PayloadBody decoded => Some decoded
  | _ => None
  end.

(** [msg.clear_content()]. *)
Definition clear_content : M EmailMessage unit :=
  fun msg =>
    (Return tt,
     {| _headers := filter (fun h => negb (startswith "content-" (lower (fst h))))
                           (_headers msg);
        _payload := PayloadNone |}).

(** The headers with the first one of that name made from the new text,
    in its place and under its name. *)
Fixpoint replace_first (name val : string) (hs : list header) : list header :=
  match hs with
  | [] => []
  | h :: rest =>
      if same_name name h then (fst h, val) :: rest
      else h :: replace_first name val rest
  end.

(** [msg.replace_header(name, val)]: a KeyError without a header of that
    name; otherwise the new header is made, which may fail as in
    [msg[name] = val], and takes the place of the first one. *)
Definition replace_header (lib : PyLib) (name val : string) : M EmailMessage unit :=
  fun msg =>
    match raw_header name (_headers msg) with
    | None => raise KeyError ("'" +++ lower name +++ "'") msg
    | Some _ =>
        (header_store_parse lib name val ;;;
         put_state {| _headers := replace_first name val (_headers msg);
                      _payload := _payload msg |}) msg
    end.

(** ** Module constants *)

Definition MSMTP_ACCOUNT : string := "gmail".
Definition MSMTP_FROM_EMAIL : string := "u0992244071@gmail.com".
Definition MSMTP_DEFAULT_FULLNAME : string := "N150 Home Server Monitoring".

(** ** email.utils.formataddr *)

(** A character of [specialsre]: one of ] [ \ ( ) < > @ , : ; . or the
    double quote. *)
Definition is_special (c : ascii) : bool :=
  existsb (Nat.eqb (ord c)) [93; 91; 92; 40; 41; 60; 62; 64; 44; 58; 59; 34; 46].

(** A character of [escapesre]: the backslash or the double quote. *)
Definition is_escaped (c : ascii) : bool :=
  (ord c =? 92) || (ord c =? 34).

Fixpoint specialsre_search (name : string) : bool :=
  match name with
  | EmptyString => false
  | String c rest => is_special c || specialsre_search rest
  end.

(** [escapesre.sub(r'\\\g<0>', name)]: a backslash before each match. *)
Fixpoint escapesre_sub (name : string) : string :=
  match name with
  | EmptyString => EmptyString
  | String c rest =>
      if is_escaped c then backslash +++ String c (escapesre_sub rest)
      else String c (escapesre_sub rest)
  end.

Definition formataddr (lib : PyLib) (name address : string) : string :=
  if str_truthy name then
    if is_ascii name then
      let quotes := if specialsre_search name then dquote else "" in
      quotes +++ escapesre_sub name +++ quotes +++ " <" +++ address +++ ">"
    else header_encode lib name +++ " <" +++ address +++ ">"
  else address.

(** ** dict, as far as [dict.fromkeys] needs it *)

(** A dict is the list of its items in insertion order.  [d[k] = v] keeps
    the place of a key that is present and appends a new one. *)
Fixpoint dict_setitem {V : Type} (k : string) (v : V) (d : list (string * V))
  : list (string * V) :=
  match d with
  | [] => [(k, v)]
  | (k', v') :: rest =>
      if (k' =? k)%string then (k', v) :: rest
      else (k', v') :: dict_setitem k v rest
  end.

(** [dict.fromkeys(keys)]: every key in turn, with the value [None]. *)
Definition dict_fromkeys (keys : list string) : list (string * unit) :=
  fold_left (fun d k => dict_setitem k tt d) keys [].

(** [list(d)]: the keys in insertion order. *)
Definition dict_keys {V : Type} (d : list (string * V)) : list string := map fst d.

(** [d.get(k, default)]. *)
Definition dict_get {V : Type} (k : string) (d : list (string * V)) (default : V) : V :=
  match find (fun kv => (fst kv =? k)%string) d with
  | Some kv => snd kv
  | None => default
  end.

(** ** EmailMessageBuilder *)

Record EmailMessageBuilder : Type := {
  _msg : EmailMessage;
  _from_full_name : string;
  _to : list string;
  _cc : list string;
  _bcc : list string
}.

(** [EmailMessageBuilder()]. *)
Definition new_builder : EmailMessageBuilder :=
  {| _msg := {| _headers := []; _payload := PayloadNone |};
     _from_full_name := MSMTP_DEFAULT_FULLNAME;
     _to := []; _cc := []; _bcc := [] |}.

Definition with_msg (m : EmailMessage) (self : EmailMessageBuilder) : EmailMessageBuilder :=
  {| _msg := m; _from_full_name := _from_full_name self;
     _to := _to self; _cc := _cc self; _bcc := _bcc self |}.

(** Runs a method of [self._msg]. *)
Definition on_msg {A : Type} (m : M EmailMessage A) : M EmailMessageBuilder A :=
  zoom _msg with_msg m.

(** The fluent methods return [self]; the model returns nothing, the
    builder being the state. *)
Definition set_from_full_name (name : string) : M EmailMessageBuilder unit :=
  fun self =>
    (Return tt,
     {| _msg := _msg self; _from_full_name := name;
        _to := _to self; _cc := _cc self; _bcc := _bcc self |}).

Definition add_to (email : string) : M EmailMessageBuilder unit :=
  fun self =>
    (Return tt,
     {| _msg := _msg self; _from_full_name := _from_full_name self;
        _to := _to self ++ [email]; _cc := _cc self; _bcc := _bcc self |}).

Definition add_cc (email : string) : M EmailMessageBuilder unit :=
  fun self =>
    (Return tt,
     {| _msg := _msg self; _from_full_name := _from_full_name self;
        _to := _to self; _cc := _cc self ++ [email]; _bcc := _bcc self |}).

Definition add_bcc (email : string) : M EmailMessageBuilder unit :=
  fun self =>
    (Return tt,
     {| _msg := _msg self; _from_full_name := _from_full_name self;
        _to := _to self; _cc := _cc self; _bcc := _bcc self ++ [email] |}).

Definition set_subject (lib : PyLib) (subject : string) : M EmailMessageBuilder unit :=
  on_msg (setitem lib "Subject" subject).

(** [bool(l)] for a list. *)
Definition list_truthy {A : Type} (l : list A) : bool :=
  match l with
  | [] => false
  | _ :: _ => true
  end.

(** [bool(x)] for [None] or a string. *)
Definition opt_truthy (x : option string) : bool :=
  match x with
  | None => false
  | Some s => str_truthy s
  end.

(** [part.get_content_type() in ("text/plain", "text/html")]. *)
Definition is_text_part (lib : PyLib) (part : MIMEPart) : bool :=
  let ctype := get_content_type lib (part_headers part) in
  (ctype =? "text/plain")%string || (ctype =? "text/html")%string.

(** The body check of [build]. *)
Definition check_body (lib : PyLib) : M EmailMessageBuilder unit :=
  fun self =>
    match _payload (_msg self) with
    | PayloadParts parts =>
        let text_parts := filter (is_text_part lib) parts in
        if negb (list_truthy text_parts)
        then raise EmailBuildError "No body set in multipart message." self
        else ret tt self
    | _ =>
        let payload := get_payload_decode (_msg self) in
        if negb (opt_truthy payload)
        then raise EmailBuildError "No body set." self
        else ret tt self
    end.

(** [build()].  The message returned is [self._msg] itself; the model
    returns its value at that point. *)
Definition build (lib : PyLib) : M EmailMessageBuilder EmailMessage :=
  self <- get_state ;;
  if negb (list_truthy (_to self) || list_truthy (_cc self) || list_truthy (_bcc self))
  then raise EmailBuildError "No recipients set (add_to/add_cc/add_bcc)."
  else if negb (opt_truthy (get_header lib "Subject" (_headers (_msg self))))
  then raise EmailBuildError "No subject set."
  else
    check_body lib ;;;
    on_msg (setitem lib "From" (formataddr lib (_from_full_name self) MSMTP_FROM_EMAIL)) ;;;
    (if list_truthy (_to self)
     then on_msg (setitem lib "To" (join ", " (_to self))) else ret tt) ;;;
    (if list_truthy (_cc self)
     then on_msg (setitem lib "Cc" (join ", " (_cc self))) else ret tt) ;;;
    done <- get_state ;;
    ret (_msg done).

(** [recipients()]. *)
Definition recipients (self : EmailMessageBuilder) : list string :=
  dict_keys (dict_fromkeys (_to self ++ _cc self ++ _bcc self)).

(** [msg.set_content(text, subtype=subtype)] for a text, as [EmailMessage]
    and the raw data manager do it: refused on a multipart message;
    otherwise the old content goes, Content-Type is set, the text is stored
    with its lines ended by LF, the charset parameter is added to the
    Content-Type header in its place, the transfer encoding is named, and
    MIME-Version is added if missing.  The text of the Content-Type header
    with its parameter is the one [set_param] makes when [subtype] is a
    plain token such as plain or html. *)
Definition set_content (lib : PyLib) (text subtype : string) : M EmailMessage unit :=
  msg <- get_state ;;
  if (get_content_maintype lib (_headers msg) =? "multipart")%string
  then raise TypeError "set_content not valid on multipart"
  else
    clear_content ;;;
    setitem lib "Content-Type" ("text/" +++ subtype) ;;;
    (fun m => (Return tt,
       {| _headers := _headers m;
          _payload := PayloadBody (join LF (bytes_splitlines text) +++ LF) |})) ;;;
    replace_header lib "Content-Type"
      ("text/" +++ subtype +++ "; charset=" +++ dquote +++ "utf-8" +++ dquote) ;;;
    setitem lib "Content-Transfer-Encoding" (text_cte lib text) ;;;
    now <- get_state ;;
    match raw_header "MIME-Version" (_headers now) with
    | Some _ => ret tt
    | None => setitem lib "MIME-Version" "1.0"
    end.

Definition set_body (lib : PyLib) (text subtype : string) : M EmailMessageBuilder unit :=
  on_msg (set_content lib text subtype).

(** ** The environment *)

(** What [json.load] returns.  A list holds the strings [add_to] takes by
    its annotation; a float is seen only through its truth value. *)
#[warnings="-register-all"]
Inductive pyjson : Type :=
| PyNone
| PyBool (b : bool)
| PyInt (n : Z)
| PyFloat (nonzero : bool)
| PyStr (s : string)
| PyList (items : list string)
| PyDict (members : list (string * pyjson)).

(** [subprocess.CompletedProcess]. *)
Record CompletedProcess : Type := {
  returncode : Z;
  stdout : string;
  stderr : string
}.

(** [datetime.datetime], to the second. *)
Record datetime : Type := {
  year : nat; month : nat; day : nat;
  hour : nat; minute : nat; second : nat
}.

(** The requests the module makes of the operating system. *)
Inductive Event : Type :=
| EvJsonLoad (path : string)
| EvRun (cmd : list string) (input : string) (timeout : Z)
| EvMakedirs (path : string)
| EvAppend (path : string) (text : string).

(** The answers, each a function of the requests made so far.
    - [json_load]: [open(path, "r", encoding="utf-8")] and [json.load];
    - [subprocess_run]: [subprocess.run(cmd, input=..., stdout=PIPE,
      stderr=PIPE, timeout=...)];
    - [os_makedirs]: [os.makedirs(path, exist_ok=True)];
    - [datetime_now]: [datetime.now()];
    - [open_append_write]: [open(path, "a", encoding="utf-8")] and one
      [write]. *)
Record Env : Type := {
  json_load : list Event -> string -> outcome pyjson;
  subprocess_run : list Event -> list string -> string -> Z -> outcome CompletedProcess;
  os_makedirs : list Event -> string -> outcome unit;
  datetime_now : list Event -> datetime;
  open_append_write : list Event -> string -> string -> outcome unit
}.

(** A request: answered on the trace so far, then recorded. *)
Definition request {A : Type} (ev : Event) (answer : list Event -> outcome A)
  : M (list Event) A :=
  fun trace => (answer trace, trace ++ [ev]).

(** The state of a run: the builder and the trace of requests. *)
Definition Proc (A : Type) : Type := M (EmailMessageBuilder * list Event) A.

Definition on_builder {A : Type} (m : M EmailMessageBuilder A) : Proc A :=
  zoom fst (fun b s => (b, snd s)) m.

Definition on_trace {A : Type} (m : M (list Event) A) : Proc A :=
  zoom snd (fun t s => (fst s, t)) m.

(** ** load_recipients_from_file *)

(** [bool(x)] for a value of [json.load]. *)
Definition py_truthy (x : pyjson) : bool :=
  match x with
  | PyNone => false
  | PyBool b => b
  | PyInt n => negb (n =? 0)%Z
  | PyFloat nonzero => nonzero
  | PyStr s => str_truthy s
  | PyList items => list_truthy items
  | PyDict members => list_truthy members
  end.

(** The characters of a string: a byte that continues a UTF-8 sequence
    stays with the byte that opened it. *)
Definition is_continuation (c : ascii) : bool :=
  (128 <=? ord c) && (ord c <? 192).

Fixpoint chars_from (cur s : string) : list string :=
  match s with
  | EmptyString => if str_truthy cur then [cur] else []
  | String c rest =>
      if is_continuation c then chars_from (cur +++ String c "") rest
      else (if str_truthy cur then [cur] else []) ++ chars_from (String c "") rest
  end.

(** [iter(x)]: what a [for] loop over the value goes through. *)
Definition py_iter {S : Type} (x : pyjson) : M S (list string) :=
  match x with
  | PyList items => ret items
  | PyStr s => ret (chars_from "" s)
  | PyDict members => ret (dict_keys members)
  | PyInt _ => raise TypeError "'int' object is not iterable"
  | PyBool _ => raise TypeError "'bool' object is not iterable"
  | PyFloat _ => raise TypeError "'float' object is not iterable"
  | PyNone => raise TypeError "'NoneType' object is not iterable"
  end.

(** [for x in items: body x]. *)
Fixpoint for_each {S A : Type} (items : list A) (body : A -> M S unit) : M S unit :=
  match items with
  | [] => ret tt
  | x :: rest => body x ;;; for_each rest body
  end.

Definition load_recipients_from_file (env : Env) (path : string) : Proc unit :=
  try_except
    (data <- on_trace (request (EvJsonLoad path) (fun trace => json_load env trace path)) ;;
     emails <-
       match data with
       | PyDict members => ret (dict_get "recipients" members (PyList []))
       | PyList _ => ret data
       | _ => raise EmailBuildError "Recipient file format not recognized."
       end ;;
     if negb (py_truthy emails)
     then raise EmailBuildError "No emails found in recipient file."
     else
       items <- py_iter emails ;;
       for_each items (fun email => on_builder (add_to email)))
    (fun e => raise EmailBuildError ("Error reading recipient file: " +++ exc_str e)).

(** ** MsmtpClient *)

Record MsmtpClient : Type := {
  msmtp_path : string;
  log_file : option string
}.

(** [MsmtpClient()] with its defaults. *)
Definition default_client : MsmtpClient :=
  {| msmtp_path := "/usr/bin/msmtp"; log_file := None |}.

Definition _build_cmd (self : MsmtpClient) (recipients : list string) : list string :=
  [msmtp_path self; "-a"; MSMTP_ACCOUNT] ++ recipients.

(** [os.path.dirname] of [posixpath]: the text up to the last slash, with
    the slashes at its end removed unless it holds nothing else.  The two
    helpers work on the reversed path. *)
Fixpoint from_last_slash (reversed : string) : string :=
  match reversed with
  | EmptyString => EmptyString
  | String c rest => if ord c =? 47 then reversed else from_last_slash rest
  end.

Fixpoint strip_slashes (reversed : string) : string :=
  match reversed with
  | EmptyString => EmptyString
  | String c rest => if ord c =? 47 then strip_slashes rest else reversed
  end.

Definition dirname (p : string) : string :=
  let head := from_last_slash (rev_string "" p) in
  let stripped := strip_slashes head in
  rev_string "" (if str_truthy stripped then stripped else head).

(** A number in decimal, filled with zeros on the left up to [width]. *)
Fixpoint zeros (n : nat) : string :=
  match n with
  | O => ""
  | S k => "0" +++ zeros k
  end.

Definition zero_pad (width n : nat) : string :=
  let digits := str_of_nat n in
  zeros (width - String.length digits) +++ digits.

(** [ts.strftime("%Y-%m-%d %H:%M:%S")], for a year of four digits as the
    clock gives it. *)
Definition strftime (ts : datetime) : string :=
  zero_pad 4 (year ts) +++ "-" +++ zero_pad 2 (month ts) +++ "-" +++ zero_pad 2 (day ts)
  +++ " " +++ zero_pad 2 (hour ts) +++ ":" +++ zero_pad 2 (minute ts) +++ ":"
  +++ zero_pad 2 (second ts).

(** [repr(l)] of a list of strings. *)
Definition list_repr (lib : PyLib) (l : list string) : string :=
  "[" +++ join ", " (map (str_repr lib) l) +++ "]".

(** [str(x)] as an f-string writes [None] or a string. *)
Definition fmt (x : option string) : string :=
  match x with
  | None => "None"
  | Some s => s
  end.

Section Client.

Variable lib : PyLib.
Variable env : Env.

(** The text [_write_log] appends. *)
Definition log_line (ts : datetime) (success : bool) (subject : option string)
  (recipients : list string) (error : option string) : string :=
  let status := if success then "OK" else "FAIL (" +++ fmt error +++ ")" in
  "[" +++ strftime ts +++ "] " +++ status +++ " | Subject='" +++ fmt subject
  +++ "' | To=" +++ list_repr lib recipients +++ LF.

Definition _write_log (self : MsmtpClient) (success : bool) (subject : option string)
  (recipients : list string) (error : option string) : M (list Event) unit :=
  if negb (opt_truthy (log_file self)) then ret tt
  else
    let path := fmt (log_file self) in
    request (EvMakedirs (dirname path)) (fun trace => os_makedirs env trace (dirname path)) ;;;
    trace <- get_state ;;
    let ts := datetime_now env trace in
    let line := log_line ts success subject recipients error in
    request (EvAppend path line) (fun trace => open_append_write env trace path line).

(** [send(builder, timeout)].  The message is serialised before the
    [try]: an exception of [msg.as_bytes()] leaves [send] as it is, with
    no process run and nothing logged.  The calls of [logger] leave no
    trace in the state and are not modelled. *)
Definition send (self : MsmtpClient) (timeout : Z) : Proc unit :=
  msg <- on_builder (build lib) ;;
  builder <- on_builder get_state ;;
  let recipients := recipients builder in
  let cmd := _build_cmd self recipients in
  raw_bytes <- (fun s => (as_bytes lib msg, s)) ;;
  let subject := get_header lib "Subject" (_headers msg) in
  proc <- try_except
            (on_trace (request (EvRun cmd raw_bytes timeout)
                         (fun trace => subprocess_run env trace cmd raw_bytes timeout)))
            (fun e =>
               on_trace (_write_log self false subject recipients (Some (exc_str e))) ;;;
               raise MsmtpSendError (exc_str e)) ;;
  if negb (returncode proc =? 0)%Z then
    let err := decode_ignore lib (stderr proc) in
    on_trace (_write_log self false subject recipients (Some err)) ;;;
    raise MsmtpSendError err
  else
    on_trace (_write_log self true subject recipients None).

End Client.

(** * The vocabulary of the properties *)

(** ** Calls on a builder *)

(** The calls that add a recipient. *)
Inductive recipient_call : Type :=
| AddTo (email : string)
| AddCc (email : string)
| AddBcc (email : string).

Definition run_call (c : recipient_call) : M EmailMessageBuilder unit :=
  match c with
  | AddTo email => add_to email
  | AddCc email => add_cc email
  | AddBcc email => add_bcc email
  end.

Definition run_calls (calls : list recipient_call) (self : EmailMessageBuilder)
  : EmailMessageBuilder :=
  fold_left (fun b c => snd (run_call c b)) calls self.

Definition to_of (c : recipient_call) : list string :=
  match c with AddTo email => [email] | _ => [] end.
Definition cc_of (c : recipient_call) : list string :=
  match c with AddCc email => [email] | _ => [] end.
Definition bcc_of (c : recipient_call) : list string :=
  match c with AddBcc email => [email] | _ => [] end.

Inductive builder_call : Type :=
| CallSetFromFullName (name : string)
| CallAddTo (email : string)
| CallAddCc (email : string)
| CallAddBcc (email : string)
| CallSetSubject (subject : string)
| CallSetBody (text subtype : string)
| CallBuild.

Definition run_builder_call (lib : PyLib) (c : builder_call) : M EmailMessageBuilder unit :=
  match c with
  | CallSetFromFullName name => set_from_full_name name
  | CallAddTo email => add_to email
  | CallAddCc email => add_cc email
  | CallAddBcc email => add_bcc email
  | CallSetSubject subject => set_subject lib subject
  | CallSetBody text subtype => set_body lib text subtype
  | CallBuild => build lib ;;; ret tt
  end.

(** The builder after a sequence of calls, whether they raise or not. *)
Definition run_builder_calls (lib : PyLib) (calls : list builder_call)
  (self : EmailMessageBuilder) : EmailMessageBuilder :=
  fold_left (fun b c => snd (run_builder_call lib c b)) calls self.

(** ** The delivery list *)

(** Follows the words of the specification, the deduplicated union in
    first-seen order: an address stays where it is first seen and its
    later copies go. *)
Fixpoint first_seen (l : list string) : list string :=
  match l with
  | [] => []
  | x :: rest => x :: filter (fun y => negb (y =? x)%string) (first_seen rest)
  end.

Definition mem (x : string) (l : list string) : bool := existsb (String.eqb x) l.

(** ** What build checks and what it sets *)

(** No recipient in any of the three lists. *)
Definition no_recipients (self : EmailMessageBuilder) : Prop :=
  _to self = [] /\ _cc self = [] /\ _bcc self = [].

(** No Subject header, or one that reads as the empty string. *)
Definition no_subject (lib : PyLib) (self : EmailMessageBuilder) : Prop :=
  forall subject,
    get_header lib "Subject" (_headers (_msg self)) = Some subject -> subject = "".

(** No body: no subpart of type text/plain or text/html in a multipart
    message, no payload or an empty one otherwise. *)
Definition no_body (lib : PyLib) (self : EmailMessageBuilder) : Prop :=
  match _payload (_msg self) with
  | PayloadParts parts =>
      forall part, In part parts ->
        get_content_type lib (part_headers part) <> "text/plain" /\
        get_content_type lib (part_headers part) <> "text/html"
  | PayloadBody decoded => decoded = ""
  | PayloadNone => True
  end.

(** The headers [build] adds once validation has passed. *)
Definition built_headers (lib : PyLib) (self : EmailMessageBuilder) : list header :=
  [("From", formataddr lib (_from_full_name self) MSMTP_FROM_EMAIL)]
  ++ (if list_truthy (_to self) then [("To", join ", " (_to self))] else [])
  ++ (if list_truthy (_cc self) then [("Cc", join ", " (_cc self))] else []).

Definition add_headers (hs : list header) (msg : EmailMessage) : EmailMessage :=
  {| _headers := _headers msg ++ hs; _payload := _payload msg |}.

(** No header of the name in the message. *)
Definition no_header (name : string) (msg : EmailMessage) : Prop :=
  Forall (fun h => same_name name h = false) (_headers msg).

(** No character of the name is one [escapesre] matches. *)
Fixpoint nothing_to_escape (name : string) : bool :=
  match name with
  | EmptyString => true
  | String c rest => negb (is_escaped c) && nothing_to_escape rest
  end.

(** ** What the loader does *)

(** The builder with more To addresses. *)
Definition append_to (items : list string) (self : EmailMessageBuilder) : EmailMessageBuilder :=
  {| _msg := _msg self; _from_full_name := _from_full_name self;
     _to := _to self ++ items; _cc := _cc self; _bcc := _bcc self |}.

(** What the loader makes of the value it takes the addresses from: the
    cause of its error, or the addresses it adds. *)
Definition emails_in (emails : pyjson) : string + list string :=
  match emails with
  | PyList (x :: rest) => inr (x :: rest)
  | PyStr (String c s) => inr (chars_from "" (String c s))
  | PyDict (kv :: rest) => inr (dict_keys (kv :: rest))
  | PyInt n => if (n =? 0)%Z then inl "No emails found in recipient file."
               else inl "'int' object is not iterable"
  | PyBool true => inl "'bool' object is not iterable"
  | PyFloat true => inl "'float' object is not iterable"
  | _ => inl "No emails found in recipient file."
  end.

(** What the loader makes of the parsed file. *)
Definition emails_of (data : pyjson) : string + list string :=
  match data with
  | PyDict members => emails_in (dict_get "recipients" members (PyList []))
  | PyList _ => emails_in data
  | _ => inl "Recipient file format not recognized."
  end.

(** The build error the loader raises for a cause. *)
Definition recipient_file_error (cause : string) : exn :=
  Exn EmailBuildError ("Error reading recipient file: " +++ cause).

(** ** What send does *)

(** What [send] returns once [_write_log] has run: the exception of the
    log write if it raised, the result of the send otherwise. *)
Definition after_log (built : EmailMessageBuilder) (result : outcome unit)
  (logged : outcome unit * list Event)
  : outcome unit * (EmailMessageBuilder * list Event) :=
  match logged with
  | (Raise e, trace) => (Raise e, (built, trace))
  | (Return _, trace) => (result, (built, trace))
  end.

(** What one run of the process means for [send]: whether it counts as
    a success, the error text that is logged, and the result of the
    send. *)
Definition send_result (lib : PyLib) (answer : outcome CompletedProcess)
  : bool * option string * outcome unit :=
  match answer with
  | Raise e => (false, Some (exc_str e), Raise (Exn MsmtpSendError (exc_str e)))
  | Return proc =>
      if (returncode proc =? 0)%Z then (true, None, Return tt)
      else
        let err := decode_ignore lib (stderr proc) in
        (false, Some err, Raise (Exn MsmtpSendError err))
  end.

(** A request [_write_log] makes. *)
Definition is_log_event (ev : Event) : Prop :=
  match ev with
  | EvMakedirs _ | EvAppend _ _ => True
  | _ => False
  end.

(** ** Data for the examples *)

(** The wire form of a message whose headers are short ASCII lines and
    whose body is 7bit text: the headers, an empty line, the body. *)
Definition wire_headers (hs : list header) : string :=
  String.concat "" (map (fun h => fst h +++ ": " +++ snd h +++ LF) hs).

(** The wire form of a message of the examples. *)
Definition wire (msg : EmailMessage) : string :=
  wire_headers (_headers msg) +++ LF +++
  match _payload msg with PayloadBody decoded => decoded | _ => "" end.

(** Eighty letters, and the same followed by a double quote: a text the
    parser of an address header takes, reading it without the quote, and
    the serialiser fails on. *)
Definition eighty_x : string :=
  "xxxxxxxxxxxxxxxxxxxxxxxxxxxxxxxxxxxxxxxxxxxxxxxxxxxxxxxxxxxxxxxxxxxxxxxxxxxxxxxx".
Definition unclosed_quote : string := eighty_x +++ dquote.

(** What the library (CPython 3.11) reads from the header texts of the
    examples that it does not keep as they are: in an address header the
    blanks between the words of a display name are one blank, the blank
    after an address goes and so do a line feed at the end and a quote
    that is not closed; in a Subject an encoded word is decoded. *)
Definition sample_decoded (name value : string) : string :=
  if ((name =? "from") && (value =? "a  b <u0992244071@gmail.com>"))%string
  then "a b <u0992244071@gmail.com>"
  else if ((name =? "to") && (value =? "b@x "))%string then "b@x"
  else if ((name =? "to") && (value =? unclosed_quote))%string then eighty_x
  else if ((name =? "to") && (value =? "dest@example.com, to@x, to2@x, a@x" +++ LF))%string
  then "dest@example.com, to@x, to2@x, a@x"
  else if ((name =? "subject") && (value =? "=?utf-8?q??="))%string then ""
  else if ((name =? "subject") && (value =? "=?utf-8?q?hello?="))%string then "hello"
  else value.

(** The one text of the examples the parser of an address header fails
    on. *)
Definition sample_refused (name value : string) : option exn :=
  if ((name =? "to") && (value =? "a@"))%string
  then Some (Exn IndexError "string index out of range")
  else None.

(** The serialiser on the examples: it fails on a To header made from
    [unclosed_quote], and gives the wire form otherwise. *)
Definition sample_as_bytes (msg : EmailMessage) : outcome string :=
  if existsb (fun h => ((lower (fst h) =? "to") && (snd h =? unclosed_quote))%string)
       (_headers msg)
  then Raise (Exn IndexError "list index out of range")
  else Return (wire msg).

(** A library for evaluating the model on the examples, whose data is
    short ASCII text.  On such data [as_bytes] (for a message that is not
    multipart and whose header texts are kept as they are),
    [decode_ignore], [str_repr], [text_cte], [header_decoded] and
    [header_refused] agree with Python.  [header_encode], which
    [formataddr] calls only for a display name that is not ASCII, is not
    called on them and returns its argument. *)
Definition sample_lib : PyLib.
Proof.
  refine
    {| as_bytes := sample_as_bytes;
       header_encode := fun name => name;
       decode_ignore := fun data => data;
       str_repr := fun s => "'" +++ s +++ "'";
       text_cte := fun _ => "7bit";
       header_decoded := sample_decoded;
       header_refused := sample_refused;
       decode_ignore_ascii := fun data _ => eq_refl;
       header_refused_class := _;
       text_cte_known := fun _ => or_introl eq_refl;
       library_headers_kept := _;
       plain_subject_kept := _ |}.
  - intros name value e H. unfold sample_refused in H.
    destruct ((name =? "to") && (value =? "a@"))%string; [| discriminate].
    injection H as <-. discriminate.
  - intros name value H.
    repeat (destruct H as [H | H]; [injection H as <- <-; split; reflexivity |]).
    destruct H.
  - intros value H. split; [reflexivity |].
    unfold sample_decoded. cbn [String.eqb Ascii.eqb Bool.eqb andb].
    destruct (value =? "=?utf-8?q??=")%string eqn:E1.
    { apply String.eqb_eq in E1. subst value. discriminate H. }
    destruct (value =? "=?utf-8?q?hello?=")%string eqn:E2.
    { apply String.eqb_eq in E2. subst value. discriminate H. }
    reflexivity.
Defined.

(** The builder of the unit tests: one To address, a subject, a body. *)
Definition test_builder (subject : string) : EmailMessageBuilder :=
  snd ((add_to "dest@example.com" ;;;
        set_subject sample_lib subject ;;;
        set_body sample_lib "Body" "plain") new_builder).

(** The same for any To address. *)
Definition addressed_builder (email : string) : EmailMessageBuilder :=
  snd ((add_to email ;;;
        set_subject sample_lib "Subject" ;;;
        set_body sample_lib "Body" "plain") new_builder).


(** A builder with To, Cc and Bcc addresses. *)
Definition copied_builder : EmailMessageBuilder :=
  snd ((add_to "to@x" ;;; add_to "to2@x" ;;; add_cc "cc@x" ;;; add_bcc "bcc@x")
         (test_builder "Subject")).

(** The builder and the message a successful [build] leaves. *)
Definition built_of (self : EmailMessageBuilder) : EmailMessageBuilder :=
  snd (build sample_lib self).
Definition message_of (self : EmailMessageBuilder) : EmailMessage :=
  _msg (built_of self).

(** The client of Example.py, which logs under /var/log. *)
Definition logging_client : MsmtpClient :=
  {| msmtp_path := "/usr/bin/msmtp"; log_file := Some "/var/log/msmtp_mail.log" |}.

(** What the operating system raises where the user may not write. *)
Definition permission_denied (path : string) : exn :=
  Exn OSError ("[Errno 13] Permission denied: '" +++ path +++ "'").

(** An environment whose recipients file parses to [data]; the loader
    asks nothing else of it. *)
Definition file_env (data : outcome pyjson) : Env :=
  {| json_load := fun _ _ => data;
     subprocess_run := fun _ _ _ _ => Raise (Exn OSError "no process");
     os_makedirs := fun _ _ => Return tt;
     datetime_now := fun _ =>
       {| year := 2025; month := 1; day := 1; hour := 0; minute := 0; second := 0 |};
     open_append_write := fun _ _ _ => Return tt |}.

(** An environment for [send]: the answer of the process, of
    [os.makedirs] and of the write to the log, at 09:05:00 on 7 March
    2025. *)
Definition process_env (answer : outcome CompletedProcess) (made written : outcome unit)
  : Env :=
  {| json_load := fun _ _ => Raise (Exn OSError "no file");
     subprocess_run := fun _ _ _ _ => answer;
     os_makedirs := fun _ _ => made;
     datetime_now := fun _ =>
       {| year := 2025; month := 3; day := 7; hour := 9; minute := 5; second := 0 |};
     open_append_write := fun _ _ _ => written |}.

(** A process that exits with [code] and writes [err] to its standard
    error. *)
Definition exited (code : Z) (err : string) : outcome CompletedProcess :=
  Return {| returncode := code; stdout := ""; stderr := err |}.

(** * The rest of the module *)

(** ** add_attachment *)

(** What the library does with the bytes of an attachment and with a
    payload it moves into a subpart, left uninterpreted. *)
Record MimeLib : Type := {
  (** [_encode_base64(data, max_line_length)]. *)
  encode_base64 : string -> string;
  (** [utils.encode_rfc2231(value, 'utf-8', '')]. *)
  encode_rfc2231 : string -> string;
  (** The payload of a message as the subpart it is moved into holds it. *)
  moved_payload : payload -> string
}.

(** The requests [add_attachment] makes of the file system. *)
Inductive FileEvent : Type :=
| EvIsFile (path : string)
| EvReadBytes (path : string).

(** The answers: [os.path.isfile(path)], [mimetypes.guess_type(path)[0]]
    and [open(path, "rb")] with [read]. *)
Record FileEnv : Type := {
  os_path_isfile : list FileEvent -> string -> bool;
  mimetypes_guess_type : string -> option string;
  open_read_bytes : list FileEvent -> string -> outcome string
}.

(** A request to the file system: answered on the trace so far, then
    recorded. *)
Definition ask {A : Type} (ev : FileEvent) (answer : list FileEvent -> outcome A)
  : M (list FileEvent) A :=
  fun trace => (answer trace, trace ++ [ev]).

(** [s.partition('/')[2]]: the text after the first slash, empty when
    there is none. *)
Fixpoint after_slash (s : string) : string :=
  match s with
  | EmptyString => EmptyString
  | String c rest => if ord c =? 47 then rest else after_slash rest
  end.

(** [maintype, subtype = mime_type.split("/", 1)]. *)
Definition split_mime_type {S : Type} (mime_type : string) : M S (string * string) :=
  if 0 <? count_char "/" mime_type
  then ret (before_char "/" mime_type, after_slash mime_type)
  else raise ValueError "not enough values to unpack (expected 2, got 1)".

(** [os.path.basename] of [posixpath]: the text after the last slash. *)
Fixpoint until_slash (reversed : string) : string :=
  match reversed with
  | EmptyString => EmptyString
  | String c rest => if ord c =? 47 then EmptyString else String c (until_slash rest)
  end.

Definition basename (p : string) : string :=
  rev_string "" (until_slash (rev_string "" p)).

(** [msg.get_content_subtype()]. *)
Definition get_content_subtype (lib : PyLib) (hs : list header) : string :=
  after_slash (get_content_type lib hs).

(** [name.lower().startswith('content-')]. *)
Definition is_content_header (h : header) : bool :=
  startswith "content-" (lower (fst h)).

(** [msg._make_multipart(subtype, disallowed_subtypes, None)]: the
    content headers and the payload move into a first subpart, if there
    are content headers, and the message becomes multipart. *)
Definition _make_multipart (lib : PyLib) (mlib : MimeLib) (subtype : string)
  (disallowed_subtypes : list string) : M EmailMessage unit :=
  msg <- get_state ;;
  (if (get_content_maintype lib (_headers msg) =? "multipart")%string
   then
     let existing_subtype := get_content_subtype lib (_headers msg) in
     if existsb (String.eqb existing_subtype) (disallowed_subtypes ++ [subtype])
     then raise ValueError ("Cannot convert " +++ existing_subtype +++ " to " +++ subtype)
     else ret tt
   else ret tt) ;;;
  let keep_headers := filter (fun h => negb (is_content_header h)) (_headers msg) in
  let part_headers := filter is_content_header (_headers msg) in
  put_state
    {| _headers := keep_headers;
       _payload :=
         if list_truthy part_headers
         then PayloadParts [{| part_headers := part_headers;
                               part_payload := moved_payload mlib (_payload msg) |}]
         else PayloadParts [] |} ;;;
  setitem lib "Content-Type" ("multipart/" +++ subtype).

(** [msg.make_mixed()]. *)
Definition make_mixed (lib : PyLib) (mlib : MimeLib) : M EmailMessage unit :=
  _make_multipart lib mlib "mixed" [].

(** [_formatparam(param, value)] with its default of quoting. *)
Definition _formatparam (mlib : MimeLib) (param value : string) : string :=
  if str_truthy value then
    if is_ascii value
    then param +++ "=" +++ dquote +++ escapesre_sub value +++ dquote
    else param +++ "*=" +++ encode_rfc2231 mlib value
  else param.

(** A new [EmailMessage]. *)
Definition new_message : EmailMessage := {| _headers := []; _payload := PayloadNone |}.

(** The subpart [_add_multipart] makes for an attachment: a new message
    on which [set_content(data, maintype=..., subtype=..., filename=...)]
    runs for bytes.  On a new message the content is not multipart and
    there is nothing to clear; the handler sets Content-Type, stores the
    data in base64 and names that encoding, sets Content-Disposition to
    attachment and replaces it, in place, by the header made from that
    value with the filename parameter; [EmailMessage.set_content] then
    adds MIME-Version. *)
Definition attachment_part (lib : PyLib) (mlib : MimeLib)
  (data maintype subtype filename : string) : outcome MIMEPart :=
  let disposition := "attachment; " +++ _formatparam mlib "filename" filename in
  let make : M EmailMessage unit :=
    setitem lib "Content-Type" (maintype +++ "/" +++ subtype) ;;;
    setitem lib "Content-Transfer-Encoding" "base64" ;;;
    setitem lib "Content-Disposition" "attachment" ;;;
    replace_header lib "Content-Disposition" disposition ;;;
    setitem lib "MIME-Version" "1.0" in
  match make new_message with
  | (Raise e, _) => Raise e
  | (Return _, part) =>
      Return {| part_headers := _headers part;
                part_payload := encode_base64 mlib data |}
  end.

(** [msg.attach(part)]. *)
Definition attach (part : MIMEPart) : M EmailMessage unit :=
  fun msg =>
    match _payload msg with
    | PayloadNone =>
        (Return tt, {| _headers := _headers msg; _payload := PayloadParts [part] |})
    | PayloadParts parts =>
        (Return tt, {| _headers := _headers msg; _payload := PayloadParts (parts ++ [part]) |})
    | PayloadBody _ =>
        raise TypeError "Attach is not valid on a message with a non-multipart payload" msg
    end.

(** [msg.add_attachment(data, maintype=..., subtype=..., filename=...)]. *)
Definition msg_add_attachment (lib : PyLib) (mlib : MimeLib)
  (data maintype subtype filename : string) : M EmailMessage unit :=
  msg <- get_state ;;
  (if negb (get_content_maintype lib (_headers msg) =? "multipart")%string
      || negb (get_content_subtype lib (_headers msg) =? "mixed")%string
   then make_mixed lib mlib else ret tt) ;;;
  part <- (fun made => (attachment_part lib mlib data maintype subtype filename, made)) ;;
  attach part.

(** The state of [add_attachment]: the builder and the requests to the
    file system. *)
Definition on_files {A : Type} (m : M (list FileEvent) A)
  : M (EmailMessageBuilder * list FileEvent) A :=
  zoom snd (fun t s => (fst s, t)) m.

Definition add_attachment (lib : PyLib) (mlib : MimeLib) (fenv : FileEnv) (path : string)
  (mime_type filename : option string) : M (EmailMessageBuilder * list FileEvent) unit :=
  isfile <- on_files (ask (EvIsFile path) (fun trace => Return (os_path_isfile fenv trace path))) ;;
  if negb isfile then raise EmailBuildError ("Attachment not found: " +++ path)
  else
    let mime_type :=
      match mime_type with
      | Some given => given
      | None =>
          match mimetypes_guess_type fenv path with
          | Some guessed => guessed
          | None => "application/octet-stream"
          end
      end in
    types <- split_mime_type mime_type ;;
    let '(maintype, subtype) := types in
    data <- on_files (ask (EvReadBytes path) (fun trace => open_read_bytes fenv trace path)) ;;
    let filename :=
      match filename with
      | Some given => given
      | None => basename path
      end in
    zoom fst (fun b s => (b, snd s))
      (on_msg (msg_add_attachment lib mlib data maintype subtype filename)).

(** ** What set_body leaves *)

(** The headers of a message that are not content headers. *)
Definition kept_headers (msg : EmailMessage) : list header :=
  filter (fun h => negb (is_content_header h)) (_headers msg).

(** The Content-Type [set_content] leaves for a text. *)
Definition text_content_type (subtype : string) : string :=
  "text/" +++ subtype +++ "; charset=" +++ dquote +++ "utf-8" +++ dquote.

(** The message [set_content] leaves for a text. *)
Definition with_text (lib : PyLib) (text subtype : string) (msg : EmailMessage)
  : EmailMessage :=
  {| _headers :=
       kept_headers msg
       ++ [("Content-Type", text_content_type subtype);
           ("Content-Transfer-Encoding", text_cte lib text)]
       ++ match raw_header "MIME-Version" (kept_headers msg) with
          | Some _ => []
          | None => [("MIME-Version", "1.0")]
          end;
     _payload := PayloadBody (join LF (bytes_splitlines text) +++ LF) |}.

(** ** What add_attachment leaves *)

(** The message is multipart/mixed already, by its Content-Type. *)
Definition mixed_already (lib : PyLib) (msg : EmailMessage) : bool :=
  (get_content_maintype lib (_headers msg) =? "multipart")%string
  && (get_content_subtype lib (_headers msg) =? "mixed")%string.

(** The content headers of a message. *)
Definition content_headers (msg : EmailMessage) : list header :=
  filter is_content_header (_headers msg).

(** The message [make_mixed] leaves. *)
Definition made_mixed (mlib : MimeLib) (msg : EmailMessage) : EmailMessage :=
  {| _headers := kept_headers msg ++ [("Content-Type", "multipart/mixed")];
     _payload :=
       if list_truthy (content_headers msg)
       then PayloadParts [{| part_headers := content_headers msg;
                             part_payload := moved_payload mlib (_payload msg) |}]
       else PayloadParts [] |}.

(** The message the attachment is attached to. *)
Definition mixed_base (lib : PyLib) (mlib : MimeLib) (msg : EmailMessage)
  : EmailMessage :=
  if mixed_already lib msg then msg else made_mixed mlib msg.

(** The type [add_attachment] works with. *)
Definition chosen_type (fenv : FileEnv) (path : string) (mime_type : option string) : string :=
  match mime_type with
  | Some given => given
  | None =>
      match mimetypes_guess_type fenv path with
      | Some guessed => guessed
      | None => "application/octet-stream"
      end
  end.

(** The name [add_attachment] gives the attachment. *)
Definition chosen_name (path : string) (filename : option string) : string :=
  match filename with
  | Some given => given
  | None => basename path
  end.

(** The Content-Disposition of an attachment. *)
Definition attachment_disposition (mlib : MimeLib) (filename : string) : string :=
  "attachment; " +++ _formatparam mlib "filename" filename.

(** The subpart of an attachment, when its headers are accepted. *)
Definition attachment_of (mlib : MimeLib) (data mime_type filename : string) : MIMEPart :=
  {| part_headers :=
       [("Content-Type", mime_type);
        ("Content-Transfer-Encoding", "base64");
        ("Content-Disposition", attachment_disposition mlib filename);
        ("MIME-Version", "1.0")];
     part_payload := encode_base64 mlib data |}.

(** A text of one line at most: what a header value has to be. *)
Definition one_line (value : string) : Prop := length (str_splitlines value) <= 1.

(** What refuses the text a header is made from, by its lowercased name: the ValueError of a text of more than one
    line, or the exception of the parser of that header. *)
Definition refusal (lib : PyLib) (name value : string) : option exn :=
  if 1 <? length (str_splitlines value)
  then Some (Exn ValueError
               "Header values may not contain linefeed or carriage return characters")
  else header_refused lib name value.

(** The subparts a message has before an attachment is added: its own when
    it is multipart/mixed already, its former content as one subpart when
    it had content headers, none otherwise. *)
Definition earlier_parts (lib : PyLib) (mlib : MimeLib) (msg : EmailMessage)
  : list MIMEPart :=
  if mixed_already lib msg then
    match _payload msg with
    | PayloadParts parts => parts
    | _ => []
    end
  else if list_truthy (content_headers msg) then
    [{| part_headers := content_headers msg;
        part_payload := moved_payload mlib (_payload msg) |}]
  else [].

(** The subpart a text set by [set_body] becomes. *)
Definition text_part (lib : PyLib) (mlib : MimeLib) (text subtype : string) : MIMEPart :=
  {| part_headers :=
       [("Content-Type", text_content_type subtype);
        ("Content-Transfer-Encoding", text_cte lib text)];
     part_payload :=
       moved_payload mlib (PayloadBody (join LF (bytes_splitlines text) +++ LF)) |}.

(** ** Data for the examples of add_attachment *)

(** A library for the examples.  No property looks into the encodings,
    which are left as the identity here. *)
Definition sample_mime : MimeLib :=
  {| encode_base64 := fun data => data;
     encode_rfc2231 := fun value => value;
     moved_payload := fun p => match p with PayloadBody decoded => decoded | _ => "" end |}.

(** A file system for the examples: whether the path is a file, the type
    guessed for it and what reading it gives. *)
Definition sample_files (present : bool) (guessed : option string) (content : outcome string)
  : FileEnv :=
  {| os_path_isfile := fun _ _ => present;
     mimetypes_guess_type := fun _ => guessed;
     open_read_bytes := fun _ _ => content |}.

(** A file that is there, is guessed to be a PDF and can be read. *)
Definition report_files : FileEnv :=
  sample_files true (Some "application/pdf") (Return "%PDF-1.4").

(** The builder after the report has been attached to it. *)
Definition attached (self : EmailMessageBuilder) : EmailMessageBuilder :=
  fst (snd (add_attachment sample_lib sample_mime report_files "/tmp/report.pdf" None None
              (self, []))).

(** ** Example.py *)

(** How the script ends: with an exit status, or on an exception nothing
    catches. *)
Inductive ending : Type :=
| Exit (status : Z)
| Uncaught (e : exn).

(** The body of the daily report. *)
Definition report_body : string :=
  "Bonjour," +++ LF +++ "Here is the daily report." +++ LF +++ "Regards.".

(** The first lines of [main]: a builder with the alias, the subject and
    the body of the report. *)
Definition report_builder (lib : PyLib) : outcome unit * EmailMessageBuilder :=
  (set_from_full_name "CashCue Daily Report" ;;;
   set_subject lib "CashCue Daily Report" ;;;
   set_body lib report_body "plain") new_builder.

(** The end of [main]: the send, and what is printed about it. *)
Definition deliver (lib : PyLib) (env : Env) (builder : EmailMessageBuilder)
  (trace : list Event) (printed : list string) : ending * list string * list Event :=
  let client := {| msmtp_path := "/usr/bin/msmtp";
                   log_file := Some "/var/log/msmtp_mail.log" |} in
  match send lib env client 60 (builder, trace) with
  | (Return _, (_, trace')) => (Exit 0, printed ++ ["Email sent successfully!"], trace')
  | (Raise e, (_, trace')) =>
      if exc_class_eqb (exc_type e) EmailBuildError
      then (Exit 1, printed ++ ["Email build error: " +++ exc_str e], trace')
      else (Exit 1, printed ++ ["Email send failed: " +++ exc_str e], trace')
  end.

(** [main()] run as a script with [sys.argv = argv]: how it ends, the
    lines it prints and the requests the builder and the client make.
    [isfile] answers [os.path.isfile]. *)
Definition main (lib : PyLib) (env : Env) (isfile : string -> bool) (argv : list string)
  : ending * list string * list Event :=
  match report_builder lib with
  | (Raise e, _) => (Uncaught e, [], [])
  | (Return _, builder) =>
      match argv with
      | _ :: recipients_file :: _ =>
          if negb (isfile recipients_file)
          then (Exit 1, ["Recipients file not found: " +++ recipients_file], [])
          else
            match load_recipients_from_file env recipients_file (builder, []) with
            | (Return _, (builder', trace)) =>
                deliver lib env builder' trace ["Loaded recipients from " +++ recipients_file]
            | (Raise e, (_, trace)) =>
                if exc_class_eqb (exc_type e) EmailBuildError
                then (Exit 1, ["Failed to load recipients: " +++ exc_str e], trace)
                else (Uncaught e, [], trace)
            end
      | _ =>
          if negb (list_truthy (_to builder))
          then (Exit 1,
                ["No recipients provided. Add at least one To address or provide a recipients.json file."],
                [])
          else deliver lib env builder [] []
      end
  end.

(** The builder [main] has made when it looks at its arguments. *)
Definition report (lib : PyLib) : EmailMessageBuilder :=
  {| _msg :=
       with_text lib report_body "plain"
         {| _headers := [("Subject", "CashCue Daily Report")]; _payload := PayloadNone |};
     _from_full_name := "CashCue Daily Report";
     _to := []; _cc := []; _bcc := [] |}.

(** The line [main] prints when it has nobody to write to. *)
Definition no_recipients_line : string :=
  "No recipients provided. Add at least one To address or provide a recipients.json file.".

(** The log file of [main] and its directory. *)
Definition report_log : string := "/var/log/msmtp_mail.log".
Definition report_log_dir : string := "/var/log".

(** What [os.makedirs] raises for the empty path. *)
Definition no_such_directory : exn :=
  Exn OSError "[Errno 2] No such file or directory: ''".

(** An environment in which everything works: the recipients file parses
    to [data], the process exits with 0 and the log can be written, at
    09:05:00 on 7 March 2025. *)
Definition working_env (data : pyjson) : Env :=
  {| json_load := fun _ _ => Return data;
     subprocess_run := fun _ _ _ _ => exited 0 "";
     os_makedirs := fun _ _ => Return tt;
     datetime_now := fun _ =>
       {| year := 2025; month := 3; day := 7; hour := 9; minute := 5; second := 0 |};
     open_append_write := fun _ _ _ => Return tt |}.

(** * Properties *)

(** ** The monad *)

Lemma bind_inv {S A B : Type} (m : M S A) (k : A -> M S B) s r s' :
  bind m k s = (r, s') ->
  (exists e, m s = (Raise e, s') /\ r = Raise e) \/
  (exists a s1, m s = (Return a, s1) /\ k a s1 = (r, s')).
Proof.
  unfold bind. destruct (m s) as [[e | a] s1]; intros H.
  - injection H as <- <-. left. eauto.
  - right. eauto.
Qed.

Lemma on_msg_inv {A : Type} (m : M EmailMessage A) self r self' :
  on_msg m self = (r, self') ->
  exists msg', m (_msg self) = (r, msg') /\ self' = with_msg msg' self.
Proof.
  unfold on_msg, zoom. destruct (m (_msg self)) as [r0 m0]. intros H.
  injection H as <- <-. eauto.
Qed.

Lemma with_msg_same self : with_msg (_msg self) self = self.
Proof. now destruct self. Qed.

(** ** Headers *)

Lemma raw_all_app name hs1 hs2 :
  raw_all name (hs1 ++ hs2) = raw_all name hs1 ++ raw_all name hs2.
Proof. unfold raw_all. now rewrite filter_app, map_app. Qed.

Lemma raw_header_raw_all name hs :
  raw_header name hs = hd_error (raw_all name hs).
Proof.
  unfold raw_header, raw_all.
  induction hs as [| h hs IH]; simpl; [reflexivity |].
  destruct (same_name name h); simpl; [reflexivity | exact IH].
Qed.

Lemma raw_header_app name hs more v :
  raw_header name hs = Some v -> raw_header name (hs ++ more) = Some v.
Proof.
  unfold raw_header. induction hs as [| h hs IH]; simpl; [discriminate |].
  destruct (same_name name h); [trivial | exact IH].
Qed.

(** Reading is decoding the text the header was set from. *)
Lemma get_all_app lib name hs1 hs2 :
  get_all lib name (hs1 ++ hs2) = get_all lib name hs1 ++ get_all lib name hs2.
Proof. unfold get_all. now rewrite raw_all_app, map_app. Qed.

Lemma get_header_get_all lib name hs :
  get_header lib name hs = hd_error (get_all lib name hs).
Proof.
  unfold get_header, get_all. rewrite raw_header_raw_all.
  now destruct (raw_all name hs).
Qed.

Lemma get_header_app lib name hs more v :
  get_header lib name hs = Some v -> get_header lib name (hs ++ more) = Some v.
Proof.
  unfold get_header. destruct (raw_header name hs) as [raw |] eqn:E; [| discriminate].
  now rewrite (raw_header_app _ _ more _ E).
Qed.

Lemma get_all_raw lib name hs texts :
  raw_all name hs = texts -> get_all lib name hs = map (header_decoded lib (lower name)) texts.
Proof. intros <-. reflexivity. Qed.

Lemma limit_reached_other name hs h :
  same_name name h = false -> limit_reached name (hs ++ [h]) = limit_reached name hs.
Proof.
  intros H. unfold limit_reached. rewrite raw_all_app.
  unfold raw_all at 2. simpl. rewrite H. simpl. now rewrite app_nil_r.
Qed.

Lemma limit_none_raw_all name hs :
  header_max_count name = Some 1 -> limit_reached name hs = None -> raw_all name hs = [].
Proof.
  unfold limit_reached. intros ->. simpl.
  destruct (raw_all name hs); [reflexivity | discriminate].
Qed.

Lemma raw_all_limit name hs :
  header_max_count name = Some 1 -> raw_all name hs <> [] ->
  limit_reached name hs = Some 1.
Proof.
  unfold limit_reached. intros -> H. destruct (raw_all name hs); [congruence | reflexivity].
Qed.

Lemma one_line_iff value : one_line value <-> (1 <? length (str_splitlines value)) = false.
Proof. unfold one_line. rewrite Nat.ltb_ge. reflexivity. Qed.

(** Making a header changes nothing; it fails, with an exception of the
    library, or the text is of one line and the parser takes it. *)
Lemma header_store_parse_cases {S : Type} lib name val (s : S) :
  (exists e, header_store_parse lib name val s = (Raise e, s) /\
             exc_type e <> EmailBuildError) \/
  (one_line val /\ header_refused lib (lower name) val = None /\
   header_store_parse lib name val s = (Return tt, s)).
Proof.
  unfold header_store_parse.
  destruct (1 <? length (str_splitlines val)) eqn:Hline.
  - left. eexists. split; [reflexivity | discriminate].
  - destruct (header_refused lib (lower name) val) as [e |] eqn:Hparse.
    + left. exists e. split; [reflexivity |].
      exact (header_refused_class lib _ _ _ Hparse).
    + right. split; [now apply one_line_iff | split; reflexivity].
Qed.

(** [msg[name] = val] raises and changes nothing, or appends the header. *)
Lemma setitem_cases lib name val msg :
  (exists e, setitem lib name val msg = (Raise e, msg) /\
             exc_type e <> EmailBuildError) \/
  (limit_reached name (_headers msg) = None /\
   one_line val /\ header_refused lib (lower name) val = None /\
   setitem lib name val msg =
     (Return tt, {| _headers := _headers msg ++ [(name, val)]; _payload := _payload msg |})).
Proof.
  unfold setitem. destruct (limit_reached name (_headers msg)) as [n |].
  - left. eexists. split; [reflexivity | discriminate].
  - unfold bind.
    destruct (header_store_parse_cases lib name val msg)
      as [(e & -> & He) | (Hline & Hparse & ->)].
    + left. eauto.
    + right. repeat split; assumption.
Qed.

Lemma setitem_full lib name val msg :
  header_max_count name = Some 1 -> raw_all name (_headers msg) <> [] ->
  setitem lib name val msg =
    (Raise (Exn ValueError ("There may be at most 1 " +++ name +++ " headers in a message")),
     msg).
Proof.
  intros Hmax Hall. unfold setitem. now rewrite (raw_all_limit _ _ Hmax Hall).
Qed.

Lemma raw_all_nil_limit name hs : raw_all name hs = [] -> limit_reached name hs = None.
Proof.
  unfold limit_reached. intros ->. destruct (header_max_count name) as [n |]; [| reflexivity].
  destruct n; reflexivity.
Qed.

Lemma setitem_returns lib name val msg :
  raw_all name (_headers msg) = [] -> one_line val ->
  header_refused lib (lower name) val = None ->
  setitem lib name val msg =
    (Return tt, {| _headers := _headers msg ++ [(name, val)]; _payload := _payload msg |}).
Proof.
  intros Hall Hline Hparse. unfold setitem, bind, header_store_parse.
  apply one_line_iff in Hline.
  now rewrite (raw_all_nil_limit _ _ Hall), Hline, Hparse.
Qed.

(** The outcome of [msg.replace_header(name, val)] on a message that has
    a header of the name. *)
Lemma replace_header_cases lib name val msg :
  raw_header name (_headers msg) <> None ->
  (exists e, replace_header lib name val msg = (Raise e, msg) /\
             exc_type e <> EmailBuildError) \/
  (one_line val /\ header_refused lib (lower name) val = None /\
   replace_header lib name val msg =
     (Return tt, {| _headers := replace_first name val (_headers msg);
                    _payload := _payload msg |})).
Proof.
  intros Hthere. unfold replace_header.
  destruct (raw_header name (_headers msg)); [| congruence].
  unfold bind.
  destruct (header_store_parse_cases lib name val msg)
    as [(e & -> & He) | (Hline & Hparse & ->)].
  - left. eauto.
  - right. repeat split; assumption.
Qed.

Lemma no_header_raw_all name msg :
  no_header name msg -> raw_all name (_headers msg) = [].
Proof.
  unfold no_header, raw_all. induction 1 as [| h hs Hh _ IH]; simpl; [reflexivity |].
  now rewrite Hh.
Qed.

Lemma setitem_no_header lib name n val msg r msg' :
  same_name name (n, val) = false ->
  setitem lib n val msg = (r, msg') -> no_header name msg -> no_header name msg'.
Proof.
  intros Hn Hs Hm.
  destruct (setitem_cases lib n val msg) as [(e & H & _) | (_ & _ & _ & H)];
    rewrite H in Hs; injection Hs as <- <-; [assumption |].
  unfold no_header in *. simpl. apply Forall_app. split; [assumption |].
  constructor; [assumption | constructor].
Qed.

Lemma replace_first_no_header name n val hs :
  same_name name (n, val) = false ->
  Forall (fun h => same_name name h = false) hs ->
  Forall (fun h => same_name name h = false) (replace_first n val hs).
Proof.
  intros Hn. induction 1 as [| h hs Hh Hhs IH]; simpl; [constructor |].
  destruct (same_name n h) eqn:E.
  - constructor; [| assumption].
    unfold same_name in *. simpl in *.
    apply String.eqb_eq in E. rewrite E. exact Hn.
  - constructor; assumption.
Qed.

Lemma replace_header_no_header lib name n val msg r msg' :
  same_name name (n, val) = false ->
  replace_header lib n val msg = (r, msg') -> no_header name msg -> no_header name msg'.
Proof.
  intros Hn Hs Hm. unfold replace_header in Hs.
  destruct (raw_header n (_headers msg)) as [old |] eqn:E.
  - assert (Hthere : raw_header n (_headers msg) <> None) by congruence.
    destruct (replace_header_cases lib n val msg Hthere)
      as [(e & H & _) | (_ & _ & H)];
      unfold replace_header in H; rewrite E in H; rewrite H in Hs;
      injection Hs as <- <-; [assumption |].
    unfold no_header. cbn [_headers]. now apply replace_first_no_header.
  - injection Hs as <- <-. assumption.
Qed.

Lemma set_content_no_bcc lib text subtype msg r msg' :
  set_content lib text subtype msg = (r, msg') ->
  no_header "Bcc" msg -> no_header "Bcc" msg'.
Proof.
  unfold set_content. intros H Hm.
  apply bind_inv in H. destruct H as [(e & H & _) | (m0 & s0 & H & Hrest)];
    [discriminate |].
  injection H as <- <-.
  destruct (get_content_maintype lib (_headers msg) =? "multipart")%string.
  { now injection Hrest as <- <-. }
  apply bind_inv in Hrest. destruct Hrest as [(e & H & _) | (u & m1 & H & Hrest)];
    [discriminate |].
  assert (H1 : no_header "Bcc" m1).
  { injection H as _ <-. unfold no_header in *. simpl. rewrite Forall_forall in *.
    intros h Hh. apply filter_In in Hh. now apply Hm. }
  clear H.
  apply bind_inv in Hrest. destruct Hrest as [(e & H & _) | (u2 & m2 & H & Hrest)].
  { eapply setitem_no_header; [| exact H | exact H1]. reflexivity. }
  assert (H2 : no_header "Bcc" m2)
    by (eapply setitem_no_header; [| exact H | exact H1]; reflexivity).
  clear H.
  apply bind_inv in Hrest. destruct Hrest as [(e & H & _) | (u3 & m3 & H & Hrest)];
    [discriminate |].
  assert (H3 : no_header "Bcc" m3) by (injection H as _ <-; exact H2).
  clear H.
  apply bind_inv in Hrest. destruct Hrest as [(e & H & _) | (u4 & m4 & H & Hrest)].
  { eapply replace_header_no_header; [| exact H | exact H3]. reflexivity. }
  assert (H4 : no_header "Bcc" m4)
    by (eapply replace_header_no_header; [| exact H | exact H3]; reflexivity).
  clear H.
  apply bind_inv in Hrest. destruct Hrest as [(e & H & _) | (u5 & m5 & H & Hrest)].
  { eapply setitem_no_header; [| exact H | exact H4]. reflexivity. }
  assert (H5 : no_header "Bcc" m5)
    by (eapply setitem_no_header; [| exact H | exact H4]; reflexivity).
  clear H.
  apply bind_inv in Hrest. destruct Hrest as [(e & H & _) | (now & m6 & H & Hrest)];
    [discriminate |].
  injection H as <- <-.
  destruct (raw_header "MIME-Version" (_headers m5)).
  - now injection Hrest as <- <-.
  - eapply setitem_no_header; [| exact Hrest | exact H5]. reflexivity.
Qed.

(** ** The delivery list *)

Lemma mem_In x l : mem x l = true <-> In x l.
Proof.
  unfold mem. rewrite existsb_exists. split.
  - intros [y [Hy Heq]]. apply String.eqb_eq in Heq. now subst.
  - intros H. exists x. split; [assumption | apply String.eqb_refl].
Qed.

Lemma mem_app x l1 l2 : mem x (l1 ++ l2) = mem x l1 || mem x l2.
Proof. unfold mem. apply existsb_app. Qed.

Lemma dict_keys_setitem {V : Type} k (v : V) d :
  dict_keys (dict_setitem k v d) =
  if mem k (dict_keys d) then dict_keys d else dict_keys d ++ [k].
Proof.
  induction d as [| [k' v'] d IH]; simpl.
  - reflexivity.
  - rewrite (String.eqb_sym k k'). destruct (k' =? k)%string; simpl.
    + reflexivity.
    + rewrite IH. destruct (mem k (dict_keys d)); reflexivity.
Qed.

Lemma filter_filter {A : Type} (p q : A -> bool) l :
  filter p (filter q l) = filter (fun x => p x && q x) l.
Proof.
  induction l as [| a l IH]; simpl; [reflexivity |].
  destruct (q a); simpl.
  - rewrite andb_true_r. destruct (p a); simpl; now rewrite IH.
  - rewrite andb_false_r. exact IH.
Qed.

(** The keys after inserting [l] into [d]: those of [d], then the
    addresses of [l] not yet in [d], each where it is first seen. *)
Lemma dict_keys_fold l : forall d : list (string * unit),
  dict_keys (fold_left (fun d k => dict_setitem k tt d) l d) =
  dict_keys d ++ filter (fun x => negb (mem x (dict_keys d))) (first_seen l).
Proof.
  induction l as [| x l IH]; intros d; simpl.
  - now rewrite app_nil_r.
  - rewrite IH, dict_keys_setitem, filter_filter.
    destruct (mem x (dict_keys d)) eqn:Hx; simpl.
    + f_equal. apply filter_ext. intros y.
      destruct (y =? x)%string eqn:Hy; simpl.
      * apply String.eqb_eq in Hy. subst y. now rewrite Hx.
      * now rewrite andb_true_r.
    + rewrite <- app_assoc. simpl. do 2 f_equal. apply filter_ext. intros y.
      rewrite mem_app. simpl. rewrite orb_false_r, negb_orb. reflexivity.
Qed.

Lemma dict_fromkeys_first_seen l : dict_keys (dict_fromkeys l) = first_seen l.
Proof.
  unfold dict_fromkeys. rewrite dict_keys_fold. simpl.
  induction (first_seen l) as [| a r IH]; simpl; [reflexivity | now rewrite IH].
Qed.

Lemma first_seen_In l x : In x (first_seen l) <-> In x l.
Proof.
  induction l as [| a l IH]; simpl; [tauto |].
  rewrite filter_In, IH. split.
  - intros [H | [H _]]; auto.
  - intros [H | H]; [now left |].
    destruct (x =? a)%string eqn:Hxa.
    + apply String.eqb_eq in Hxa. now left.
    + right. now split.
Qed.

Lemma first_seen_NoDup l : NoDup (first_seen l).
Proof.
  induction l as [| a l IH]; simpl; constructor.
  - rewrite filter_In. intros [_ H]. now rewrite String.eqb_refl in H.
  - now apply NoDup_filter.
Qed.

Lemma run_calls_lists calls : forall self,
  _to (run_calls calls self) = _to self ++ flat_map to_of calls /\
  _cc (run_calls calls self) = _cc self ++ flat_map cc_of calls /\
  _bcc (run_calls calls self) = _bcc self ++ flat_map bcc_of calls.
Proof.
  induction calls as [| c calls IH]; intros self; simpl.
  - now rewrite !app_nil_r.
  - destruct (IH (snd (run_call c self))) as (Hto & Hcc & Hbcc).
    unfold run_calls in *. rewrite Hto, Hcc, Hbcc.
    destruct c; simpl; rewrite <- ?app_assoc; simpl; rewrite ?app_nil_r; auto.
Qed.

(** C3.  recipients() is the To list followed by the Cc list and the Bcc
    list with every address kept where it is first seen and dropped
    afterwards.  After any sequence of add_to, add_cc and add_bcc calls on
    a new builder, duplicates allowed, the three lists hold the addresses
    of the calls in order, and recipients() has no duplicate and the same
    members as the three lists.  With to@x, cc@x and bcc@x added as To, Cc
    and Bcc it is exactly those three addresses in that order. *)
Theorem recipients_first_seen_union :
  (forall self : EmailMessageBuilder,
     recipients self = first_seen (_to self ++ _cc self ++ _bcc self)) /\
  (forall calls : list recipient_call,
     let self := run_calls calls new_builder in
     let union := flat_map to_of calls ++ flat_map cc_of calls ++ flat_map bcc_of calls in
     _to self = flat_map to_of calls /\
     _cc self = flat_map cc_of calls /\
     _bcc self = flat_map bcc_of calls /\
     recipients self = first_seen union /\
     NoDup (recipients self) /\
     (forall x, In x (recipients self) <-> In x union)) /\
  (let self := run_calls [AddTo "to@x"; AddCc "cc@x"; AddBcc "bcc@x"] new_builder in
   recipients self = ["to@x"; "cc@x"; "bcc@x"] /\ length (recipients self) = 3).
Proof.
  split; [| split].
  - intros self. unfold recipients. apply dict_fromkeys_first_seen.
  - intros calls self union.
    destruct (run_calls_lists calls new_builder) as (Hto & Hcc & Hbcc).
    fold self in Hto, Hcc, Hbcc. simpl in Hto, Hcc, Hbcc.
    assert (Hrec : recipients self = first_seen union).
    { unfold recipients. rewrite dict_fromkeys_first_seen, Hto, Hcc, Hbcc. reflexivity. }
    repeat split; try assumption.
    + rewrite Hrec. apply first_seen_NoDup.
    + rewrite Hrec. apply first_seen_In.
    + rewrite Hrec. apply first_seen_In.
  - split; reflexivity.
Qed.

(** ** Validation in build *)

Lemma no_recipients_iff self :
  no_recipients self <->
  list_truthy (_to self) || list_truthy (_cc self) || list_truthy (_bcc self) = false.
Proof.
  unfold no_recipients.
  destruct (_to self), (_cc self), (_bcc self); simpl; intuition congruence.
Qed.

Lemma no_subject_iff lib self :
  no_subject lib self <->
  opt_truthy (get_header lib "Subject" (_headers (_msg self))) = false.
Proof.
  unfold no_subject.
  destruct (get_header lib "Subject" (_headers (_msg self))) as [[| c s] |]; simpl.
  - intuition congruence.
  - split; [intros H; specialize (H _ eq_refl); discriminate | discriminate].
  - intuition congruence.
Qed.

Lemma filter_nil_iff {A : Type} (p : A -> bool) l :
  list_truthy (filter p l) = false <-> forall x, In x l -> p x = false.
Proof.
  induction l as [| a l IH]; simpl.
  - intuition.
  - destruct (p a) eqn:Ha; simpl.
    + split; [discriminate |]. intros H. specialize (H a (or_introl eq_refl)). congruence.
    + rewrite IH. split.
      * intros H x [<- | Hx]; auto.
      * intros H x Hx. apply H. now right.
Qed.

Lemma is_text_part_false lib part :
  is_text_part lib part = false <->
  get_content_type lib (part_headers part) <> "text/plain" /\
  get_content_type lib (part_headers part) <> "text/html".
Proof.
  unfold is_text_part. rewrite orb_false_iff, !String.eqb_neq. reflexivity.
Qed.

(** The outcome of the body check, by the body being there or not. *)
Lemma check_body_spec lib self :
  (no_body lib self /\
   check_body lib self =
     (Raise (Exn EmailBuildError
               (if is_multipart (_msg self) then "No body set in multipart message."
                else "No body set.")), self)) \/
  (~ no_body lib self /\ check_body lib self = (Return tt, self)).
Proof.
  unfold no_body, check_body, is_multipart, get_payload_decode.
  destruct (_payload (_msg self)) as [| decoded | parts]; simpl.
  - left. split; [exact I | reflexivity].
  - destruct decoded; simpl.
    + left. split; reflexivity.
    + right. split; [discriminate | reflexivity].
  - destruct (list_truthy (filter (is_text_part lib) parts)) eqn:Hf; simpl.
    + right. split; [| reflexivity]. intros H.
      assert (Hn : list_truthy (filter (is_text_part lib) parts) = false).
      { apply filter_nil_iff. intros x Hx. apply is_text_part_false. now apply H. }
      congruence.
    + left. split; [| reflexivity]. intros part Hin.
      apply is_text_part_false. revert part Hin. now apply filter_nil_iff.
Qed.

(** [build] on a builder that passes validation: an exception of the
    library from one of the header assignments (the ValueError of a
    second header or of a text of several lines, or the failure of a
    parser), or the message with the new headers, none of the three names
    having been there before, each text of one line and taken by its
    parser. *)
Lemma build_validated lib self :
  ~ no_recipients self -> ~ no_subject lib self -> ~ no_body lib self ->
  (exists e self', build lib self = (Raise e, self') /\ exc_type e <> EmailBuildError) \/
  (build lib self =
     (Return (add_headers (built_headers lib self) (_msg self)),
      with_msg (add_headers (built_headers lib self) (_msg self)) self) /\
   limit_reached "From" (_headers (_msg self)) = None /\
   (_to self <> [] -> limit_reached "To" (_headers (_msg self)) = None) /\
   (_cc self <> [] -> limit_reached "Cc" (_headers (_msg self)) = None) /\
   Forall (fun h => one_line (snd h) /\ header_refused lib (lower (fst h)) (snd h) = None)
     (built_headers lib self)).
Proof.
  intros Hr Hs Hb.
  rewrite no_recipients_iff in Hr. rewrite no_subject_iff in Hs.
  apply not_false_is_true in Hr. apply not_false_is_true in Hs.
  destruct (check_body_spec lib self) as [[Hn _] | [_ Hcheck]]; [contradiction |].
  unfold build, bind, get_state. rewrite Hr, Hs. simpl. rewrite Hcheck.
  unfold on_msg, zoom, built_headers, add_headers, ret.
  destruct (setitem_cases lib "From" (formataddr lib (_from_full_name self) MSMTP_FROM_EMAIL)
              (_msg self)) as [(e & Hfrom & He) | (Hlim & Hl1 & Hp1 & Hfrom)]; rewrite Hfrom.
  { left. eauto. }
  set (from := ("From", formataddr lib (_from_full_name self) MSMTP_FROM_EMAIL)) in *.
  assert (Hfrom_ok : one_line (snd from) /\ header_refused lib (lower (fst from)) (snd from) = None)
    by (split; assumption).
  destruct (_to self) as [| t ts] eqn:Hto; cbn [list_truthy]; cbv beta iota.
  - destruct (_cc self) as [| c cs] eqn:Hcc; cbn [list_truthy]; cbv beta iota.
    + right. simpl.
      repeat split; auto; try congruence;
        repeat (apply Forall_cons; [split; assumption |]); apply Forall_nil.
    + cbn [_msg with_msg].
      match goal with |- context [setitem lib "Cc" ?v ?m] =>
        destruct (setitem_cases lib "Cc" v m) as [(e & Hc & He) | (Hlc & Hl3 & Hp3 & Hc)];
          rewrite Hc end.
      { left. eauto. }
      right. simpl. rewrite <- app_assoc.
      simpl in Hlc. rewrite limit_reached_other in Hlc by reflexivity.
      repeat split; auto; try congruence;
        repeat (apply Forall_cons; [split; assumption |]); apply Forall_nil.
  - cbn [_msg with_msg].
    match goal with |- context [setitem lib "To" ?v ?m] =>
      destruct (setitem_cases lib "To" v m) as [(e & Ht & He) | (Hlt & Hl2 & Hp2 & Ht)];
        rewrite Ht end.
    { left. eauto. }
    simpl in Hlt. rewrite limit_reached_other in Hlt by reflexivity.
    destruct (_cc self) as [| c cs] eqn:Hcc; cbn [list_truthy]; cbv beta iota.
    + right. simpl. rewrite <- app_assoc.
      repeat split; auto; try congruence;
        repeat (apply Forall_cons; [split; assumption |]); apply Forall_nil.
    + cbn [_msg with_msg].
      match goal with |- context [setitem lib "Cc" ?v ?m] =>
        destruct (setitem_cases lib "Cc" v m) as [(e & Hc & He) | (Hlc & Hl3 & Hp3 & Hc)];
          rewrite Hc end.
      { left. eauto. }
      right. simpl. rewrite <- !app_assoc.
      simpl in Hlc.
      rewrite !limit_reached_other in Hlc by reflexivity.
      repeat split; auto; try congruence;
        repeat (apply Forall_cons; [split; assumption |]); apply Forall_nil.
Qed.

(** The error of [build] for each missing field, in the order of the
    checks. *)
Lemma build_missing lib self :
  (no_recipients self ->
   build lib self =
     (Raise (Exn EmailBuildError "No recipients set (add_to/add_cc/add_bcc)."), self)) /\
  (~ no_recipients self -> no_subject lib self ->
   build lib self = (Raise (Exn EmailBuildError "No subject set."), self)) /\
  (~ no_recipients self -> ~ no_subject lib self -> no_body lib self ->
   build lib self =
     (Raise (Exn EmailBuildError
               (if is_multipart (_msg self) then "No body set in multipart message."
                else "No body set.")), self)).
Proof.
  rewrite no_recipients_iff, no_subject_iff. unfold build, bind, get_state.
  repeat split.
  - intros ->. reflexivity.
  - intros Hr ->. apply not_false_is_true in Hr. rewrite Hr. reflexivity.
  - intros Hr Hs Hb. apply not_false_is_true in Hr. apply not_false_is_true in Hs.
    rewrite Hr, Hs. simpl.
    destruct (check_body_spec lib self) as [[_ ->] | [Hn _]]; [reflexivity | contradiction].
Qed.

Lemma missing_dec lib self :
  (no_recipients self \/ ~ no_recipients self) /\
  (no_subject lib self \/ ~ no_subject lib self) /\
  (no_body lib self \/ ~ no_body lib self).
Proof.
  rewrite no_recipients_iff, no_subject_iff. repeat split.
  - destruct (_ || _); [right | left]; congruence.
  - destruct (opt_truthy _); [right | left]; congruence.
  - destruct (check_body_spec lib self) as [[H _] | [H _]]; auto.
Qed.



(** ** The headers build sets *)

Lemma build_success lib self msg self' :
  build lib self = (Return msg, self') ->
  msg = add_headers (built_headers lib self) (_msg self) /\
  self' = with_msg msg self /\
  raw_all "From" (_headers (_msg self)) = [] /\
  (_to self <> [] -> raw_all "To" (_headers (_msg self)) = []) /\
  (_cc self <> [] -> raw_all "Cc" (_headers (_msg self)) = []).
Proof.
  intros Hb.
  destruct (missing_dec lib self) as (Dr & Ds & Db).
  destruct (build_missing lib self) as (Hrec & Hsub & Hbody).
  destruct Dr as [Hr | Hr]; [rewrite (Hrec Hr) in Hb; discriminate |].
  destruct Ds as [Hs | Hs]; [rewrite (Hsub Hr Hs) in Hb; discriminate |].
  destruct Db as [Hn | Hn]; [rewrite (Hbody Hr Hs Hn) in Hb; discriminate |].
  destruct (build_validated lib self Hr Hs Hn)
    as [(e & s' & H & _) | (H & Hf & Ht & Hc & _)];
    rewrite H in Hb; [discriminate |].
  injection Hb as <- <-.
  repeat split.
  - now apply limit_none_raw_all.
  - intros Hto. now apply limit_none_raw_all; [| apply Ht].
  - intros Hcc. now apply limit_none_raw_all; [| apply Hc].
Qed.

Lemma build_success_validated lib self msg self' :
  build lib self = (Return msg, self') ->
  ~ no_recipients self /\ ~ no_subject lib self /\ ~ no_body lib self.
Proof.
  intros Hb.
  destruct (missing_dec lib self) as (Dr & Ds & Db).
  destruct (build_missing lib self) as (Hrec & Hsub & Hbody).
  destruct Dr as [Hr | Hr]; [rewrite (Hrec Hr) in Hb; discriminate |].
  destruct Ds as [Hs | Hs]; [rewrite (Hsub Hr Hs) in Hb; discriminate |].
  destruct Db as [Hn | Hn]; [rewrite (Hbody Hr Hs Hn) in Hb; discriminate |].
  auto.
Qed.

(** The texts [build] has made headers from are of one line each and
    taken by the parsers. *)
Lemma build_success_accepted lib self msg self' :
  build lib self = (Return msg, self') ->
  Forall (fun h => one_line (snd h) /\ header_refused lib (lower (fst h)) (snd h) = None)
    (built_headers lib self).
Proof.
  intros Hb. destruct (build_success_validated _ _ _ _ Hb) as (Hr & Hs & Hn).
  destruct (build_validated lib self Hr Hs Hn)
    as [(e & s' & H & _) | (_ & _ & _ & _ & H)]; [| exact H].
  rewrite H in Hb. discriminate.
Qed.

(** After a successful [build] the message has one From header, the one
    [build] made. *)
Lemma build_success_from lib self msg self' :
  build lib self = (Return msg, self') ->
  raw_all "From" (_headers msg) = [formataddr lib (_from_full_name self) MSMTP_FROM_EMAIL].
Proof.
  intros Hb. destruct (build_success _ _ _ _ Hb) as (Hmsg & _ & Hfrom & _ & _).
  subst msg. unfold add_headers, built_headers. cbn [_headers].
  rewrite !raw_all_app, Hfrom.
  destruct (list_truthy (_to self)), (list_truthy (_cc self)); reflexivity.
Qed.

(** A header assignment in [build], made or skipped, keeps the message
    free of a header it does not name and changes only the message. *)
Lemma optional_setitem_no_header lib name (b : bool) n v self0 self r self' :
  (if b then on_msg (setitem lib n v) else ret tt) self = (r, self') ->
  same_name name (n, v) = false ->
  self = with_msg (_msg self) self0 ->
  no_header name (_msg self) ->
  no_header name (_msg self') /\ self' = with_msg (_msg self') self0.
Proof.
  intros Hrun Hn Hself Hm. destruct b.
  - apply on_msg_inv in Hrun. destruct Hrun as (msg' & Hset & ->).
    rewrite Hself. cbn [_msg with_msg]. split; [| reflexivity].
    eapply setitem_no_header; eassumption.
  - injection Hrun as <- <-. now split.
Qed.

Lemma build_no_bcc lib self r self' :
  build lib self = (r, self') ->
  no_header "Bcc" (_msg self) -> no_header "Bcc" (_msg self').
Proof.
  intros H Hm.
  destruct (missing_dec lib self) as (Dr & Ds & Db).
  destruct (build_missing lib self) as (Hrec & Hsub & Hbody).
  destruct Dr as [Hr | Hr]; [rewrite (Hrec Hr) in H; now injection H as <- <- |].
  destruct Ds as [Hs | Hs]; [rewrite (Hsub Hr Hs) in H; now injection H as <- <- |].
  destruct Db as [Hn | Hn]; [rewrite (Hbody Hr Hs Hn) in H; now injection H as <- <- |].
  clear Hrec Hsub Hbody.
  rewrite no_recipients_iff in Hr. rewrite no_subject_iff in Hs.
  apply not_false_is_true in Hr. apply not_false_is_true in Hs.
  destruct (check_body_spec lib self) as [[Hx _] | [_ Hcheck]]; [contradiction |].
  unfold build in H. apply bind_inv in H.
  destruct H as [(e & H & _) | (s0 & s1 & H & Hrest)]; [discriminate |].
  injection H as <- <-. rewrite Hr, Hs in Hrest. cbn [negb] in Hrest.
  apply bind_inv in Hrest. rewrite Hcheck in Hrest.
  destruct Hrest as [(e & H & _) | (u & s1 & H & Hrest)]; [discriminate |].
  injection H as _ <-.
  assert (Hself : self = with_msg (_msg self) self) by (now destruct self).
  apply bind_inv in Hrest.
  destruct Hrest as [(e & H & _) | (u1 & s1 & H & Hrest)].
  { destruct (optional_setitem_no_header lib "Bcc" true "From" _ self _ _ _ H eq_refl Hself Hm)
      as [Hok _].
    exact Hok. }
  destruct (optional_setitem_no_header lib "Bcc" true "From" _ self _ _ _ H eq_refl Hself Hm)
    as [H1 Hs1].
  apply bind_inv in Hrest.
  destruct Hrest as [(e & H' & _) | (u2 & s2 & H' & Hrest)].
  { now destruct (optional_setitem_no_header lib "Bcc" _ "To" _ self _ _ _ H' eq_refl Hs1 H1). }
  destruct (optional_setitem_no_header lib "Bcc" _ "To" _ self _ _ _ H' eq_refl Hs1 H1)
    as [H2 Hs2].
  apply bind_inv in Hrest.
  destruct Hrest as [(e & H'' & _) | (u3 & s3 & H'' & Hrest)].
  { now destruct (optional_setitem_no_header lib "Bcc" _ "Cc" _ self _ _ _ H'' eq_refl Hs2 H2). }
  destruct (optional_setitem_no_header lib "Bcc" _ "Cc" _ self _ _ _ H'' eq_refl Hs2 H2)
    as [H3 Hs3].
  apply bind_inv in Hrest.
  destruct Hrest as [(e & H4 & _) | (s4 & s5 & H4 & Hrest)]; [discriminate |].
  injection H4 as <- <-. injection Hrest as _ <-. exact H3.
Qed.

Lemma run_builder_calls_no_bcc lib calls : forall self,
  no_header "Bcc" (_msg self) -> no_header "Bcc" (_msg (run_builder_calls lib calls self)).
Proof.
  induction calls as [| c calls IH]; intros self Hm; [exact Hm |].
  apply IH. destruct c; simpl; try exact Hm.
  - unfold set_subject, on_msg, zoom.
    destruct (setitem lib "Subject" subject (_msg self)) as [r m] eqn:E. simpl.
    eapply setitem_no_header; [| exact E | exact Hm]. reflexivity.
  - unfold set_body, on_msg, zoom.
    destruct (set_content lib text subtype (_msg self)) as [r m] eqn:E. simpl.
    eapply set_content_no_bcc; eassumption.
  - unfold bind. destruct (build lib self) as [r s'] eqn:E.
    assert (no_header "Bcc" (_msg s')) by (eapply build_no_bcc; eassumption).
    destruct r; assumption.
Qed.

(** C6, as amended.  A successful build() appends to the headers From,
    then To made from the To list joined by a comma and a space when that
    list is not empty, then Cc likewise, and nothing else.  The value of
    the To header and of the Cc header, as it is read from the message, is
    what the library's parser makes of the joined text: the joined text
    itself where the parser keeps it.  build() sets no Bcc header, a
    message built from a new builder by the calls of the builder has no
    Bcc header at all, and every Bcc address is in recipients(). *)
Theorem build_sets_to_cc_never_bcc (lib : PyLib) (self self' : EmailMessageBuilder)
  (msg : EmailMessage) :
  build lib self = (Return msg, self') ->
  let to_text := join ", " (_to self) in
  let cc_text := join ", " (_cc self) in
  _headers msg =
    _headers (_msg self)
    ++ [("From", formataddr lib (_from_full_name self) MSMTP_FROM_EMAIL)]
    ++ (if list_truthy (_to self) then [("To", to_text)] else [])
    ++ (if list_truthy (_cc self) then [("Cc", cc_text)] else []) /\
  _msg self' = msg /\
  get_all lib "To" (_headers msg) =
    (if list_truthy (_to self) then [header_decoded lib "to" to_text]
     else get_all lib "To" (_headers (_msg self))) /\
  get_all lib "Cc" (_headers msg) =
    (if list_truthy (_cc self) then [header_decoded lib "cc" cc_text]
     else get_all lib "Cc" (_headers (_msg self))) /\
  (header_decoded lib "to" to_text = to_text -> _to self <> [] ->
   get_all lib "To" (_headers msg) = [to_text]) /\
  (header_decoded lib "cc" cc_text = cc_text -> _cc self <> [] ->
   get_all lib "Cc" (_headers msg) = [cc_text]) /\
  raw_all "Bcc" (_headers msg) = raw_all "Bcc" (_headers (_msg self)) /\
  (forall calls, self = run_builder_calls lib calls new_builder ->
                 raw_all "Bcc" (_headers msg) = [] /\ get_all lib "Bcc" (_headers msg) = []) /\
  (forall email, In email (_bcc self) -> In email (recipients self')).
Proof.
  intros Hb to_text cc_text. pose proof (build_no_bcc _ _ _ _ Hb) as Hinv.
  destruct (build_success _ _ _ _ Hb) as (Hmsg & Hself & Hfrom & Hto & Hcc).
  assert (Hget_to : get_all lib "To" (_headers msg) =
            (if list_truthy (_to self) then [header_decoded lib "to" to_text]
             else get_all lib "To" (_headers (_msg self)))).
  { subst msg. unfold get_all, add_headers, built_headers. cbn [_headers].
    rewrite !raw_all_app.
    destruct (_to self) as [| t ts] eqn:Et; cbn [list_truthy].
    + destruct (list_truthy (_cc self)); cbn; now rewrite ?app_nil_r.
    + rewrite Hto by discriminate.
      destruct (list_truthy (_cc self)); reflexivity. }
  assert (Hget_cc : get_all lib "Cc" (_headers msg) =
            (if list_truthy (_cc self) then [header_decoded lib "cc" cc_text]
             else get_all lib "Cc" (_headers (_msg self)))).
  { subst msg. unfold get_all, add_headers, built_headers. cbn [_headers].
    rewrite !raw_all_app.
    destruct (_cc self) as [| c cs] eqn:Ec; cbn [list_truthy].
    + destruct (list_truthy (_to self)); cbn; now rewrite ?app_nil_r.
    + rewrite Hcc by discriminate.
      destruct (list_truthy (_to self)); reflexivity. }
  assert (Hbcc : raw_all "Bcc" (_headers msg) = raw_all "Bcc" (_headers (_msg self))).
  { subst msg. unfold add_headers, built_headers. cbn [_headers]. rewrite !raw_all_app.
    destruct (list_truthy (_to self)), (list_truthy (_cc self)); cbn;
      now rewrite ?app_nil_r. }
  split; [now subst msg |]. split; [now subst self' |].
  split; [exact Hget_to |]. split; [exact Hget_cc |].
  split.
  { intros Hkept Hne. rewrite Hget_to, Hkept. now destruct (_to self). }
  split.
  { intros Hkept Hne. rewrite Hget_cc, Hkept. now destruct (_cc self). }
  split; [exact Hbcc |]. split.
  - intros calls ->.
    assert (Hnone : raw_all "Bcc" (_headers msg) = []).
    { assert (Hm1 : _msg self' = msg) by (now rewrite Hself).
      rewrite <- Hm1. apply no_header_raw_all.
      apply Hinv. apply run_builder_calls_no_bcc. constructor. }
    split; [exact Hnone |]. unfold get_all. now rewrite Hnone.
  - intros email Hin. subst self'. unfold recipients. rewrite dict_fromkeys_first_seen.
    apply first_seen_In. cbn. rewrite !in_app_iff. auto.
Qed.

(** A builder with two To addresses, a Cc and a Bcc address. *)
Lemma headers_of_copied_builder :
  build sample_lib copied_builder = (Return (message_of copied_builder), built_of copied_builder) /\
  get_all sample_lib "To" (_headers (message_of copied_builder))
    = ["dest@example.com, to@x, to2@x"] /\
  get_all sample_lib "Cc" (_headers (message_of copied_builder)) = ["cc@x"] /\
  get_all sample_lib "Bcc" (_headers (message_of copied_builder)) = [] /\
  In "bcc@x" (recipients (built_of copied_builder)).
Proof.
  split; [reflexivity |].
  destruct (build_sets_to_cc_never_bcc sample_lib copied_builder (built_of copied_builder)
              (message_of copied_builder) eq_refl)
    as (_ & _ & _ & _ & Hto & Hcc & _ & Hbcc & Hin).
  split; [apply Hto; [reflexivity | discriminate] |].
  split; [apply Hcc; [reflexivity | discriminate] |].
  split; [exact (proj2 (Hbcc [CallAddTo "dest@example.com"; CallSetSubject "Subject";
                              CallSetBody "Body" "plain"; CallAddTo "to@x"; CallAddTo "to2@x";
                              CallAddCc "cc@x"; CallAddBcc "bcc@x"] eq_refl)) |].
  apply Hin. left. reflexivity.
Defined.

(** An address followed by a blank: the To header is made from the text
    with the blank, and reads without it, so that the value of the header
    is not the joined list. *)
Lemma to_header_is_not_the_joined_list :
  let self := addressed_builder "b@x " in
  build sample_lib self = (Return (message_of self), built_of self) /\
  join ", " (_to self) = "b@x " /\
  raw_all "To" (_headers (message_of self)) = ["b@x "] /\
  get_all sample_lib "To" (_headers (message_of self)) = ["b@x"] /\
  get_all sample_lib "To" (_headers (message_of self)) <> [join ", " (_to self)].
Proof. vm_compute. repeat split. discriminate. Qed.

(** ** The From header *)

Lemma escapesre_sub_id name : nothing_to_escape name = true -> escapesre_sub name = name.
Proof.
  induction name as [| c rest IH]; simpl; [reflexivity |].
  intros H. apply andb_prop in H. destruct H as [Hc Hrest].
  apply negb_true_iff in Hc. rewrite Hc, IH by assumption. reflexivity.
Qed.










(** ** A second Subject, a second build *)

Lemma build_again_refused lib self msg self1 :
  build lib self = (Return msg, self1) ->
  build lib self1 =
    (Raise (Exn ValueError "There may be at most 1 From headers in a message"), self1).
Proof.
  intros H.
  pose proof (build_success_from _ _ _ _ H) as Hall.
  destruct (build_success_validated _ _ _ _ H) as (Hr & Hs & Hn).
  destruct (build_success _ _ _ _ H) as (Hmsg & Hself & _).
  assert (Hm1 : _msg self1 = msg) by (now subst self1).
  assert (Hr1 : ~ no_recipients self1) by (subst self1; exact Hr).
  assert (Hn1 : ~ no_body lib self1) by (subst self1 msg; exact Hn).
  assert (Hs1 : ~ no_subject lib self1).
  { rewrite no_subject_iff in *. subst self1 msg. cbn [_msg with_msg add_headers _headers].
    destruct (get_header lib "Subject" (_headers (_msg self))) as [v |] eqn:E.
    - now rewrite (get_header_app _ _ _ _ _ E).
    - simpl in Hs. congruence. }
  rewrite no_recipients_iff in Hr1. rewrite no_subject_iff in Hs1.
  apply not_false_is_true in Hr1. apply not_false_is_true in Hs1.
  destruct (check_body_spec lib self1) as [[Hx _] | [_ Hcheck]]; [contradiction |].
  unfold build, bind, get_state. rewrite Hr1, Hs1. simpl. rewrite Hcheck.
  unfold on_msg, zoom.
  rewrite setitem_full; [now rewrite with_msg_same | reflexivity |].
  rewrite Hm1, Hall. discriminate.
Qed.

(** C9, as amended.  set_subject does not replace a subject that is set.
    Once set_subject(s1) has returned, the message has exactly one Subject
    header, made from s1; it reads as the library's parser decodes s1,
    which is s1 itself for a text of ASCII letters, digits and blanks.  A
    later set_subject(s2), on any builder whose message has a Subject
    header, raises ValueError (the message takes at most one Subject
    header) and leaves the builder as it was.  Likewise, after a build()
    that returned, a second build() raises ValueError at the From header
    and leaves the builder as it was, with its one From header. *)
Theorem second_subject_or_build_is_refused (lib : PyLib) :
  (forall self subject1 self1,
     set_subject lib subject1 self = (Return tt, self1) ->
     raw_all "Subject" (_headers (_msg self1)) = [subject1] /\
     get_all lib "Subject" (_headers (_msg self1)) = [header_decoded lib "subject" subject1] /\
     get_header lib "Subject" (_headers (_msg self1))
       = Some (header_decoded lib "subject" subject1) /\
     (plain_words subject1 = true ->
      get_header lib "Subject" (_headers (_msg self1)) = Some subject1)) /\
  (forall self subject2,
     raw_all "Subject" (_headers (_msg self)) <> [] ->
     set_subject lib subject2 self =
       (Raise (Exn ValueError "There may be at most 1 Subject headers in a message"), self)) /\
  (forall self msg self1,
     build lib self = (Return msg, self1) ->
     build lib self1 =
       (Raise (Exn ValueError "There may be at most 1 From headers in a message"), self1) /\
     raw_all "From" (_headers (_msg self1)) =
       [formataddr lib (_from_full_name self) MSMTP_FROM_EMAIL]).
Proof.
  split; [| split].
  - intros self subject1 self1 H.
    unfold set_subject in H. apply on_msg_inv in H. destruct H as (m & Hset & ->).
    destruct (setitem_cases lib "Subject" subject1 (_msg self))
      as [(e & Hc & _) | (Hlim & _ & _ & Hc)];
      rewrite Hc in Hset; [discriminate |].
    injection Hset as <-. cbn [_msg with_msg _headers].
    assert (Hraw : raw_all "Subject" (_headers (_msg self) ++ [("Subject", subject1)])
                   = [subject1]).
    { now rewrite raw_all_app, (limit_none_raw_all "Subject" _ eq_refl Hlim). }
    assert (Hget : get_header lib "Subject" (_headers (_msg self) ++ [("Subject", subject1)])
                   = Some (header_decoded lib "subject" subject1)).
    { rewrite get_header_get_all. unfold get_all. now rewrite Hraw. }
    split; [exact Hraw |]. split; [unfold get_all; now rewrite Hraw |].
    split; [exact Hget |].
    intros Hplain. rewrite Hget. f_equal.
    exact (proj2 (plain_subject_kept lib subject1 Hplain)).
  - intros self subject2 H. unfold set_subject, on_msg, zoom.
    rewrite (setitem_full lib "Subject" subject2 (_msg self) eq_refl H).
    now rewrite with_msg_same.
  - intros self msg self1 H. split; [exact (build_again_refused _ _ _ _ H) |].
    destruct (build_success _ _ _ _ H) as (_ & -> & _). cbn [_msg with_msg].
    exact (build_success_from _ _ _ _ H).
Qed.

(** The builder of the tests: a second subject and a second build; and a
    subject given as an encoded word, which reads decoded. *)
Lemma second_subject_or_build_on_test_builder :
  set_subject sample_lib "Subject" (snd (add_to "dest@example.com" new_builder))
    = (Return tt,
       snd ((add_to "dest@example.com" ;;; set_subject sample_lib "Subject") new_builder)) /\
  set_subject sample_lib "Other" (test_builder "Subject")
    = (Raise (Exn ValueError "There may be at most 1 Subject headers in a message"),
       test_builder "Subject") /\
  get_header sample_lib "Subject" (_headers (_msg (test_builder "Subject")))
    = Some "Subject" /\
  get_header sample_lib "Subject" (_headers (_msg (test_builder "=?utf-8?q?hello?=")))
    = Some "hello" /\
  build sample_lib (test_builder "Subject")
    = (Return (message_of (test_builder "Subject")), built_of (test_builder "Subject")) /\
  build sample_lib (built_of (test_builder "Subject"))
    = (Raise (Exn ValueError "There may be at most 1 From headers in a message"),
       built_of (test_builder "Subject")).
Proof.
  destruct (second_subject_or_build_is_refused sample_lib) as (Hfirst & Hlater & Hbuild).
  split; [reflexivity |].
  split; [apply Hlater; discriminate |].
  split; [reflexivity |].
  split; [reflexivity |].
  split; [reflexivity |].
  exact (proj1 (Hbuild (test_builder "Subject")
                  (message_of (test_builder "Subject"))
                  (built_of (test_builder "Subject")) eq_refl)).
Defined.

(** A second set_subject appends no second Subject header and a second
    build() no second From header: each raises and the message keeps the
    one header it had. *)
Lemma second_subject_and_second_from_are_not_appended :
  let twice := (set_subject sample_lib "first" ;;; set_subject sample_lib "second")
                 new_builder in
  let rebuilt := build sample_lib (built_of (test_builder "Subject")) in
  fst twice = Raise (Exn ValueError "There may be at most 1 Subject headers in a message") /\
  get_all sample_lib "Subject" (_headers (_msg (snd twice))) = ["first"] /\
  build sample_lib (test_builder "Subject")
    = (Return (message_of (test_builder "Subject")), built_of (test_builder "Subject")) /\
  fst rebuilt = Raise (Exn ValueError "There may be at most 1 From headers in a message") /\
  get_all sample_lib "From" (_headers (_msg (snd rebuilt)))
    = ["N150 Home Server Monitoring <u0992244071@gmail.com>"].
Proof. repeat split. Qed.

(** ** The recipients file *)

Lemma for_each_add_to items : forall self trace,
  for_each items (fun email => on_builder (add_to email)) (self, trace) =
  (Return tt, (append_to items self, trace)).
Proof.
  induction items as [| x items IH]; intros self trace.
  - unfold append_to. rewrite app_nil_r. now destruct self.
  - cbn [for_each]. unfold bind at 1. unfold on_builder at 1, zoom, add_to. cbn [fst snd].
    rewrite IH. unfold append_to. cbn. now rewrite <- app_assoc.
Qed.

Lemma load_emails_outcome (emails : pyjson) self trace :
  try_except
    (if negb (py_truthy emails)
     then raise EmailBuildError "No emails found in recipient file."
     else items <- py_iter emails ;;
          for_each items (fun email => on_builder (add_to email)))
    (fun e => raise EmailBuildError ("Error reading recipient file: " +++ exc_str e))
    (self, trace) =
  match emails_in emails with
  | inl cause =>
      (Raise (Exn EmailBuildError ("Error reading recipient file: " +++ cause)), (self, trace))
  | inr items => (Return tt, (append_to items self, trace))
  end.
Proof.
  unfold try_except.
  destruct emails as [| [|] | n | [|] | [| c s] | [| x rest] | [| kv rest]];
    cbn [py_truthy negb str_truthy list_truthy emails_in]; try reflexivity;
    try (destruct (n =? 0)%Z; reflexivity);
    unfold bind, py_iter, ret; rewrite for_each_add_to; reflexivity.
Qed.

Lemma load_recipients_outcome env path self trace :
  load_recipients_from_file env path (self, trace) =
  match json_load env trace path with
  | Raise e =>
      (Raise (Exn EmailBuildError ("Error reading recipient file: " +++ exc_str e)),
       (self, trace ++ [EvJsonLoad path]))
  | Return data =>
      match emails_of data with
      | inl cause =>
          (Raise (Exn EmailBuildError ("Error reading recipient file: " +++ cause)),
           (self, trace ++ [EvJsonLoad path]))
      | inr items => (Return tt, (append_to items self, trace ++ [EvJsonLoad path]))
      end
  end.
Proof.
  pose proof (fun emails => load_emails_outcome emails self (trace ++ [EvJsonLoad path])) as Hvalue.
  unfold try_except in Hvalue.
  unfold load_recipients_from_file, try_except, bind at 1.
  unfold on_trace, zoom, request. cbn [fst snd].
  destruct (json_load env trace path) as [e | data]; [reflexivity |].
  destruct data; try reflexivity; unfold bind at 1, ret at 1; cbn [emails_of]; apply Hvalue.
Qed.

Lemma dict_get_missing {V : Type} k (d : list (string * V)) default :
  (forall v, ~ In (k, v) d) -> dict_get k d default = default.
Proof.
  unfold dict_get. intros H.
  destruct (find (fun kv => (fst kv =? k)%string) d) as [[k' v] |] eqn:E; [| reflexivity].
  apply find_some in E. destruct E as [Hin Heq]. simpl in Heq.
  apply String.eqb_eq in Heq. subst k'. now apply H in Hin.
Qed.

(** C5.  load_recipients_from_file reads the recipients key of a JSON
    object (a missing key gives the empty list), takes a JSON array as it
    is, and fails with a build error on any other shape, on an empty list
    and on a file that cannot be read or parsed; the error carries the
    message of its cause.  Otherwise every address is appended to the To
    list.  Loading the object with recipients a@x and b@x into a new
    builder gives To = [a@x, b@x], loading the array of c@x and d@x gives
    To = [c@x, d@x], and the empty object and the empty array fail with
    the build error of an empty list. *)
Theorem load_recipients_by_shape (env : Env) (path : string)
  (self : EmailMessageBuilder) (trace : list Event) :
  let result := load_recipients_from_file env path (self, trace) in
  let trace' := trace ++ [EvJsonLoad path] in
  (forall members items,
     json_load env trace path = Return (PyDict members) ->
     dict_get "recipients" members (PyList []) = PyList items -> items <> [] ->
     result = (Return tt, (append_to items self, trace'))) /\
  (forall members,
     json_load env trace path = Return (PyDict members) ->
     (forall v, ~ In ("recipients", v) members) ->
     dict_get "recipients" members (PyList []) = PyList [] /\
     result = (Raise (recipient_file_error "No emails found in recipient file."), (self, trace'))) /\
  (forall members,
     json_load env trace path = Return (PyDict members) ->
     dict_get "recipients" members (PyList []) = PyList [] ->
     result = (Raise (recipient_file_error "No emails found in recipient file."), (self, trace'))) /\
  (forall items,
     json_load env trace path = Return (PyList items) -> items <> [] ->
     result = (Return tt, (append_to items self, trace'))) /\
  (json_load env trace path = Return (PyList []) ->
     result = (Raise (recipient_file_error "No emails found in recipient file."), (self, trace'))) /\
  (forall data,
     json_load env trace path = Return data ->
     (forall members, data <> PyDict members) -> (forall items, data <> PyList items) ->
     result = (Raise (recipient_file_error "Recipient file format not recognized."), (self, trace'))) /\
  (forall e,
     json_load env trace path = Raise e ->
     result = (Raise (recipient_file_error (exc_str e)), (self, trace'))) /\
  _to (fst (snd (load_recipients_from_file
                   (file_env (Return (PyDict [("recipients", PyList ["a@x"; "b@x"])])))
                   path (new_builder, [])))) = ["a@x"; "b@x"] /\
  _to (fst (snd (load_recipients_from_file
                   (file_env (Return (PyList ["c@x"; "d@x"])))
                   path (new_builder, [])))) = ["c@x"; "d@x"] /\
  load_recipients_from_file (file_env (Return (PyDict []))) path (new_builder, []) =
    (Raise (recipient_file_error "No emails found in recipient file."),
     (new_builder, [EvJsonLoad path])) /\
  load_recipients_from_file (file_env (Return (PyList []))) path (new_builder, []) =
    (Raise (recipient_file_error "No emails found in recipient file."),
     (new_builder, [EvJsonLoad path])).
Proof.
  intros result trace'. subst result trace'.
  rewrite load_recipients_outcome.
  repeat match goal with |- _ /\ _ => split end.
  - intros members items -> Hget Hne. cbn [emails_of]. rewrite Hget.
    destruct items; [congruence | reflexivity].
  - intros members -> Hmiss. cbn [emails_of].
    rewrite (dict_get_missing _ _ _ Hmiss). split; reflexivity.
  - intros members -> Hget. cbn [emails_of]. now rewrite Hget.
  - intros items -> Hne. destruct items; [congruence | reflexivity].
  - intros ->. reflexivity.
  - intros data -> Hd Hl. destruct data; try reflexivity.
    + now destruct (Hl items).
    + now destruct (Hd members).
  - intros e ->. reflexivity.
  - reflexivity.
  - reflexivity.
  - reflexivity.
  - reflexivity.
Qed.

(** C10.  load_recipients_from_file is atomic on the builder.  When it
    raises, the exception is a build error and the builder, so its To, Cc
    and Bcc lists, is as before; when it returns, addresses were appended
    to the To list and nothing else changed.  It raises on every failure
    path: a file that cannot be read or parsed, a shape that is neither an
    object nor an array, an empty list. *)
Theorem load_recipients_atomic (env : Env) (path : string)
  (self self' : EmailMessageBuilder) (trace trace' : list Event) (r : outcome unit) :
  load_recipients_from_file env path (self, trace) = (r, (self', trace')) ->
  (forall e, r = Raise e ->
     exc_type e = EmailBuildError /\ self' = self /\
     _to self' = _to self /\ _cc self' = _cc self /\ _bcc self' = _bcc self) /\
  (r = Return tt ->
     exists items, _to self' = _to self ++ items /\ _cc self' = _cc self /\
                   _bcc self' = _bcc self) /\
  (forall e, json_load env trace path = Raise e ->
     r = Raise (recipient_file_error (exc_str e))) /\
  (forall data, json_load env trace path = Return data ->
     (forall members, data <> PyDict members) -> (forall items, data <> PyList items) ->
     r = Raise (recipient_file_error "Recipient file format not recognized.")) /\
  (forall data, json_load env trace path = Return data ->
     data = PyList [] \/
     (exists members, data = PyDict members /\
                      dict_get "recipients" members (PyList []) = PyList []) ->
     r = Raise (recipient_file_error "No emails found in recipient file.")).
Proof.
  rewrite load_recipients_outcome. intros H.
  repeat match goal with |- _ /\ _ => split end.
  - intros e ->.
    destruct (json_load env trace path) as [e0 | data].
    + injection H as <- <- _. auto.
    + destruct (emails_of data); [| discriminate].
      injection H as <- <- _. auto.
  - intros ->.
    destruct (json_load env trace path) as [e0 | data]; [discriminate |].
    destruct (emails_of data) as [cause | items]; [discriminate |].
    injection H as <- _. exists items. auto.
  - intros e He. rewrite He in H. now injection H as <- _ _.
  - intros data Hd Hnd Hnl. rewrite Hd in H.
    destruct data; try (now injection H as <- _ _).
    + now destruct (Hnl items).
    + now destruct (Hnd members).
  - intros data Hd [-> | (members & -> & Hget)]; rewrite Hd in H.
    + now injection H as <- _ _.
    + cbn [emails_of] in H. rewrite Hget in H. now injection H as <- _ _.
Qed.

(** An empty object loaded into the test builder: a build error, and the
    builder as before. *)
Lemma load_of_empty_object_changes_nothing :
  load_recipients_from_file (file_env (Return (PyDict []))) "recipients.json"
    (test_builder "Subject", [])
    = (Raise (recipient_file_error "No emails found in recipient file."),
       (test_builder "Subject", [EvJsonLoad "recipients.json"])) /\
  exc_type (recipient_file_error "No emails found in recipient file.") = EmailBuildError /\
  _to (test_builder "Subject") = ["dest@example.com"].
Proof.
  split; [reflexivity |].
  destruct (load_recipients_atomic (file_env (Return (PyDict []))) "recipients.json"
              (test_builder "Subject") (test_builder "Subject")
              [] [EvJsonLoad "recipients.json"]
              (Raise (recipient_file_error "No emails found in recipient file.")) eq_refl)
    as (Hraise & _).
  destruct (Hraise _ eq_refl) as (Hclass & _ & Hto & _).
  split; [exact Hclass | exact Hto].
Defined.

(** ** send *)

Section Send.

Variable lib : PyLib.
Variable env : Env.

Lemma write_log_disabled self success subject recipients error trace :
  opt_truthy (log_file self) = false ->
  _write_log lib env self success subject recipients error trace = (Return tt, trace).
Proof. intros H. unfold _write_log. now rewrite H. Qed.

Lemma write_log_enabled self success subject recipients error trace path :
  log_file self = Some path -> path <> "" ->
  _write_log lib env self success subject recipients error trace =
  let asked := trace ++ [EvMakedirs (dirname path)] in
  let line := log_line lib (datetime_now env asked) success subject recipients error in
  match os_makedirs env trace (dirname path) with
  | Raise e => (Raise e, asked)
  | Return _ => (open_append_write env asked path line, asked ++ [EvAppend path line])
  end.
Proof.
  intros Hlog Hpath. unfold _write_log. rewrite Hlog.
  destruct path as [| c path]; [congruence |]. cbn [opt_truthy str_truthy negb fmt].
  unfold bind, request, get_state.
  destruct (os_makedirs env trace (dirname (String c path))); reflexivity.
Qed.

(** Where [build] raises, [send] raises the same and asks nothing of the
    system. *)
Lemma send_build_raises self timeout builder trace e builder' :
  build lib builder = (Raise e, builder') ->
  send lib env self timeout (builder, trace) = (Raise e, (builder', trace)).
Proof.
  intros H. unfold send. unfold bind at 1. unfold on_builder at 1, zoom. cbn [fst snd].
  now rewrite H.
Qed.

(** Where the message does not serialise, [send] raises the exception of
    [msg.as_bytes()]: no process is run and nothing is logged. *)
Lemma send_serialise_raises self timeout builder trace msg built e :
  build lib builder = (Return msg, built) ->
  as_bytes lib msg = Raise e ->
  send lib env self timeout (builder, trace) = (Raise e, (built, trace)).
Proof.
  intros Hb Hs. unfold send.
  unfold bind at 1. unfold on_builder at 1, zoom. cbn [fst snd]. rewrite Hb.
  unfold bind at 1. unfold on_builder at 1, zoom, get_state. cbn [fst snd].
  unfold bind at 1. now rewrite Hs.
Qed.

Lemma send_outcome self timeout builder trace msg built raw_bytes :
  build lib builder = (Return msg, built) ->
  as_bytes lib msg = Return raw_bytes ->
  send lib env self timeout (builder, trace) =
  let recipients := recipients built in
  let cmd := _build_cmd self recipients in
  let subject := get_header lib "Subject" (_headers msg) in
  let ran := trace ++ [EvRun cmd raw_bytes timeout] in
  match subprocess_run env trace cmd raw_bytes timeout with
  | Raise e =>
      after_log built (Raise (Exn MsmtpSendError (exc_str e)))
        (_write_log lib env self false subject recipients (Some (exc_str e)) ran)
  | Return proc =>
      if (returncode proc =? 0)%Z then
        after_log built (Return tt)
          (_write_log lib env self true subject recipients None ran)
      else
        let err := decode_ignore lib (stderr proc) in
        after_log built (Raise (Exn MsmtpSendError err))
          (_write_log lib env self false subject recipients (Some err) ran)
  end.
Proof.
  intros Hb Hs. unfold send.
  unfold bind at 1. unfold on_builder at 1, zoom. cbn [fst snd]. rewrite Hb.
  unfold bind at 1. unfold on_builder at 1, zoom, get_state. cbn [fst snd].
  unfold bind at 1. rewrite Hs.
  unfold bind at 1, try_except. unfold on_trace at 1, zoom, request. cbn [fst snd].
  destruct (subprocess_run env trace _ _ timeout) as [e | proc].
  - unfold bind, on_trace, zoom, raise, after_log. cbn [fst snd].
    destruct (_write_log lib env self false _ _ _ _) as [[e' | u] t]; reflexivity.
  - destruct (returncode proc =? 0)%Z; cbn [negb].
    + unfold on_trace, zoom, after_log. cbn [fst snd].
      destruct (_write_log lib env self true _ _ _ _) as [[e' | []] t]; reflexivity.
    + unfold bind, on_trace, zoom, raise, after_log. cbn [fst snd].
      destruct (_write_log lib env self false _ _ _ _) as [[e' | u] t]; reflexivity.
Qed.

Lemma send_by_result self timeout builder trace msg built raw_bytes :
  build lib builder = (Return msg, built) ->
  as_bytes lib msg = Return raw_bytes ->
  let recipients := recipients built in
  let cmd := _build_cmd self recipients in
  let subject := get_header lib "Subject" (_headers msg) in
  let ran := trace ++ [EvRun cmd raw_bytes timeout] in
  let '(success, error, result) :=
    send_result lib (subprocess_run env trace cmd raw_bytes timeout) in
  send lib env self timeout (builder, trace) =
  after_log built result (_write_log lib env self success subject recipients error ran).
Proof.
  intros Hb Hs. cbv zeta. rewrite (send_outcome _ _ _ _ _ _ _ Hb Hs). cbv zeta.
  unfold send_result.
  destruct (subprocess_run env trace _ _ timeout) as [e | proc]; [reflexivity |].
  destruct (returncode proc =? 0)%Z; reflexivity.
Qed.

Lemma write_log_events self success subject recipients error trace :
  exists logged,
    snd (_write_log lib env self success subject recipients error trace) = trace ++ logged /\
    Forall is_log_event logged.
Proof.
  destruct (log_file self) as [path |] eqn:Hlog.
  - destruct path as [| c path].
    + exists []. rewrite write_log_disabled by (now rewrite Hlog).
      now rewrite app_nil_r.
    + rewrite (write_log_enabled _ _ _ _ _ _ _ Hlog) by discriminate. cbv zeta.
      destruct (os_makedirs env trace _).
      * eexists. split; [reflexivity |]. repeat constructor.
      * eexists. cbn [snd]. rewrite <- app_assoc. split; [reflexivity |].
        repeat constructor.
  - exists []. rewrite write_log_disabled by (now rewrite Hlog).
    now rewrite app_nil_r.
Qed.

(** The subject of a message that was built, as the library reads it, is
    not empty. *)
Lemma build_success_subject self msg built :
  build lib self = (Return msg, built) ->
  exists text, get_header lib "Subject" (_headers msg) = Some text /\ text <> "".
Proof.
  intros Hb.
  destruct (build_success_validated _ _ _ _ Hb) as (_ & Hs & _).
  destruct (build_success _ _ _ _ Hb) as (Hmsg & _).
  rewrite no_subject_iff in Hs. apply not_false_is_true in Hs.
  destruct (get_header lib "Subject" (_headers (_msg self))) as [text |] eqn:E;
    [| discriminate].
  exists text. split.
  - rewrite Hmsg. apply get_header_app. exact E.
  - intros ->. discriminate.
Qed.

(** C1, as amended.  For every builder whose message builds and every
    timeout, as long as the message serialises and the write to the log
    returns (the latter always does when no log file is configured): send
    raises MsmtpSendError carrying str(e) when running the process raises
    e (it cannot be started, it exceeds the timeout); it raises
    MsmtpSendError carrying the decoded standard error, which is the
    standard error itself when that is ASCII, when the process exits
    non-zero; and it returns None when the process exits with 0.  Where
    msg.as_bytes() raises, which it does before the process is run, send
    raises that exception, not MsmtpSendError, and nothing is run or
    logged. *)
Theorem send_transport_error_unless_log_fails
  (self : MsmtpClient) (timeout : Z) (builder built : EmailMessageBuilder)
  (trace : list Event) (msg : EmailMessage) :
  build lib builder = (Return msg, built) ->
  let recipients := recipients built in
  let cmd := _build_cmd self recipients in
  let subject := get_header lib "Subject" (_headers msg) in
  (forall e,
     as_bytes lib msg = Raise e ->
     send lib env self timeout (builder, trace) = (Raise e, (built, trace))) /\
  (forall raw_bytes,
     as_bytes lib msg = Return raw_bytes ->
     let ran := trace ++ [EvRun cmd raw_bytes timeout] in
     let answer := subprocess_run env trace cmd raw_bytes timeout in
     (forall e logged,
        answer = Raise e ->
        _write_log lib env self false subject recipients (Some (exc_str e)) ran
          = (Return tt, logged) ->
        send lib env self timeout (builder, trace)
          = (Raise (Exn MsmtpSendError (exc_str e)), (built, logged))) /\
     (forall proc logged,
        answer = Return proc -> returncode proc <> 0%Z ->
        _write_log lib env self false subject recipients
          (Some (decode_ignore lib (stderr proc))) ran = (Return tt, logged) ->
        send lib env self timeout (builder, trace)
          = (Raise (Exn MsmtpSendError (decode_ignore lib (stderr proc))), (built, logged)) /\
        (is_ascii (stderr proc) = true -> decode_ignore lib (stderr proc) = stderr proc)) /\
     (forall proc logged,
        answer = Return proc -> returncode proc = 0%Z ->
        _write_log lib env self true subject recipients None ran = (Return tt, logged) ->
        send lib env self timeout (builder, trace) = (Return tt, (built, logged))) /\
     (opt_truthy (log_file self) = false ->
      forall success error,
        _write_log lib env self success subject recipients error ran = (Return tt, ran))).
Proof.
  intros Hb recipients cmd subject.
  split; [intros e He; now apply send_serialise_raises with (msg := msg) |].
  intros raw_bytes Hs ran answer.
  pose proof (send_outcome self timeout builder trace msg built raw_bytes Hb Hs) as Hsend.
  cbv zeta in Hsend. fold recipients cmd subject ran answer in Hsend.
  split; [| split; [| split]].
  - intros e logged He Hlog. rewrite Hsend, He, Hlog. reflexivity.
  - intros proc logged Hp Hrc Hlog. split; [| apply decode_ignore_ascii].
    rewrite Hsend, Hp. apply Z.eqb_neq in Hrc. rewrite Hrc, Hlog. reflexivity.
  - intros proc logged Hp Hrc Hlog. rewrite Hsend, Hp, Hrc, Hlog. reflexivity.
  - intros Hoff success error. now apply write_log_disabled.
Qed.

(** C7, as amended.  For every builder whose message builds and
    serialises, send runs the binary once, with the arguments
    <msmtp_path> -a gmail followed by the delivery list of recipients()
    in order, the serialized message on standard input and the timeout
    given; whatever else it asks of the system is a request of the log
    write.  When the process exits with 0, send returns None as long as
    the write to the log returns, which it always does when no log file
    is configured.  Where build() or msg.as_bytes() raises, send raises
    that exception and asks nothing of the system: no process is run. *)
Theorem send_invokes_msmtp_with_recipients
  (self : MsmtpClient) (timeout : Z) (builder : EmailMessageBuilder) (trace : list Event) :
  (forall msg built raw_bytes,
     build lib builder = (Return msg, built) ->
     as_bytes lib msg = Return raw_bytes ->
     let cmd := [msmtp_path self; "-a"; MSMTP_ACCOUNT] ++ recipients built in
     let ran := trace ++ [EvRun cmd raw_bytes timeout] in
     recipients built = first_seen (_to builder ++ _cc builder ++ _bcc builder) /\
     (exists result logged,
        send lib env self timeout (builder, trace) = (result, (built, ran ++ logged)) /\
        Forall is_log_event logged) /\
     (forall proc logged,
        subprocess_run env trace cmd raw_bytes timeout = Return proc ->
        returncode proc = 0%Z ->
        _write_log lib env self true (get_header lib "Subject" (_headers msg))
          (recipients built) None ran = (Return tt, logged) ->
        send lib env self timeout (builder, trace) = (Return tt, (built, logged))) /\
     (opt_truthy (log_file self) = false ->
      forall proc,
        subprocess_run env trace cmd raw_bytes timeout = Return proc ->
        returncode proc = 0%Z ->
        send lib env self timeout (builder, trace) = (Return tt, (built, ran)))) /\
  (forall e builder',
     build lib builder = (Raise e, builder') ->
     send lib env self timeout (builder, trace) = (Raise e, (builder', trace))) /\
  (forall msg built e,
     build lib builder = (Return msg, built) ->
     as_bytes lib msg = Raise e ->
     send lib env self timeout (builder, trace) = (Raise e, (built, trace))).
Proof.
  split; [| split; [intros e builder'; apply send_build_raises
                   | intros msg built e; apply send_serialise_raises]].
  intros msg built raw_bytes Hb Hs cmd ran.
  pose proof (send_by_result self timeout builder trace msg built raw_bytes Hb Hs) as Hsend.
  cbv zeta in Hsend. change (_build_cmd self (recipients built)) with cmd in Hsend.
  fold ran in Hsend.
  assert (Hzero : forall proc logged,
            subprocess_run env trace cmd raw_bytes timeout = Return proc ->
            returncode proc = 0%Z ->
            _write_log lib env self true (get_header lib "Subject" (_headers msg))
              (recipients built) None ran = (Return tt, logged) ->
            send lib env self timeout (builder, trace) = (Return tt, (built, logged))).
  { intros proc logged Hp Hrc Hlog. rewrite Hp in Hsend. cbn [send_result] in Hsend.
    rewrite Hrc in Hsend. cbn in Hsend. rewrite Hsend, Hlog. reflexivity. }
  split; [| split; [| split]].
  - destruct (build_success _ _ _ _ Hb) as (_ & -> & _).
    unfold recipients. now rewrite dict_fromkeys_first_seen.
  - destruct (send_result lib _) as [[success error] result]. rewrite Hsend.
    destruct (write_log_events self success (get_header lib "Subject" (_headers msg))
                (recipients built) error ran) as (logged & Hsnd & Hall).
    destruct (_write_log lib env self success _ _ error ran) as [[e | u] t];
      cbn [snd] in Hsnd; subst t; unfold after_log; eauto.
  - exact Hzero.
  - intros Hlog proc Hp Hrc. apply (Hzero proc ran Hp Hrc).
    now apply write_log_disabled.
Qed.

(** C8, as amended.  With a log file configured, a send whose message
    builds and serialises asks os.makedirs for the directory of the log
    file and, when that returns, appends one text to the log file:
    [<timestamp>] OK or FAIL (<error>) | Subject='<subject>' | To=<repr of
    the delivery list>, ended by a line feed, where the subject is the
    Subject header as the library reads it, which is not empty.  When both
    requests return, send ends as the process decides: None on exit 0,
    MsmtpSendError otherwise.  When os.makedirs raises, nothing is
    appended and send raises that exception; when the append raises, send
    raises that exception: in both cases in place of the result of the
    send. *)
Theorem send_logs_one_line_or_raises
  (self : MsmtpClient) (timeout : Z) (builder built : EmailMessageBuilder)
  (trace : list Event) (msg : EmailMessage) (raw_bytes path : string) :
  log_file self = Some path -> path <> "" ->
  build lib builder = (Return msg, built) ->
  as_bytes lib msg = Return raw_bytes ->
  let recipients := recipients built in
  let cmd := _build_cmd self recipients in
  let subject := get_header lib "Subject" (_headers msg) in
  let ran := trace ++ [EvRun cmd raw_bytes timeout] in
  let asked := ran ++ [EvMakedirs (dirname path)] in
  let '(success, error, result) :=
    send_result lib (subprocess_run env trace cmd raw_bytes timeout) in
  let line :=
    "[" +++ strftime (datetime_now env asked) +++ "] "
    +++ (if success then "OK" else "FAIL (" +++ fmt error +++ ")")
    +++ " | Subject='" +++ fmt subject +++ "' | To=" +++ list_repr lib recipients +++ LF in
  (exists text, subject = Some text /\ text <> "") /\
  (os_makedirs env ran (dirname path) = Return tt ->
   open_append_write env asked path line = Return tt ->
   send lib env self timeout (builder, trace)
     = (result, (built, asked ++ [EvAppend path line]))) /\
  (forall e,
     os_makedirs env ran (dirname path) = Raise e ->
     send lib env self timeout (builder, trace) = (Raise e, (built, asked))) /\
  (forall e,
     os_makedirs env ran (dirname path) = Return tt ->
     open_append_write env asked path line = Raise e ->
     send lib env self timeout (builder, trace)
       = (Raise e, (built, asked ++ [EvAppend path line]))).
Proof.
  intros Hlog Hpath Hb Hs recipients cmd subject ran asked.
  pose proof (send_by_result self timeout builder trace msg built raw_bytes Hb Hs) as Hsend.
  cbv zeta in Hsend. fold recipients cmd subject ran in Hsend.
  destruct (send_result lib _) as [[success error] result].
  rewrite (write_log_enabled _ _ _ _ _ _ _ Hlog Hpath) in Hsend. cbv zeta in Hsend.
  fold asked in Hsend. unfold log_line in Hsend.
  split; [| split; [| split]].
  - exact (build_success_subject _ _ _ Hb).
  - intros Hmk Hw. rewrite Hsend, Hmk, Hw. reflexivity.
  - intros e Hmk. rewrite Hsend, Hmk. reflexivity.
  - intros e Hmk Hw. rewrite Hsend, Hmk, Hw. reflexivity.
Qed.

End Send.

(** ** send on the data of the tests *)

(** The test of a failing transport: exit code 1 and AUTH error on the
    standard error, no log file. *)
Lemma send_failure_of_the_test :
  build sample_lib (test_builder "Fail")
    = (Return (message_of (test_builder "Fail")), built_of (test_builder "Fail")) /\
  send sample_lib (process_env (exited 1 "AUTH error") (Return tt) (Return tt))
    default_client 60 (test_builder "Fail", [])
    = (Raise (Exn MsmtpSendError "AUTH error"),
       (built_of (test_builder "Fail"),
        [EvRun ["/usr/bin/msmtp"; "-a"; "gmail"; "dest@example.com"]
           (wire (message_of (test_builder "Fail"))) 60])).
Proof.
  split; [reflexivity |].
  destruct (send_transport_error_unless_log_fails sample_lib
              (process_env (exited 1 "AUTH error") (Return tt) (Return tt))
              default_client 60 (test_builder "Fail") (built_of (test_builder "Fail")) []
              (message_of (test_builder "Fail")) eq_refl)
    as (_ & Hsent).
  destruct (Hsent (wire (message_of (test_builder "Fail"))) eq_refl) as (_ & Hexit & _).
  refine (proj1 (Hexit {| returncode := 1; stdout := ""; stderr := "AUTH error" |}
                   _ eq_refl _ eq_refl)).
  discriminate.
Defined.

(** Two sends that end in an exception other than MsmtpSendError.  With
    the log file of Example.py where the user may not write, a failed
    process does not end in MsmtpSendError: the error of the log write
    comes out of send.  With a To address the message builds with and
    does not serialise with, the exception of the serialiser comes out of
    send, and no process is run. *)
Lemma send_raises_the_log_error_after_a_failed_process :
  let env := process_env (exited 1 "AUTH error") (Return tt)
               (Raise (permission_denied "/var/log/msmtp_mail.log")) in
  let unsent := addressed_builder unclosed_quote in
  build sample_lib (test_builder "Fail")
    = (Return (message_of (test_builder "Fail")), built_of (test_builder "Fail")) /\
  fst (send sample_lib env logging_client 60 (test_builder "Fail", []))
    = Raise (Exn OSError "[Errno 13] Permission denied: '/var/log/msmtp_mail.log'") /\
  (forall text,
     fst (send sample_lib env logging_client 60 (test_builder "Fail", []))
       <> Raise (Exn MsmtpSendError text)) /\
  build sample_lib unsent = (Return (message_of unsent), built_of unsent) /\
  send sample_lib env default_client 60 (unsent, [])
    = (Raise (Exn IndexError "list index out of range"), (built_of unsent, [])).
Proof. vm_compute. repeat split; discriminate. Qed.

(** The test of a successful transport: exit code 0, no log file. *)
Lemma send_success_of_the_test :
  build sample_lib (test_builder "OK")
    = (Return (message_of (test_builder "OK")), built_of (test_builder "OK")) /\
  recipients (built_of (test_builder "OK")) = ["dest@example.com"] /\
  send sample_lib (process_env (exited 0 "") (Return tt) (Return tt))
    default_client 60 (test_builder "OK", [])
    = (Return tt,
       (built_of (test_builder "OK"),
        [EvRun ["/usr/bin/msmtp"; "-a"; "gmail"; "dest@example.com"]
           (wire (message_of (test_builder "OK"))) 60])).
Proof.
  split; [reflexivity |]. split; [reflexivity |].
  destruct (proj1 (send_invokes_msmtp_with_recipients sample_lib
                     (process_env (exited 0 "") (Return tt) (Return tt))
                     default_client 60 (test_builder "OK") [])
              (message_of (test_builder "OK")) (built_of (test_builder "OK"))
              (wire (message_of (test_builder "OK"))) eq_refl eq_refl)
    as (_ & _ & _ & Hzero).
  exact (Hzero eq_refl {| returncode := 0; stdout := ""; stderr := "" |} eq_refl eq_refl).
Defined.

(** Three sends that do not both run the binary and return.  With the log
    file of Example.py where the user may not write, a send whose process
    exits with 0 does not return: the process has run, and the error of
    the log write comes out of send.  With the To address a@, which the
    parser of the library fails on, build() raises IndexError and no
    process is run; with a To address the message does not serialise
    with, msg.as_bytes() raises and no process is run. *)
Lemma send_raises_the_log_error_after_exit_zero :
  let env := process_env (exited 0 "") (Return tt)
               (Raise (permission_denied "/var/log/msmtp_mail.log")) in
  let ran := send sample_lib env logging_client 60 (test_builder "OK", []) in
  let refused := send sample_lib env default_client 60 (addressed_builder "a@", []) in
  let unsent := send sample_lib env default_client 60
                  (addressed_builder unclosed_quote, []) in
  build sample_lib (test_builder "OK")
    = (Return (message_of (test_builder "OK")), built_of (test_builder "OK")) /\
  hd_error (snd (snd ran))
    = Some (EvRun ["/usr/bin/msmtp"; "-a"; "gmail"; "dest@example.com"]
              (wire (message_of (test_builder "OK"))) 60) /\
  fst ran = Raise (Exn OSError "[Errno 13] Permission denied: '/var/log/msmtp_mail.log'") /\
  fst ran <> Return tt /\
  recipients (addressed_builder "a@") = ["a@"] /\
  fst refused = Raise (Exn IndexError "string index out of range") /\
  snd (snd refused) = [] /\
  recipients (addressed_builder unclosed_quote) = [unclosed_quote] /\
  fst unsent = Raise (Exn IndexError "list index out of range") /\
  snd (snd unsent) = [].
Proof. vm_compute. repeat split; discriminate. Qed.

(** The client of Example.py where the log can be written: a failed
    process leaves one line in the log and MsmtpSendError. *)
Lemma send_logs_the_failure_of_the_test :
  let env := process_env (exited 1 "AUTH error") (Return tt) (Return tt) in
  build sample_lib (test_builder "Fail")
    = (Return (message_of (test_builder "Fail")), built_of (test_builder "Fail")) /\
  send sample_lib env logging_client 60 (test_builder "Fail", [])
    = (Raise (Exn MsmtpSendError "AUTH error"),
       (built_of (test_builder "Fail"),
        [EvRun ["/usr/bin/msmtp"; "-a"; "gmail"; "dest@example.com"]
           (wire (message_of (test_builder "Fail"))) 60;
         EvMakedirs "/var/log";
         EvAppend "/var/log/msmtp_mail.log"
           ("[2025-03-07 09:05:00] FAIL (AUTH error) | Subject='Fail' | To=['dest@example.com']"
            +++ LF)])).
Proof.
  cbv zeta. split; [reflexivity |].
  pose proof (send_logs_one_line_or_raises sample_lib
                (process_env (exited 1 "AUTH error") (Return tt) (Return tt))
                logging_client 60 (test_builder "Fail") (built_of (test_builder "Fail")) []
                (message_of (test_builder "Fail")) (wire (message_of (test_builder "Fail")))
                "/var/log/msmtp_mail.log" eq_refl) as H.
  assert (Hpath : "/var/log/msmtp_mail.log" <> "") by discriminate.
  specialize (H Hpath eq_refl eq_refl). cbv zeta in H.
  destruct H as (_ & Hok & _).
  exact (Hok eq_refl eq_refl).
Defined.

(** Where the directory of the log cannot be made, nothing is appended
    and the result of the send is lost: neither None after exit 0 nor
    MsmtpSendError after exit 1 comes out, the error of os.makedirs
    does.  And the subject of the line is the Subject header as the
    library reads it, not the text set_subject was given: an encoded word
    is logged decoded. *)
Lemma log_failure_replaces_the_send_result :
  let client := {| msmtp_path := "/usr/bin/msmtp";
                   log_file := Some "/var/log/msmtp/mail.log" |} in
  let denied := Raise (permission_denied "/var/log/msmtp") in
  let sent := send sample_lib (process_env (exited 0 "") denied (Return tt))
                client 60 (test_builder "OK", []) in
  let failed := send sample_lib (process_env (exited 1 "AUTH error") denied (Return tt))
                  client 60 (test_builder "Fail", []) in
  let encoded := send sample_lib (process_env (exited 0 "") (Return tt) (Return tt))
                   logging_client 60 (test_builder "=?utf-8?q?hello?=", []) in
  build sample_lib (test_builder "OK")
    = (Return (message_of (test_builder "OK")), built_of (test_builder "OK")) /\
  fst sent = Raise (Exn OSError "[Errno 13] Permission denied: '/var/log/msmtp'") /\
  fst sent <> Return tt /\
  snd (snd sent)
    = [EvRun ["/usr/bin/msmtp"; "-a"; "gmail"; "dest@example.com"]
         (wire (message_of (test_builder "OK"))) 60;
       EvMakedirs "/var/log/msmtp"] /\
  fst failed = Raise (Exn OSError "[Errno 13] Permission denied: '/var/log/msmtp'") /\
  (forall text, fst failed <> Raise (Exn MsmtpSendError text)) /\
  snd (snd failed)
    = [EvRun ["/usr/bin/msmtp"; "-a"; "gmail"; "dest@example.com"]
         (wire (message_of (test_builder "Fail"))) 60;
       EvMakedirs "/var/log/msmtp"] /\
  nth_error (snd (snd encoded)) 2
    = Some (EvAppend "/var/log/msmtp_mail.log"
              ("[2025-03-07 09:05:00] OK | Subject='hello' | To=['dest@example.com']"
               +++ LF)).
Proof. vm_compute. repeat split; discriminate. Qed.

(** * More properties *)

(** ** Headers the library makes *)

Lemma same_name_content name h :
  is_content_header (name, "") = true -> same_name name h = true ->
  is_content_header h = true.
Proof.
  unfold is_content_header, same_name. simpl. intros Hc Hs.
  apply String.eqb_eq in Hs. now rewrite Hs.
Qed.

Lemma raw_all_kept name msg :
  is_content_header (name, "") = true -> raw_all name (kept_headers msg) = [].
Proof.
  intros Hc. unfold raw_all, kept_headers.
  induction (_headers msg) as [| h hs IH]; simpl; [reflexivity |].
  destruct (is_content_header h) eqn:Eh; simpl; [exact IH |].
  destruct (same_name name h) eqn:Es; simpl; [| exact IH].
  rewrite (same_name_content _ _ Hc Es) in Eh. discriminate.
Qed.

Lemma raw_all_nil_forall name hs :
  raw_all name hs = [] -> forall h, In h hs -> same_name name h = false.
Proof.
  unfold raw_all. induction hs as [| h0 hs IH]; simpl; [tauto |].
  destruct (same_name name h0) eqn:E; simpl; [discriminate |].
  intros H h [<- | Hin]; auto.
Qed.

Lemma replace_first_last name old val hs :
  raw_all name hs = [] -> same_name name (name, old) = true ->
  replace_first name val (hs ++ [(name, old)]) = hs ++ [(name, val)].
Proof.
  intros Hall Hsame. induction hs as [| h hs IH]; simpl.
  - now rewrite Hsame.
  - unfold raw_all in Hall. simpl in Hall.
    destruct (same_name name h) eqn:E; simpl in Hall; [discriminate |].
    now rewrite IH.
Qed.

Lemma raw_header_none_raw_all name hs : raw_header name hs = None -> raw_all name hs = [].
Proof.
  rewrite raw_header_raw_all. now destruct (raw_all name hs).
Qed.

Lemma raw_header_skip name hs more :
  raw_all name more = [] -> raw_header name (hs ++ more) = raw_header name hs.
Proof.
  intros H. rewrite !raw_header_raw_all, raw_all_app, H. now rewrite app_nil_r.
Qed.

Lemma raw_header_last name hs n v :
  raw_all name hs = [] -> same_name name (n, v) = true ->
  raw_header name (hs ++ [(n, v)]) = Some v.
Proof.
  intros Hall Hsame. rewrite raw_header_raw_all, raw_all_app, Hall.
  unfold raw_all. cbn [filter app]. now rewrite Hsame.
Qed.

(** The first header of a name that is assigned: refused for a text of
    more than one line, then by the parser, appended otherwise. *)
Lemma setitem_new lib name val msg :
  raw_all name (_headers msg) = [] ->
  setitem lib name val msg =
  if 1 <? length (str_splitlines val)
  then (Raise (Exn ValueError
                 "Header values may not contain linefeed or carriage return characters"),
        msg)
  else match header_refused lib (lower name) val with
       | Some e => (Raise e, msg)
       | None =>
           (Return tt,
            {| _headers := _headers msg ++ [(name, val)]; _payload := _payload msg |})
       end.
Proof.
  intros Hall. unfold setitem, bind, header_store_parse.
  rewrite (raw_all_nil_limit _ _ Hall).
  destruct (1 <? length (str_splitlines val)); [reflexivity |].
  destruct (header_refused lib (lower name) val); reflexivity.
Qed.

Lemma replace_header_outcome lib name val msg :
  raw_header name (_headers msg) <> None ->
  replace_header lib name val msg =
  if 1 <? length (str_splitlines val)
  then (Raise (Exn ValueError
                 "Header values may not contain linefeed or carriage return characters"),
        msg)
  else match header_refused lib (lower name) val with
       | Some e => (Raise e, msg)
       | None =>
           (Return tt,
            {| _headers := replace_first name val (_headers msg);
               _payload := _payload msg |})
       end.
Proof.
  intros Hthere. unfold replace_header, bind, header_store_parse.
  destruct (raw_header name (_headers msg)); [| congruence].
  destruct (1 <? length (str_splitlines val)); [reflexivity |].
  destruct (header_refused lib (lower name) val); reflexivity.
Qed.

(** The header texts of the library are of one line, taken by the parsers
    and read as they are. *)
Lemma library_header_accepted lib name value :
  In (name, value) library_headers ->
  (1 <? length (str_splitlines value)) = false /\
  header_refused lib name value = None /\
  header_decoded lib name value = value.
Proof.
  intros H. split; [| exact (library_headers_kept lib name value H)].
  unfold library_headers in H.
  repeat (destruct H as [H | H]; [injection H as <- <-; reflexivity |]).
  destruct H.
Qed.

Lemma setitem_library lib name value msg :
  In (lower name, value) library_headers ->
  raw_all name (_headers msg) = [] ->
  setitem lib name value msg =
    (Return tt, {| _headers := _headers msg ++ [(name, value)]; _payload := _payload msg |}).
Proof.
  intros Hin Hall. rewrite (setitem_new _ _ _ _ Hall).
  destruct (library_header_accepted lib _ _ Hin) as (-> & -> & _). reflexivity.
Qed.

Lemma replace_header_library lib name value msg :
  In (lower name, value) library_headers ->
  raw_header name (_headers msg) <> None ->
  replace_header lib name value msg =
    (Return tt, {| _headers := replace_first name value (_headers msg);
                   _payload := _payload msg |}).
Proof.
  intros Hin Hall. rewrite (replace_header_outcome _ _ _ _ Hall).
  destruct (library_header_accepted lib _ _ Hin) as (-> & -> & _). reflexivity.
Qed.

Lemma text_cte_library lib text :
  In ("content-transfer-encoding", text_cte lib text) library_headers.
Proof.
  pose proof (text_cte_known lib text) as H. unfold transfer_encodings in H.
  unfold library_headers.
  destruct H as [<- | [<- | [<- | [<- | []]]]]; cbn; tauto.
Qed.

Lemma text_type_library subtype :
  subtype = "plain" \/ subtype = "html" ->
  In ("content-type", "text/" +++ subtype) library_headers /\
  In ("content-type", text_content_type subtype) library_headers.
Proof. intros [-> | ->]; split; cbn; tauto. Qed.

(** The type the library reads from a message whose one Content-Type
    header is the last and made from a text of the library. *)
Lemma get_header_last lib name hs n v :
  raw_all name hs = [] -> same_name name (n, v) = true ->
  get_header lib name (hs ++ [(n, v)]) = Some (header_decoded lib (lower name) v).
Proof.
  intros Hall Hsame. unfold get_header. now rewrite (raw_header_last _ _ _ _ Hall Hsame).
Qed.

(** ** set_body *)

Lemma set_content_returns lib text subtype msg :
  subtype = "plain" \/ subtype = "html" ->
  get_content_maintype lib (_headers msg) <> "multipart" ->
  set_content lib text subtype msg = (Return tt, with_text lib text subtype msg).
Proof.
  intros Hsub Hmulti. apply String.eqb_neq in Hmulti.
  destruct (text_type_library _ Hsub) as [Hbare Hfull].
  unfold set_content. unfold bind at 1, get_state. rewrite Hmulti.
  unfold bind at 1, clear_content. fold (is_content_header).
  change (filter (fun h => negb (startswith "content-" (lower (fst h)))) (_headers msg))
    with (kept_headers msg).
  unfold bind at 1.
  rewrite setitem_library; [| exact Hbare | apply raw_all_kept; reflexivity].
  unfold bind at 1. unfold bind at 1.
  cbn [_headers _payload].
  rewrite replace_header_library; [| exact Hfull |].
  2:{ cbn [_headers]. rewrite (raw_header_last "Content-Type" _ "Content-Type");
        [discriminate | apply raw_all_kept; reflexivity | reflexivity]. }
  cbn [_headers _payload].
  rewrite replace_first_last; [| apply raw_all_kept; reflexivity | reflexivity].
  unfold bind at 1.
  rewrite setitem_library; [| apply text_cte_library |].
  2:{ cbn [_headers]. rewrite raw_all_app, raw_all_kept by reflexivity. reflexivity. }
  cbn [_headers _payload]. unfold bind, get_state. cbn [_headers].
  unfold with_text, text_content_type.
  rewrite (raw_header_skip "MIME-Version" (kept_headers msg ++ _) [_]) by reflexivity.
  rewrite (raw_header_skip "MIME-Version" (kept_headers msg) [_]) by reflexivity.
  destruct (raw_header "MIME-Version" (kept_headers msg)) eqn:E.
  - unfold ret. rewrite app_nil_r, <- app_assoc. reflexivity.
  - rewrite setitem_library; cbn [_headers _payload].
    + rewrite <- !app_assoc. reflexivity.
    + cbn; tauto.
    + rewrite !raw_all_app. rewrite (raw_header_none_raw_all _ _ E). reflexivity.
Qed.

Lemma set_body_returns lib text subtype self :
  subtype = "plain" \/ subtype = "html" ->
  get_content_maintype lib (_headers (_msg self)) <> "multipart" ->
  set_body lib text subtype self =
    (Return tt, with_msg (with_text lib text subtype (_msg self)) self).
Proof.
  intros Hsub Hmulti. unfold set_body, on_msg, zoom.
  rewrite set_content_returns; [reflexivity | exact Hsub | exact Hmulti].
Qed.

Lemma with_text_type lib text subtype msg :
  subtype = "plain" \/ subtype = "html" ->
  get_content_type lib (_headers (with_text lib text subtype msg)) = "text/" +++ subtype.
Proof.
  intros Hsub.
  assert (Hraw : raw_header "content-type" (_headers (with_text lib text subtype msg))
                 = Some (text_content_type subtype)).
  { unfold with_text. cbn [_headers].
    rewrite raw_header_raw_all, raw_all_app, raw_all_kept by reflexivity.
    destruct (raw_header "MIME-Version" (kept_headers msg)); reflexivity. }
  unfold get_content_type, get_header. rewrite Hraw. cbn [option_map].
  destruct (text_type_library _ Hsub) as [_ Hfull].
  change (lower "content-type") with "content-type".
  destruct (library_header_accepted lib _ _ Hfull) as (_ & _ & ->).
  destruct Hsub as [-> | ->]; reflexivity.
Qed.

Lemma with_text_not_mixed lib text subtype msg :
  subtype = "plain" \/ subtype = "html" ->
  mixed_already lib (with_text lib text subtype msg) = false.
Proof.
  intros Hsub. unfold mixed_already, get_content_maintype.
  rewrite (with_text_type _ _ _ _ Hsub). destruct Hsub as [-> | ->]; reflexivity.
Qed.

Lemma filter_content_kept msg : filter is_content_header (kept_headers msg) = [].
Proof.
  unfold kept_headers. rewrite filter_filter.
  induction (_headers msg) as [| h hs IH]; simpl; [reflexivity |].
  now rewrite andb_negb_r.
Qed.

Lemma with_text_content_headers lib text subtype msg :
  content_headers (with_text lib text subtype msg) =
    [("Content-Type", text_content_type subtype);
     ("Content-Transfer-Encoding", text_cte lib text)].
Proof.
  unfold content_headers, with_text. cbn [_headers].
  rewrite !filter_app, filter_content_kept.
  destruct (raw_header "MIME-Version" (kept_headers msg)); reflexivity.
Qed.

Lemma kept_headers_idem msg hs p :
  kept_headers {| _headers := kept_headers msg ++ hs; _payload := p |} =
  kept_headers msg ++ filter (fun h => negb (is_content_header h)) hs.
Proof.
  unfold kept_headers. cbn [_headers]. rewrite filter_app, filter_filter.
  f_equal. apply filter_ext. intros h. apply andb_diag.
Qed.

(** The text [set_body] has stored is a text part for [build]. *)
Lemma text_part_is_text lib mlib text subtype :
  subtype = "plain" \/ subtype = "html" ->
  is_text_part lib (text_part lib mlib text subtype) = true.
Proof.
  intros Hsub.
  assert (Hget : get_header lib "content-type" (part_headers (text_part lib mlib text subtype))
                 = Some (header_decoded lib "content-type" (text_content_type subtype)))
    by reflexivity.
  unfold is_text_part, get_content_type. rewrite Hget.
  destruct (text_type_library _ Hsub) as [_ Hfull].
  destruct (library_header_accepted lib _ _ Hfull) as (_ & _ & ->).
  destruct Hsub as [-> | ->]; reflexivity.
Qed.

(** ** add_attachment *)

Lemma make_mixed_returns lib mlib msg :
  mixed_already lib msg = false ->
  make_mixed lib mlib msg = (Return tt, made_mixed mlib msg).
Proof.
  intros Hmixed. unfold make_mixed, _make_multipart, mixed_already in *.
  unfold bind at 1, get_state. unfold bind at 1.
  assert (Hcheck :
    (if (get_content_maintype lib (_headers msg) =? "multipart")%string
     then
       if existsb (String.eqb (get_content_subtype lib (_headers msg))) ([] ++ ["mixed"])
       then raise ValueError
              ("Cannot convert " +++ get_content_subtype lib (_headers msg) +++ " to "
               +++ "mixed")
       else ret tt
     else ret tt) msg = (Return tt, msg)).
  { destruct (get_content_maintype lib (_headers msg) =? "multipart")%string; [| reflexivity].
    simpl in Hmixed. simpl. rewrite Hmixed. reflexivity. }
  rewrite Hcheck. unfold bind at 1, put_state.
  fold (content_headers msg). fold (kept_headers msg).
  rewrite setitem_library; [reflexivity | cbn; tauto |].
  cbn [_headers]. apply raw_all_kept. reflexivity.
Qed.

(** The message an attachment is attached to. *)
Lemma msg_add_attachment_outcome lib mlib data maintype subtype filename msg :
  msg_add_attachment lib mlib data maintype subtype filename msg =
  let base := if mixed_already lib msg then msg else made_mixed mlib msg in
  match attachment_part lib mlib data maintype subtype filename with
  | Raise e => (Raise e, base)
  | Return part => attach part base
  end.
Proof.
  unfold msg_add_attachment. unfold bind at 1, get_state. unfold bind at 1.
  rewrite <- negb_andb. fold (mixed_already lib msg).
  destruct (mixed_already lib msg) eqn:Hm; cbn [negb].
  - unfold ret, bind. destruct (attachment_part _ _ _ _ _ _); reflexivity.
  - rewrite (make_mixed_returns _ _ _ Hm). unfold bind.
    destruct (attachment_part _ _ _ _ _ _); reflexivity.
Qed.

Lemma add_attachment_outcome lib mlib fenv path mime_type filename self trace :
  add_attachment lib mlib fenv path mime_type filename (self, trace) =
  let asked := trace ++ [EvIsFile path] in
  let chosen := chosen_type fenv path mime_type in
  if negb (os_path_isfile fenv trace path) then
    (Raise (Exn EmailBuildError ("Attachment not found: " +++ path)), (self, asked))
  else if negb (0 <? count_char "/" chosen) then
    (Raise (Exn ValueError "not enough values to unpack (expected 2, got 1)"), (self, asked))
  else
    match open_read_bytes fenv asked path with
    | Raise e => (Raise e, (self, asked ++ [EvReadBytes path]))
    | Return data =>
        let '(r, msg) :=
          msg_add_attachment lib mlib data (before_char "/" chosen) (after_slash chosen)
            (chosen_name path filename) (_msg self) in
        (r, (with_msg msg self, asked ++ [EvReadBytes path]))
    end.
Proof.
  unfold add_attachment. unfold bind at 1. unfold on_files at 1, zoom, ask. cbn [fst snd].
  destruct (os_path_isfile fenv trace path); cbn [negb]; [| reflexivity].
  fold (chosen_type fenv path mime_type). fold (chosen_name path filename).
  unfold bind at 1, split_mime_type.
  destruct (0 <? count_char "/" (chosen_type fenv path mime_type)); cbn [negb];
    [| reflexivity].
  unfold ret. unfold bind at 1. unfold on_files, zoom, ask. cbn [fst snd].
  destruct (open_read_bytes fenv (trace ++ [EvIsFile path]) path) as [e | data];
    [reflexivity |].
  unfold on_msg, zoom. cbn [fst snd].
  destruct (msg_add_attachment lib mlib data _ _ _ (_msg self)) as [r msg]. reflexivity.
Qed.

Lemma split_join s :
  0 < count_char "/" s -> before_char "/" s +++ "/" +++ after_slash s = s.
Proof.
  induction s as [| c s IH]; [simpl; lia |].
  cbn [count_char before_char after_slash].
  destruct (Ascii.eqb "/" c) eqn:E.
  - apply Ascii.eqb_eq in E. subst c. reflexivity.
  - intros H. rewrite Nat.add_0_l in H.
    assert (Hord : (ord c =? 47) = false).
    { apply Nat.eqb_neq. intros Hc. apply Ascii.eqb_neq in E. apply E.
      unfold ord in Hc. rewrite <- (ascii_nat_embedding c), Hc. reflexivity. }
    rewrite Hord. specialize (IH H).
    change (String c (before_char "/" s) +++ "/" +++ after_slash s)
      with (String c (before_char "/" s +++ "/" +++ after_slash s)).
    now rewrite IH.
Qed.

(** The subpart of an attachment: refused where its type or its
    Content-Disposition is, in that order, made otherwise. *)
Lemma attachment_part_cases lib mlib data maintype subtype filename :
  attachment_part lib mlib data maintype subtype filename =
  match refusal lib "content-type" (maintype +++ "/" +++ subtype) with
  | Some e => Raise e
  | None =>
      match refusal lib "content-disposition" (attachment_disposition mlib filename) with
      | Some e => Raise e
      | None => Return (attachment_of mlib data (maintype +++ "/" +++ subtype) filename)
      end
  end.
Proof.
  unfold refusal, attachment_part, attachment_of.
  fold (attachment_disposition mlib filename).
  unfold bind at 1. rewrite setitem_new by reflexivity.
  change (lower "Content-Type") with "content-type".
  destruct (1 <? length (str_splitlines (maintype +++ "/" +++ subtype))); [reflexivity |].
  destruct (header_refused lib "content-type" (maintype +++ "/" +++ subtype));
    [reflexivity |].
  cbn [new_message _headers _payload app]. unfold bind at 1.
  rewrite setitem_library; [| cbn; tauto | reflexivity]. cbn [_headers _payload app].
  unfold bind at 1.
  rewrite setitem_library; [| cbn; tauto | reflexivity]. cbn [_headers _payload app].
  unfold bind at 1.
  rewrite replace_header_outcome by discriminate.
  change (lower "Content-Disposition") with "content-disposition".
  destruct (1 <? length (str_splitlines (attachment_disposition mlib filename)));
    [reflexivity |].
  destruct (header_refused lib "content-disposition" (attachment_disposition mlib filename));
    [reflexivity |].
  rewrite setitem_library; [reflexivity | cbn; tauto | reflexivity].
Qed.

Lemma refusal_none lib name value :
  refusal lib name value = None <-> one_line value /\ header_refused lib name value = None.
Proof.
  unfold refusal. rewrite one_line_iff.
  destruct (1 <? length (str_splitlines value)); split; intros H;
    try discriminate; try tauto.
  destruct H as [H _]. discriminate.
Qed.

Lemma made_mixed_type lib mlib msg :
  get_content_type lib (_headers (made_mixed mlib msg)) = "multipart/mixed".
Proof.
  unfold get_content_type, made_mixed. cbn [_headers].
  rewrite (get_header_last lib "content-type" _ "Content-Type");
    [| apply raw_all_kept; reflexivity | reflexivity].
  change (lower "content-type") with "content-type".
  assert (Hin : In ("content-type", "multipart/mixed") library_headers) by (cbn; tauto).
  destruct (library_header_accepted lib _ _ Hin) as (_ & _ & ->). reflexivity.
Qed.

Lemma kept_headers_made_mixed mlib msg :
  kept_headers (made_mixed mlib msg) = kept_headers msg.
Proof.
  unfold made_mixed, kept_headers. cbn [_headers].
  rewrite filter_app, filter_filter. cbn [filter].
  change (negb (is_content_header ("Content-Type", "multipart/mixed"))) with false.
  cbv iota. rewrite app_nil_r. apply filter_ext. intros h. apply andb_diag.
Qed.

Lemma mixed_base_type lib mlib msg :
  get_content_type lib (_headers (mixed_base lib mlib msg)) = "multipart/mixed" \/
  (get_content_maintype lib (_headers (mixed_base lib mlib msg)) = "multipart" /\
   mixed_base lib mlib msg = msg).
Proof.
  unfold mixed_base. destruct (mixed_already lib msg) eqn:E.
  - right. unfold mixed_already in E. apply andb_prop in E as [E _].
    apply String.eqb_eq in E. auto.
  - left. apply made_mixed_type.
Qed.

Lemma mixed_base_multipart lib mlib msg :
  get_content_maintype lib (_headers (mixed_base lib mlib msg)) = "multipart".
Proof.
  destruct (mixed_base_type lib mlib msg) as [H | [H _]]; [| exact H].
  unfold get_content_maintype. now rewrite H.
Qed.

Lemma kept_headers_mixed_base lib mlib msg :
  kept_headers (mixed_base lib mlib msg) = kept_headers msg.
Proof.
  unfold mixed_base. destruct (mixed_already lib msg); [reflexivity |].
  apply kept_headers_made_mixed.
Qed.

Lemma attach_mixed_base lib mlib msg part r msg' :
  attach part (mixed_base lib mlib msg) = (r, msg') ->
  (r = Return tt /\
   msg' = {| _headers := _headers (mixed_base lib mlib msg);
             _payload := PayloadParts (earlier_parts lib mlib msg ++ [part]) |}) \/
  (r = Raise (Exn TypeError "Attach is not valid on a message with a non-multipart payload") /\
   msg' = msg /\ mixed_already lib msg = true).
Proof.
  unfold attach, mixed_base, earlier_parts.
  destruct (mixed_already lib msg) eqn:E.
  - destruct (_payload msg) eqn:P; intros H; inversion H; subst; auto.
  - unfold made_mixed. cbn [_payload _headers].
    destruct (list_truthy (content_headers msg)); intros H; inversion H; subst; auto.
Qed.

(** What a call of [add_attachment] that returns has done. *)
Lemma add_attachment_returned lib mlib fenv path mime_type filename self trace self' trace' :
  add_attachment lib mlib fenv path mime_type filename (self, trace)
    = (Return tt, (self', trace')) ->
  let chosen := chosen_type fenv path mime_type in
  let disposition := attachment_disposition mlib (chosen_name path filename) in
  exists data,
    os_path_isfile fenv trace path = true /\
    0 < count_char "/" chosen /\
    open_read_bytes fenv (trace ++ [EvIsFile path]) path = Return data /\
    (one_line chosen /\ header_refused lib "content-type" chosen = None) /\
    (one_line disposition /\ header_refused lib "content-disposition" disposition = None) /\
    trace' = trace ++ [EvIsFile path; EvReadBytes path] /\
    self' =
      with_msg
        {| _headers := _headers (mixed_base lib mlib (_msg self));
           _payload :=
             PayloadParts
               (earlier_parts lib mlib (_msg self)
                ++ [attachment_of mlib data chosen (chosen_name path filename)]) |}
        self.
Proof.
  rewrite add_attachment_outcome. cbv zeta.
  destruct (os_path_isfile fenv trace path); cbn [negb]; [| discriminate].
  destruct (0 <? count_char "/" (chosen_type fenv path mime_type)) eqn:Hslash;
    cbn [negb]; [| discriminate].
  apply Nat.ltb_lt in Hslash.
  destruct (open_read_bytes fenv (trace ++ [EvIsFile path]) path) as [e | data];
    [discriminate |].
  rewrite msg_add_attachment_outcome. cbv zeta. fold (mixed_base lib mlib (_msg self)).
  rewrite attachment_part_cases. rewrite (split_join _ Hslash).
  destruct (refusal lib "content-type" (chosen_type fenv path mime_type)) eqn:H1;
    [discriminate |].
  destruct (refusal lib "content-disposition"
              (attachment_disposition mlib (chosen_name path filename))) eqn:H2;
    [discriminate |].
  apply refusal_none in H1. apply refusal_none in H2.
  destruct (attach _ (mixed_base lib mlib (_msg self))) as [r msg'] eqn:Ha.
  intros H. inversion H; subst. exists data.
  apply attach_mixed_base in Ha as [[_ ->] | [Hr _]]; [| discriminate].
  repeat split; try tauto.
  now rewrite <- app_assoc.
Qed.

(** X1.  [add_attachment] on a path that is not a file raises
    EmailBuildError with the text Attachment not found and the path,
    leaves the builder as it was and never opens the file: the only
    request is the test [os.path.isfile]. *)
Theorem add_attachment_missing_file lib mlib fenv path mime_type filename self trace :
  os_path_isfile fenv trace path = false ->
  add_attachment lib mlib fenv path mime_type filename (self, trace) =
  (Raise (Exn EmailBuildError ("Attachment not found: " +++ path)),
   (self, trace ++ [EvIsFile path])).
Proof.
  intros H. rewrite add_attachment_outcome. cbv zeta. now rewrite H.
Qed.

(** A path that is not a file, on the builder of the tests. *)
Lemma missing_report_is_not_attached :
  os_path_isfile (sample_files false None (Return "data")) [] "/tmp/missing.pdf" = false /\
  add_attachment sample_lib sample_mime (sample_files false None (Return "data"))
    "/tmp/missing.pdf" None None (test_builder "Subject", []) =
  (Raise (Exn EmailBuildError "Attachment not found: /tmp/missing.pdf"),
   (test_builder "Subject", [EvIsFile "/tmp/missing.pdf"])).
Proof.
  split; [reflexivity |].
  exact (add_attachment_missing_file sample_lib sample_mime
           (sample_files false None (Return "data"))
           "/tmp/missing.pdf" None None (test_builder "Subject") [] eq_refl).
Defined.

(** X2.  The other failures of [add_attachment] before the message is
    touched are not build errors.  For a file that exists: a type without
    a slash raises the ValueError of the unpacking, before the file is
    read; a file that cannot be read raises the exception of the read as
    it is.  The builder is unchanged in both cases. *)
Theorem add_attachment_errors_not_wrapped lib mlib fenv path mime_type filename self trace :
  os_path_isfile fenv trace path = true ->
  let asked := trace ++ [EvIsFile path] in
  (count_char "/" (chosen_type fenv path mime_type) = 0 ->
   add_attachment lib mlib fenv path mime_type filename (self, trace) =
   (Raise (Exn ValueError "not enough values to unpack (expected 2, got 1)"), (self, asked)))
  /\
  (forall e,
   0 < count_char "/" (chosen_type fenv path mime_type) ->
   open_read_bytes fenv asked path = Raise e ->
   add_attachment lib mlib fenv path mime_type filename (self, trace) =
   (Raise e, (self, asked ++ [EvReadBytes path]))).
Proof.
  intros Hfile asked. split.
  - intros H0. rewrite add_attachment_outcome. cbv zeta. rewrite Hfile, H0. reflexivity.
  - intros e Hslash Hread. rewrite add_attachment_outcome. cbv zeta.
    apply Nat.ltb_lt in Hslash. rewrite Hfile, Hslash. cbn [negb].
    fold asked. now rewrite Hread.
Qed.

(** A type without a slash, and a file that may not be read. *)
Lemma add_attachment_errors_example :
  let unreadable := permission_denied "/etc/shadow" in
  let fenv := sample_files true None (Raise unreadable) in
  add_attachment sample_lib sample_mime fenv "/etc/shadow" (Some "pdf") None
    (test_builder "Subject", []) =
  (Raise (Exn ValueError "not enough values to unpack (expected 2, got 1)"),
   (test_builder "Subject", [EvIsFile "/etc/shadow"]))
  /\
  add_attachment sample_lib sample_mime fenv "/etc/shadow" None None
    (test_builder "Subject", []) =
  (Raise unreadable,
   (test_builder "Subject", [EvIsFile "/etc/shadow"; EvReadBytes "/etc/shadow"])).
Proof.
  cbv zeta. split.
  - exact (proj1 (add_attachment_errors_not_wrapped sample_lib sample_mime
                    (sample_files true None (Raise (permission_denied "/etc/shadow")))
                    "/etc/shadow" (Some "pdf") None (test_builder "Subject") [] eq_refl)
             eq_refl).
  - refine (proj2 (add_attachment_errors_not_wrapped sample_lib sample_mime
                     (sample_files true None (Raise (permission_denied "/etc/shadow")))
                     "/etc/shadow" None None (test_builder "Subject") [] eq_refl)
              (permission_denied "/etc/shadow") _ eq_refl).
    vm_compute. lia.
Defined.

(** X3.  A call of [add_attachment] that returns has tested and read the
    file, in that order, and has left a multipart/mixed message whose last
    subpart is the attachment: the type chosen, base64, the
    Content-Disposition attachment with the file name, and the encoded
    bytes of the file.  The subparts before it are the ones the message
    had; the headers that are not content headers, the recipients and the
    display name are as they were. *)
Theorem add_attachment_appends_part lib mlib fenv path mime_type filename
  self trace self' trace' :
  add_attachment lib mlib fenv path mime_type filename (self, trace)
    = (Return tt, (self', trace')) ->
  exists data,
    open_read_bytes fenv (trace ++ [EvIsFile path]) path = Return data /\
    trace' = trace ++ [EvIsFile path; EvReadBytes path] /\
    _payload (_msg self') =
      PayloadParts
        (earlier_parts lib mlib (_msg self)
         ++ [attachment_of mlib data (chosen_type fenv path mime_type)
               (chosen_name path filename)]) /\
    get_content_maintype lib (_headers (_msg self')) = "multipart" /\
    kept_headers (_msg self') = kept_headers (_msg self) /\
    _to self' = _to self /\ _cc self' = _cc self /\ _bcc self' = _bcc self /\
    _from_full_name self' = _from_full_name self.
Proof.
  intros H. apply add_attachment_returned in H. cbv zeta in H.
  destruct H as (data & _ & _ & Hread & _ & _ & -> & ->).
  exists data. cbn [_msg with_msg _payload _headers _to _cc _bcc _from_full_name].
  repeat split; try assumption.
  - apply mixed_base_multipart.
  - unfold kept_headers at 1. cbn [_headers].
    apply (kept_headers_mixed_base lib mlib (_msg self)).
Qed.

(** The report attached to the builder of the tests. *)
Lemma add_attachment_of_the_report :
  let self := test_builder "Subject" in
  add_attachment sample_lib sample_mime report_files "/tmp/report.pdf" None None (self, []) =
    (Return tt, (attached self, [EvIsFile "/tmp/report.pdf"; EvReadBytes "/tmp/report.pdf"]))
  /\
  exists data,
    open_read_bytes report_files ([] ++ [EvIsFile "/tmp/report.pdf"]) "/tmp/report.pdf"
      = Return data /\
    [EvIsFile "/tmp/report.pdf"; EvReadBytes "/tmp/report.pdf"]
      = [] ++ [EvIsFile "/tmp/report.pdf"; EvReadBytes "/tmp/report.pdf"] /\
    _payload (_msg (attached self)) =
      PayloadParts
        (earlier_parts sample_lib sample_mime (_msg self)
         ++ [attachment_of sample_mime data
               (chosen_type report_files "/tmp/report.pdf" None)
               (chosen_name "/tmp/report.pdf" None)]) /\
    get_content_maintype sample_lib (_headers (_msg (attached self))) = "multipart" /\
    kept_headers (_msg (attached self)) = kept_headers (_msg self) /\
    _to (attached self) = _to self /\ _cc (attached self) = _cc self /\
    _bcc (attached self) = _bcc self /\
    _from_full_name (attached self) = _from_full_name self.
Proof.
  cbv zeta. split; [reflexivity |].
  exact (add_attachment_appends_part sample_lib sample_mime report_files "/tmp/report.pdf"
           None None (test_builder "Subject") [] (attached (test_builder "Subject"))
           [EvIsFile "/tmp/report.pdf"; EvReadBytes "/tmp/report.pdf"] eq_refl).
Defined.

Lemma set_content_on_multipart lib text subtype msg :
  get_content_maintype lib (_headers msg) = "multipart" ->
  set_content lib text subtype msg =
    (Raise (Exn TypeError "set_content not valid on multipart"), msg).
Proof.
  intros H. unfold set_content. unfold bind at 1, get_state. rewrite H. reflexivity.
Qed.

Lemma set_body_on_multipart lib text subtype self :
  get_content_maintype lib (_headers (_msg self)) = "multipart" ->
  set_body lib text subtype self =
    (Raise (Exn TypeError "set_content not valid on multipart"), self).
Proof.
  intros H. unfold set_body, on_msg, zoom.
  rewrite (set_content_on_multipart _ _ _ _ H). now rewrite with_msg_same.
Qed.

(** X4.  A file name of more than one line is refused with a ValueError
    only after the message has been made multipart/mixed: the file has
    been read, no subpart is added, and the builder is left with the
    converted message, on which [set_body] is refused from then on.  The
    same holds where the parser of the Content-Type header fails on the
    type first: the exception is then that of the parser. *)
Theorem add_attachment_refused_name_not_atomic lib mlib fenv path mime_type filename
  self trace data :
  os_path_isfile fenv trace path = true ->
  0 < count_char "/" (chosen_type fenv path mime_type) ->
  one_line (chosen_type fenv path mime_type) ->
  open_read_bytes fenv (trace ++ [EvIsFile path]) path = Return data ->
  ~ one_line (attachment_disposition mlib (chosen_name path filename)) ->
  let converted := with_msg (mixed_base lib mlib (_msg self)) self in
  let raised :=
    match header_refused lib "content-type" (chosen_type fenv path mime_type) with
    | Some e => e
    | None => Exn ValueError
                "Header values may not contain linefeed or carriage return characters"
    end in
  add_attachment lib mlib fenv path mime_type filename (self, trace) =
    (Raise raised, (converted, trace ++ [EvIsFile path; EvReadBytes path])) /\
  (mixed_already lib (_msg self) = false ->
   _msg converted = made_mixed mlib (_msg self) /\
   get_content_type lib (_headers (_msg converted)) = "multipart/mixed") /\
  forall text subtype,
    set_body lib text subtype converted =
      (Raise (Exn TypeError "set_content not valid on multipart"), converted).
Proof.
  intros Hfile Hslash Htype Hread Hname converted raised. split; [| split].
  - rewrite add_attachment_outcome. cbv zeta.
    pose proof Hslash as Hs. apply Nat.ltb_lt in Hs. rewrite Hfile, Hs. cbn [negb].
    rewrite Hread, msg_add_attachment_outcome. cbv zeta.
    rewrite attachment_part_cases. rewrite (split_join _ Hslash).
    unfold refusal. apply one_line_iff in Htype. rewrite Htype.
    unfold raised, converted, mixed_base.
    destruct (header_refused lib "content-type" (chosen_type fenv path mime_type)).
    + now rewrite <- app_assoc.
    + destruct (1 <? length (str_splitlines
                               (attachment_disposition mlib (chosen_name path filename))))
        eqn:E.
      * now rewrite <- app_assoc.
      * apply one_line_iff in E. contradiction.
  - intros Hm. unfold converted, mixed_base. rewrite Hm. cbn [_msg with_msg].
    split; [reflexivity | apply made_mixed_type].
  - intros text subtype. apply set_body_on_multipart.
    unfold converted. cbn [_msg with_msg]. apply mixed_base_multipart.
Qed.

(** A file name of two lines, after a body has been set: the body has
    become the one subpart. *)
Lemma add_attachment_refused_name_example :
  let self := test_builder "Subject" in
  let name := "a" +++ LF +++ "b.pdf" in
  let converted := with_msg (mixed_base sample_lib sample_mime (_msg self)) self in
  add_attachment sample_lib sample_mime report_files "/tmp/report.pdf" None (Some name)
    (self, []) =
    (Raise (Exn ValueError
              "Header values may not contain linefeed or carriage return characters"),
     (converted, [EvIsFile "/tmp/report.pdf"; EvReadBytes "/tmp/report.pdf"])) /\
  is_multipart (_msg self) = false /\
  _payload (_msg converted) = PayloadParts [text_part sample_lib sample_mime "Body" "plain"] /\
  set_body sample_lib "Again" "plain" converted =
    (Raise (Exn TypeError "set_content not valid on multipart"), converted).
Proof.
  cbv zeta.
  assert (Hname : ~ one_line (attachment_disposition sample_mime
                                (chosen_name "/tmp/report.pdf" (Some ("a" +++ LF +++ "b.pdf"))))).
  { unfold one_line. vm_compute. lia. }
  assert (Htype : one_line (chosen_type report_files "/tmp/report.pdf" None)).
  { unfold one_line. vm_compute. lia. }
  assert (Hslash : 0 < count_char "/" (chosen_type report_files "/tmp/report.pdf" None)).
  { vm_compute. lia. }
  destruct (add_attachment_refused_name_not_atomic sample_lib sample_mime report_files
              "/tmp/report.pdf" None (Some ("a" +++ LF +++ "b.pdf")) (test_builder "Subject")
              [] "%PDF-1.4" eq_refl Hslash Htype eq_refl Hname) as (Hraise & _ & Hbody).
  split; [exact Hraise |]. split; [reflexivity |]. split; [reflexivity |].
  apply Hbody.
Defined.

(** X5.  Once [add_attachment] has returned, [set_body] raises the
    TypeError of [set_content] on a multipart message and changes
    nothing: the body has to be set before the first attachment. *)
Theorem set_body_after_attachment_refused lib mlib fenv path mime_type filename
  self trace self' trace' text subtype :
  add_attachment lib mlib fenv path mime_type filename (self, trace)
    = (Return tt, (self', trace')) ->
  set_body lib text subtype self' =
    (Raise (Exn TypeError "set_content not valid on multipart"), self').
Proof.
  intros H. apply add_attachment_returned in H. cbv zeta in H.
  destruct H as (data & _ & _ & _ & _ & _ & _ & ->).
  apply set_body_on_multipart. cbn [_msg with_msg _headers].
  apply mixed_base_multipart.
Qed.

(** The report attached to a builder without a body, then a body. *)
Lemma set_body_after_the_report_refused :
  let self := snd (set_subject sample_lib "Subject" new_builder) in
  add_attachment sample_lib sample_mime report_files "/tmp/report.pdf" None None (self, []) =
    (Return tt, (attached self, [EvIsFile "/tmp/report.pdf"; EvReadBytes "/tmp/report.pdf"]))
  /\
  set_body sample_lib "Body" "plain" (attached self) =
    (Raise (Exn TypeError "set_content not valid on multipart"), attached self).
Proof.
  cbv zeta. split; [reflexivity |].
  exact (set_body_after_attachment_refused sample_lib sample_mime report_files
           "/tmp/report.pdf" None None (snd (set_subject sample_lib "Subject" new_builder)) []
           (attached (snd (set_subject sample_lib "Subject" new_builder)))
           [EvIsFile "/tmp/report.pdf"; EvReadBytes "/tmp/report.pdf"] "Body" "plain" eq_refl).
Defined.

(** ** set_body, and set_body with add_attachment *)

(** X6.  [set_body] with the subtype plain or html on a message that is
    not multipart replaces the content: whatever content headers and body
    there were, the message then has one Content-Type header, the text
    with its lines ended by a line feed as its body, and the headers that
    are not content headers where they were.  The body check of [build]
    then passes, also for the empty text, and [set_body] may be called
    again. *)
Theorem set_body_replaces_content lib text subtype self :
  subtype = "plain" \/ subtype = "html" ->
  get_content_maintype lib (_headers (_msg self)) <> "multipart" ->
  one_line (text_cte lib text) ->
  exists self',
    set_body lib text subtype self = (Return tt, self') /\
    get_payload_decode (_msg self') = Some (join LF (bytes_splitlines text) +++ LF) /\
    raw_all "Content-Type" (_headers (_msg self')) = [text_content_type subtype] /\
    get_all lib "Content-Type" (_headers (_msg self')) = [text_content_type subtype] /\
    (exists added, kept_headers (_msg self') = kept_headers (_msg self) ++ added /\
                   (added = [] \/ added = [("MIME-Version", "1.0")])) /\
    ~ no_body lib self' /\
    get_content_maintype lib (_headers (_msg self')) <> "multipart" /\
    _to self' = _to self /\ _cc self' = _cc self /\ _bcc self' = _bcc self.
Proof.
  intros Hsub Hmulti Hcte. eexists. split; [now apply set_body_returns |].
  cbn [_msg with_msg _to _cc _bcc].
  assert (Hraw : raw_all "Content-Type" (_headers (with_text lib text subtype (_msg self)))
                 = [text_content_type subtype]).
  { unfold with_text. cbn [_headers]. rewrite !raw_all_app, raw_all_kept by reflexivity.
    destruct (raw_header "MIME-Version" (kept_headers (_msg self))); reflexivity. }
  split; [reflexivity |]. split; [exact Hraw |]. split.
  { unfold get_all. rewrite Hraw. cbn [map].
    destruct (text_type_library _ Hsub) as [_ Hfull].
    change (lower "Content-Type") with "content-type".
    now destruct (library_header_accepted lib _ _ Hfull) as (_ & _ & ->). }
  split.
  { unfold with_text. rewrite kept_headers_idem.
    destruct (raw_header "MIME-Version" (kept_headers (_msg self))).
    - exists []. split; [reflexivity | now left].
    - exists [("MIME-Version", "1.0")]. split; [reflexivity | now right]. }
  split.
  { unfold no_body. cbn [_msg with_msg with_text _payload].
    destruct (join LF (bytes_splitlines text)); discriminate. }
  split; [| repeat split].
  unfold get_content_maintype. rewrite (with_text_type _ _ _ _ Hsub).
  destruct Hsub as [-> | ->]; discriminate.
Qed.

(** The empty text as the second body of the builder of the tests: a body
    of one line feed. *)
Lemma set_body_of_the_empty_text :
  exists self',
    set_body sample_lib "" "plain" (test_builder "Subject") = (Return tt, self') /\
    get_payload_decode (_msg self') = Some LF /\
    raw_all "Content-Type" (_headers (_msg self')) = [text_content_type "plain"] /\
    ~ no_body sample_lib self'.
Proof.
  assert (Hcte : one_line (text_cte sample_lib "")) by (unfold one_line; vm_compute; lia).
  assert (Hmulti : get_content_maintype sample_lib (_headers (_msg (test_builder "Subject")))
                   <> "multipart") by (vm_compute; discriminate).
  destruct (set_body_replaces_content sample_lib "" "plain" (test_builder "Subject")
              (or_introl eq_refl) Hmulti Hcte)
    as (self' & Hset & Hpayload & Htype & _ & _ & Hbody & _).
  exists self'. repeat split; assumption.
Defined.

(** X7.  A body set with [set_body] and then one attachment, the order of
    the unit test: the message has exactly two subparts, the text first
    and the attachment second, and the body check of [build] passes. *)
Theorem body_then_attachment_has_both lib mlib fenv path mime_type filename
  self trace text subtype self' trace' :
  subtype = "plain" \/ subtype = "html" ->
  get_content_maintype lib (_headers (_msg self)) <> "multipart" ->
  one_line (text_cte lib text) ->
  add_attachment lib mlib fenv path mime_type filename
    (snd (set_body lib text subtype self), trace) = (Return tt, (self', trace')) ->
  exists data,
    open_read_bytes fenv (trace ++ [EvIsFile path]) path = Return data /\
    _payload (_msg self') =
      PayloadParts
        [text_part lib mlib text subtype;
         attachment_of mlib data (chosen_type fenv path mime_type)
           (chosen_name path filename)] /\
    is_text_part lib (text_part lib mlib text subtype) = true /\
    ~ no_body lib self'.
Proof.
  intros Hsub Hmulti Hcte. rewrite (set_body_returns _ _ _ _ Hsub Hmulti). cbn [snd].
  intros H. apply add_attachment_returned in H. cbv zeta in H.
  destruct H as (data & _ & _ & Hread & _ & _ & _ & ->).
  exists data. split; [exact Hread |].
  pose proof (text_part_is_text lib mlib text subtype Hsub) as Htext.
  cbn [_msg with_msg _payload]. unfold earlier_parts.
  rewrite (with_text_not_mixed _ _ _ _ Hsub), with_text_content_headers.
  cbn [list_truthy app]. split; [reflexivity |]. split; [exact Htext |].
  unfold no_body. cbn [_msg with_msg _payload]. intros Hno.
  specialize (Hno _ (or_introl eq_refl)).
  pose proof (proj2 (is_text_part_false lib (text_part lib mlib text subtype)) Hno) as Hf.
  congruence.
Qed.

(** A second body on the builder of the tests, then the report. *)
Lemma body_then_report_has_both :
  let self := test_builder "Subject" in
  exists data,
    open_read_bytes report_files ([] ++ [EvIsFile "/tmp/report.pdf"]) "/tmp/report.pdf"
      = Return data /\
    _payload (_msg (attached (snd (set_body sample_lib "Body" "plain" self)))) =
      PayloadParts
        [text_part sample_lib sample_mime "Body" "plain";
         attachment_of sample_mime data (chosen_type report_files "/tmp/report.pdf" None)
           (chosen_name "/tmp/report.pdf" None)] /\
    is_text_part sample_lib (text_part sample_lib sample_mime "Body" "plain") = true /\
    ~ no_body sample_lib (attached (snd (set_body sample_lib "Body" "plain" self))).
Proof.
  cbv zeta.
  assert (Hcte : one_line (text_cte sample_lib "Body")) by (unfold one_line; vm_compute; lia).
  assert (Hmulti : get_content_maintype sample_lib (_headers (_msg (test_builder "Subject")))
                   <> "multipart") by (vm_compute; discriminate).
  exact (body_then_attachment_has_both sample_lib sample_mime report_files "/tmp/report.pdf"
           None None (test_builder "Subject") [] "Body" "plain"
           (attached (snd (set_body sample_lib "Body" "plain" (test_builder "Subject"))))
           [EvIsFile "/tmp/report.pdf"; EvReadBytes "/tmp/report.pdf"]
           (or_introl eq_refl) Hmulti Hcte eq_refl).
Defined.



(** ** send and build together *)






(** X11.  When [build] returns, each text it has made a header from (the
    From text, the joined To list and the joined Cc list) has at most one
    item under [str.splitlines] and was taken by the parser of its
    header.  This does not keep every line break out: a text that ends in
    one has one item and is taken.  A text with more text after a line
    break has two, and makes [build] raise the ValueError of the header
    instead of adding a header line of its own. *)
Theorem build_never_adds_a_broken_header lib self msg self' :
  build lib self = (Return msg, self') ->
  Forall (fun h => length (str_splitlines (snd h)) <= 1 /\
                   header_refused lib (lower (fst h)) (snd h) = None)
    (built_headers lib self) /\
  _headers msg = _headers (_msg self) ++ built_headers lib self.
Proof.
  intros H. split.
  - exact (build_success_accepted _ _ _ _ H).
  - destruct (build_success _ _ _ _ H) as (-> & _). reflexivity.
Qed.

(** The builder with To, Cc and Bcc addresses; the same with an address
    that ends in a line feed, which is taken; and with an address that
    brings a header line of its own, which is not. *)
Lemma headers_of_the_test_have_one_line :
  let self := copied_builder in
  let ended := snd (add_to ("a@x" +++ LF) self) in
  build sample_lib self = (Return (message_of self), built_of self) /\
  Forall (fun h => length (str_splitlines (snd h)) <= 1 /\
                   header_refused sample_lib (lower (fst h)) (snd h) = None)
    (built_headers sample_lib self) /\
  build sample_lib ended = (Return (message_of ended), built_of ended) /\
  raw_all "To" (_headers (message_of ended))
    = ["dest@example.com, to@x, to2@x, a@x" +++ LF] /\
  get_all sample_lib "To" (_headers (message_of ended))
    = ["dest@example.com, to@x, to2@x, a@x"] /\
  build sample_lib (snd (add_to ("a@x" +++ LF +++ "Bcc: b@x") self)) =
    (Raise (Exn ValueError
              "Header values may not contain linefeed or carriage return characters"),
     with_msg
       {| _headers := _headers (_msg self)
                      ++ [("From", "N150 Home Server Monitoring <u0992244071@gmail.com>")];
          _payload := _payload (_msg self) |}
       (snd (add_to ("a@x" +++ LF +++ "Bcc: b@x") self))).
Proof.
  cbv zeta. split; [reflexivity |]. split.
  - exact (proj1 (build_never_adds_a_broken_header sample_lib copied_builder
                    (message_of copied_builder) (built_of copied_builder) eq_refl)).
  - repeat split.
Defined.

(** ** Paths: the directory of the log file, the name of an attachment *)

Lemma ord_slash c : (ord c =? 47) = Ascii.eqb "/" c.
Proof.
  destruct (Ascii.eqb "/" c) eqn:E.
  - apply Ascii.eqb_eq in E. subst c. reflexivity.
  - apply Nat.eqb_neq. intros Hc. apply Ascii.eqb_neq in E. apply E.
    unfold ord in Hc. rewrite <- (ascii_nat_embedding c), Hc. reflexivity.
Qed.

Lemma append_assoc a b c : (a +++ b) +++ c = a +++ (b +++ c).
Proof.
  induction a as [| x a IH]; cbn [String.append]; [reflexivity | now rewrite IH].
Qed.

Lemma append_empty_r a : a +++ "" = a.
Proof.
  induction a as [| x a IH]; cbn [String.append]; [reflexivity | now rewrite IH].
Qed.

Lemma rev_string_acc s : forall acc, rev_string acc s = rev_string "" s +++ acc.
Proof.
  induction s as [| c s IH]; intros acc; cbn [rev_string]; [reflexivity |].
  rewrite (IH (String c acc)), (IH (String c "")).
  rewrite append_assoc. reflexivity.
Qed.

Lemma rev_string_app a b :
  rev_string "" (a +++ b) = rev_string "" b +++ rev_string "" a.
Proof.
  induction a as [| c a IH]; cbn [String.append rev_string].
  - now rewrite append_empty_r.
  - rewrite (rev_string_acc (a +++ b)), IH, (rev_string_acc a (String c "")).
    now rewrite append_assoc.
Qed.

Lemma rev_string_involutive s : rev_string "" (rev_string "" s) = s.
Proof.
  induction s as [| c s IH]; [reflexivity |].
  cbn [rev_string]. rewrite (rev_string_acc s), rev_string_app, IH. reflexivity.
Qed.

Lemma count_char_app c a b : count_char c (a +++ b) = count_char c a + count_char c b.
Proof.
  induction a as [| d a IH]; cbn [String.append count_char]; [reflexivity |].
  rewrite IH. lia.
Qed.

Lemma count_char_rev c s : count_char c (rev_string "" s) = count_char c s.
Proof.
  induction s as [| d s IH]; [reflexivity |].
  cbn [rev_string]. rewrite rev_string_acc, count_char_app, IH. cbn [count_char]. lia.
Qed.

Lemma until_slash_app a b :
  count_char "/" a = 0 -> until_slash (a +++ String "/" b) = a.
Proof.
  induction a as [| c a IH]; cbn [String.append until_slash count_char]; [reflexivity |].
  rewrite ord_slash. destruct (Ascii.eqb "/" c); [discriminate |].
  intros H. now rewrite IH.
Qed.

Lemma until_slash_none a : count_char "/" a = 0 -> until_slash a = a.
Proof.
  induction a as [| c a IH]; cbn [until_slash count_char]; [reflexivity |].
  rewrite ord_slash. destruct (Ascii.eqb "/" c); [discriminate |].
  intros H. now rewrite IH.
Qed.

Lemma from_last_slash_app a b :
  count_char "/" a = 0 -> from_last_slash (a +++ String "/" b) = String "/" b.
Proof.
  induction a as [| c a IH]; cbn [String.append from_last_slash count_char]; [reflexivity |].
  rewrite ord_slash. destruct (Ascii.eqb "/" c); [discriminate |].
  intros H. now rewrite IH.
Qed.

Lemma from_last_slash_none a : count_char "/" a = 0 -> from_last_slash a = "".
Proof.
  induction a as [| c a IH]; cbn [from_last_slash count_char]; [reflexivity |].
  rewrite ord_slash. destruct (Ascii.eqb "/" c); [discriminate |].
  intros H. now rewrite IH.
Qed.

(** The directory and the last component of [dir/name], where [dir] does
    not end in a slash and [name] has none. *)
Lemma dirname_of_joined d c name :
  c <> "/"%char -> count_char "/" name = 0 ->
  dirname ((d +++ String c "") +++ "/" +++ name) = d +++ String c "".
Proof.
  intros Hc Hname. unfold dirname.
  rewrite rev_string_app.
  change ("/" +++ name) with (String "/" name). cbn [rev_string].
  rewrite (rev_string_acc name), append_assoc. cbn [String.append].
  rewrite from_last_slash_app by now rewrite count_char_rev.
  rewrite rev_string_app. cbn [rev_string String.append strip_slashes].
  rewrite !ord_slash. apply Ascii.eqb_neq in Hc. rewrite Ascii.eqb_sym in Hc.
  rewrite Ascii.eqb_refl, Hc. cbn [str_truthy rev_string].
  rewrite (rev_string_acc (rev_string "" d)), rev_string_involutive. reflexivity.
Qed.

Lemma dirname_of_name name : count_char "/" name = 0 -> dirname name = "".
Proof.
  intros H. unfold dirname.
  rewrite from_last_slash_none by now rewrite count_char_rev. reflexivity.
Qed.

Lemma basename_of_joined dir name :
  count_char "/" name = 0 -> basename (dir +++ "/" +++ name) = name.
Proof.
  intros H. unfold basename. rewrite rev_string_app.
  change ("/" +++ name) with (String "/" name). cbn [rev_string].
  rewrite (rev_string_acc name), append_assoc. cbn [String.append].
  rewrite until_slash_app by now rewrite count_char_rev.
  apply rev_string_involutive.
Qed.

Lemma basename_of_name name : count_char "/" name = 0 -> basename name = name.
Proof.
  intros H. unfold basename.
  rewrite until_slash_none by now rewrite count_char_rev.
  apply rev_string_involutive.
Qed.

Lemma after_log_trace built result logged :
  snd (snd (after_log built result logged)) = snd logged.
Proof. destruct logged as [[e | u] t]; reflexivity. Qed.

Lemma send_first_log_request lib env self timeout builder trace msg built raw_bytes path :
  build lib builder = (Return msg, built) ->
  as_bytes lib msg = Return raw_bytes ->
  log_file self = Some path -> path <> "" ->
  exists rest,
    snd (snd (send lib env self timeout (builder, trace))) =
      trace
      ++ [EvRun (_build_cmd self (recipients built)) raw_bytes timeout;
          EvMakedirs (dirname path)]
      ++ rest.
Proof.
  intros Hb Hs Hlog Hpath.
  pose proof (send_by_result lib env self timeout builder trace msg built raw_bytes Hb Hs)
    as H.
  cbv zeta in H.
  destruct (send_result lib _) as [[success error] result].
  rewrite H, after_log_trace, (write_log_enabled lib env _ _ _ _ _ _ path Hlog Hpath).
  cbv zeta. destruct (os_makedirs env _ (dirname path)).
  - exists []. cbn [snd]. now rewrite <- app_assoc.
  - eexists [_]. cbn [snd]. rewrite <- !app_assoc. reflexivity.
Qed.

(** X12.  For a message that builds and serialises, the directory [send]
    asks [os.makedirs] for, right after the process has run, is the path
    of the log file up to its last slash: [dir] for a log file
    [dir/name], and the empty path for a log file given by a bare name.
    When [os.makedirs] raises on the empty path, [send] raises that
    exception, whatever the process has answered, and appends nothing. *)
Theorem send_log_directory lib env self timeout builder trace msg built raw_bytes :
  build lib builder = (Return msg, built) ->
  as_bytes lib msg = Return raw_bytes ->
  let ran := trace ++ [EvRun (_build_cmd self (recipients built)) raw_bytes timeout] in
  (forall d c name,
     c <> "/"%char -> count_char "/" name = 0 ->
     log_file self = Some ((d +++ String c "") +++ "/" +++ name) ->
     exists rest,
       snd (snd (send lib env self timeout (builder, trace))) =
         ran ++ [EvMakedirs (d +++ String c "")] ++ rest) /\
  (forall name,
     name <> "" -> count_char "/" name = 0 ->
     log_file self = Some name ->
     (exists rest,
        snd (snd (send lib env self timeout (builder, trace))) =
          ran ++ [EvMakedirs ""] ++ rest) /\
     forall e,
       os_makedirs env ran "" = Raise e ->
       send lib env self timeout (builder, trace) = (Raise e, (built, ran ++ [EvMakedirs ""]))).
Proof.
  intros Hb Hs ran. split.
  - intros d c name Hc Hname Hlog.
    assert (Hpath : (d +++ String c "") +++ "/" +++ name <> "").
    { destruct d; discriminate. }
    destruct (send_first_log_request lib env self timeout builder trace msg built raw_bytes _
                Hb Hs Hlog Hpath) as (rest & H).
    exists rest. rewrite H, (dirname_of_joined d c name Hc Hname).
    unfold ran. now rewrite <- app_assoc.
  - intros name Hne Hname Hlog. split.
    + destruct (send_first_log_request lib env self timeout builder trace msg built raw_bytes
                  _ Hb Hs Hlog Hne) as (rest & H).
      exists rest. rewrite H, (dirname_of_name name Hname).
      unfold ran. now rewrite <- app_assoc.
    + intros e He.
      pose proof (send_by_result lib env self timeout builder trace msg built raw_bytes
                    Hb Hs) as H.
      cbv zeta in H. fold ran in H.
      destruct (send_result lib _) as [[success error] result].
      rewrite H, (write_log_enabled lib env _ _ _ _ _ _ name Hlog Hne).
      cbv zeta. rewrite (dirname_of_name name Hname), He. reflexivity.
Qed.

(** The log file of Example.py, and a log file given as mail.log. *)
Lemma send_log_directory_of_the_example :
  let env := process_env (exited 0 "") (Raise no_such_directory) (Return tt) in
  let builder := test_builder "Test" in
  let ran := [EvRun ["/usr/bin/msmtp"; "-a"; "gmail"; "dest@example.com"]
                (wire (message_of builder)) 60] in
  (exists rest,
     snd (snd (send sample_lib env logging_client 60 (builder, []))) =
       ran ++ [EvMakedirs "/var/log"] ++ rest) /\
  send sample_lib env {| msmtp_path := "/usr/bin/msmtp"; log_file := Some "mail.log" |} 60
    (builder, []) =
    (Raise no_such_directory, (built_of builder, ran ++ [EvMakedirs ""])).
Proof.
  cbv zeta. split.
  - refine (proj1 (send_log_directory sample_lib
                     (process_env (exited 0 "") (Raise no_such_directory) (Return tt))
                     logging_client 60 (test_builder "Test") []
                     (message_of (test_builder "Test")) (built_of (test_builder "Test"))
                     (wire (message_of (test_builder "Test")))
                     eq_refl eq_refl)
              "/var/lo" "g"%char "msmtp_mail.log" _ eq_refl eq_refl).
    discriminate.
  - refine (proj2 (proj2 (send_log_directory sample_lib
                            (process_env (exited 0 "") (Raise no_such_directory) (Return tt))
                            {| msmtp_path := "/usr/bin/msmtp"; log_file := Some "mail.log" |}
                            60 (test_builder "Test") []
                            (message_of (test_builder "Test")) (built_of (test_builder "Test"))
                            (wire (message_of (test_builder "Test")))
                            eq_refl eq_refl)
                     "mail.log" _ eq_refl eq_refl) _ eq_refl).
    discriminate.
Defined.

(** X13.  Without a file name of its own, an attachment is named by the
    last component of its path: for a path [dir/name], where [name] is
    ASCII text without a slash, a quote or a backslash, the
    Content-Disposition header of the subpart added is made from the text
    attachment with the file name [name] in quotes.  The value read from
    that header is what the parser of the library makes of the text: the
    text itself where the parser keeps it. *)
Theorem attachment_named_by_last_component lib mlib fenv dir name mime_type
  self trace self' trace' :
  name <> "" -> count_char "/" name = 0 ->
  is_ascii name = true -> nothing_to_escape name = true ->
  add_attachment lib mlib fenv (dir +++ "/" +++ name) mime_type None (self, trace)
    = (Return tt, (self', trace')) ->
  let text := "attachment; filename=" +++ dquote +++ name +++ dquote in
  exists parts part,
    _payload (_msg self') = PayloadParts (parts ++ [part]) /\
    raw_all "Content-Disposition" (part_headers part) = [text] /\
    get_header lib "Content-Disposition" (part_headers part) =
      Some (header_decoded lib "content-disposition" text) /\
    (header_decoded lib "content-disposition" text = text ->
     get_header lib "Content-Disposition" (part_headers part) = Some text).
Proof.
  intros Hne Hslash Hascii Hesc H text. apply add_attachment_returned in H. cbv zeta in H.
  destruct H as (data & _ & _ & _ & _ & _ & _ & ->).
  eexists. eexists. cbn [_msg with_msg _payload]. split; [reflexivity |].
  assert (Htext : attachment_disposition mlib (chosen_name (dir +++ "/" +++ name) None)
                  = text).
  { unfold chosen_name. rewrite (basename_of_joined dir name Hslash).
    unfold attachment_disposition, _formatparam.
    destruct name as [| c name]; [congruence |]. cbn [str_truthy].
    rewrite Hascii, (escapesre_sub_id _ Hesc). reflexivity. }
  unfold attachment_of. cbn [part_headers]. rewrite Htext.
  assert (Hget : get_header lib "Content-Disposition"
                   [("Content-Type", chosen_type fenv (dir +++ "/" +++ name) mime_type);
                    ("Content-Transfer-Encoding", "base64");
                    ("Content-Disposition", text); ("MIME-Version", "1.0")]
                 = Some (header_decoded lib "content-disposition" text)) by reflexivity.
  split; [reflexivity |]. split; [exact Hget |].
  intros Hkept. now rewrite Hget, Hkept.
Qed.

(** The report of the examples, /tmp/report.pdf. *)
Lemma attachment_named_report_pdf :
  let self := test_builder "Subject" in
  let text := "attachment; filename=" +++ dquote +++ "report.pdf" +++ dquote in
  exists parts part,
    _payload (_msg (attached self)) = PayloadParts (parts ++ [part]) /\
    raw_all "Content-Disposition" (part_headers part) = [text] /\
    get_header sample_lib "Content-Disposition" (part_headers part) = Some text.
Proof.
  cbv zeta.
  assert (Hne : "report.pdf" <> "") by discriminate.
  destruct (attachment_named_by_last_component sample_lib sample_mime report_files "/tmp"
              "report.pdf" None (test_builder "Subject") []
              (attached (test_builder "Subject"))
              [EvIsFile "/tmp/report.pdf"; EvReadBytes "/tmp/report.pdf"]
              Hne eq_refl eq_refl eq_refl eq_refl)
    as (parts & part & Hparts & Hraw & _ & Hkept).
  exists parts, part. split; [exact Hparts |]. split; [exact Hraw |].
  exact (Hkept eq_refl).
Defined.

(** X14.  The log entry of a failed send holds the error text as it is:
    every line feed of the error text is a line feed of the entry, besides
    the one that ends it, so an error of several lines, or one that ends
    in a line feed as the output of a program does, gives an entry of
    more than one line. *)
Theorem log_entry_keeps_line_feeds lib ts subject recipients err :
  let line_feed := ascii_of_nat 10 in
  count_char line_feed err + 1
  <= count_char line_feed (log_line lib ts false subject recipients (Some err)).
Proof.
  cbv zeta. unfold log_line. cbn [fmt].
  rewrite !count_char_app. unfold LF. cbn [count_char]. rewrite Ascii.eqb_refl. lia.
Qed.

(** ** The loader on other values, and used twice *)

Lemma chars_from_ascii s : forall cur,
  is_ascii s = true ->
  chars_from cur s =
    (if str_truthy cur then [cur] else [])
    ++ map (fun c => String c "") (list_ascii_of_string s).
Proof.
  induction s as [| c s IH]; intros cur H; cbn [chars_from list_ascii_of_string map].
  - now rewrite app_nil_r.
  - cbn [is_ascii] in H. apply andb_prop in H as [Hc Hs].
    assert (Hcont : is_continuation c = false).
    { unfold is_continuation. apply Nat.ltb_lt in Hc.
      apply andb_false_iff. left. apply Nat.leb_gt. exact Hc. }
    rewrite Hcont, (IH _ Hs). reflexivity.
Qed.

(** X15.  A recipients member that is not an array is not refused as
    such.  A JSON string is gone through character by character, each
    character of an ASCII text becoming a To address of its own; a JSON
    object gives its keys as addresses; a number other than zero,
    integer or float, or true, fails with the build error that wraps the
    TypeError of the loop; null, false, zero, the empty string and the
    empty object fail as an empty list does. *)
Theorem load_recipients_value_not_a_list env path self trace members :
  json_load env trace path = Return (PyDict members) ->
  let value := dict_get "recipients" members (PyList []) in
  let result := load_recipients_from_file env path (self, trace) in
  let trace' := trace ++ [EvJsonLoad path] in
  (forall s, value = PyStr s -> s <> "" -> is_ascii s = true ->
     result =
       (Return tt,
        (append_to (map (fun c => String c "") (list_ascii_of_string s)) self, trace'))) /\
  (forall inner, value = PyDict inner -> inner <> [] ->
     result = (Return tt, (append_to (dict_keys inner) self, trace'))) /\
  (forall n, value = PyInt n -> n <> 0%Z ->
     result = (Raise (recipient_file_error "'int' object is not iterable"), (self, trace'))) /\
  (value = PyBool true ->
     result = (Raise (recipient_file_error "'bool' object is not iterable"), (self, trace'))) /\
  (value = PyNone \/ value = PyBool false \/ value = PyInt 0 \/ value = PyStr ""
   \/ value = PyDict [] ->
     result =
       (Raise (recipient_file_error "No emails found in recipient file."), (self, trace'))) /\
  (value = PyFloat true ->
     result = (Raise (recipient_file_error "'float' object is not iterable"), (self, trace')))
  /\
  (value = PyFloat false \/ value = PyList [] ->
     result =
       (Raise (recipient_file_error "No emails found in recipient file."), (self, trace'))).
Proof.
  intros Hload value result trace'. unfold result.
  rewrite load_recipients_outcome, Hload. cbn [emails_of]. fold value.
  split; [| split; [| split; [| split; [| split; [| split]]]]];
    [| | | | | intros ->; reflexivity | intros [-> | ->]; reflexivity].
  - intros s -> Hne Hascii. destruct s as [| c s]; [congruence |].
    cbn [emails_in]. rewrite (chars_from_ascii _ "" Hascii). reflexivity.
  - intros inner -> Hne. destruct inner as [| kv inner]; [congruence |]. reflexivity.
  - intros n -> Hn. cbn [emails_in]. apply Z.eqb_neq in Hn. now rewrite Hn.
  - intros ->. reflexivity.
  - intros [-> | [-> | [-> | [-> | ->]]]]; reflexivity.
Qed.

(** One address given as a string instead of a list. *)
Lemma load_of_a_string_of_addresses :
  load_recipients_from_file (file_env (Return (PyDict [("recipients", PyStr "a@x")])))
    "recipients.json" (new_builder, []) =
  (Return tt, (append_to ["a"; "@"; "x"] new_builder, [EvJsonLoad "recipients.json"])).
Proof.
  refine (proj1 (load_recipients_value_not_a_list
                   (file_env (Return (PyDict [("recipients", PyStr "a@x")])))
                   "recipients.json" new_builder [] [("recipients", PyStr "a@x")] eq_refl)
            "a@x" eq_refl _ eq_refl).
  discriminate.
Defined.

Lemma first_seen_app l1 l2 :
  first_seen (l1 ++ l2) =
    first_seen l1 ++ filter (fun y => negb (mem y l1)) (first_seen l2).
Proof.
  induction l1 as [| x l1 IH]; cbn [app first_seen].
  - unfold mem. cbn [existsb negb]. symmetry. apply forallb_filter_id.
    now apply forallb_forall.
  - rewrite IH, filter_app, filter_filter. cbn [app]. do 2 f_equal.
    apply filter_ext. intros y. unfold mem. cbn [existsb].
    rewrite negb_orb. reflexivity.
Qed.

Lemma filter_mem_first_seen l :
  filter (fun y => negb (mem y l)) (first_seen l) = [].
Proof.
  assert (H : forall y, In y (first_seen l) -> negb (mem y l) = false).
  { intros y Hy. apply (proj1 (first_seen_In l y)) in Hy.
    apply (proj2 (mem_In y l)) in Hy. now rewrite Hy. }
  revert H. generalize (first_seen l) as seen.
  induction seen as [| y ys IH]; intros H; [reflexivity |].
  cbn [filter]. rewrite (H y (or_introl eq_refl)). apply IH.
  intros z Hz. apply H. now right.
Qed.

Lemma first_seen_repeated a items rest :
  first_seen (a ++ items ++ items ++ rest) = first_seen (a ++ items ++ rest).
Proof.
  rewrite (first_seen_app a), (first_seen_app a (items ++ rest)). f_equal. f_equal.
  rewrite (first_seen_app items (items ++ rest)), (first_seen_app items rest).
  rewrite filter_app, filter_mem_first_seen. cbn [app].
  rewrite filter_filter. f_equal. apply filter_ext. intros y. apply andb_diag.
Qed.

(** X16.  The loader adds to the To list it finds: loading the same
    addresses a second time leaves every one of them twice in the To
    list, and so twice in the To header of the message, while the
    delivery list of [recipients] is the same as after the first load. *)
Theorem load_twice_duplicates_to_not_recipients env path self trace data items :
  json_load env trace path = Return data ->
  json_load env (trace ++ [EvJsonLoad path]) path = Return data ->
  emails_of data = inr items ->
  let once := fst (snd (load_recipients_from_file env path (self, trace))) in
  let twice :=
    fst (snd ((load_recipients_from_file env path ;;; load_recipients_from_file env path)
                (self, trace))) in
  _to once = _to self ++ items /\
  _to twice = _to self ++ items ++ items /\
  recipients twice = recipients once.
Proof.
  intros H1 H2 Hitems once twice. unfold once, twice, bind.
  rewrite load_recipients_outcome, H1, Hitems.
  rewrite load_recipients_outcome, H2, Hitems.
  cbn [fst snd append_to _to _cc _bcc].
  split; [reflexivity |]. split; [now rewrite <- app_assoc |].
  unfold recipients. cbn [append_to _to _cc _bcc].
  rewrite !dict_fromkeys_first_seen, <- !app_assoc.
  apply first_seen_repeated.
Qed.

(** Two addresses loaded twice into the builder of the tests. *)
Lemma load_twice_of_the_test :
  let env := file_env (Return (PyList ["a@x"; "b@x"])) in
  let twice :=
    fst (snd ((load_recipients_from_file env "recipients.json" ;;;
               load_recipients_from_file env "recipients.json") (test_builder "Test", []))) in
  _to twice = ["dest@example.com"; "a@x"; "b@x"; "a@x"; "b@x"] /\
  recipients twice = ["dest@example.com"; "a@x"; "b@x"].
Proof.
  cbv zeta.
  destruct (load_twice_duplicates_to_not_recipients
              (file_env (Return (PyList ["a@x"; "b@x"]))) "recipients.json"
              (test_builder "Test") [] (PyList ["a@x"; "b@x"]) ["a@x"; "b@x"]
              eq_refl eq_refl eq_refl) as (_ & Hto & Hrec).
  split; [exact Hto |]. rewrite Hrec. reflexivity.
Defined.

(** ** Example.py *)

(** [build] returns on a builder that has what it checks, whose message
    has no From header yet, nor a To or Cc header where it sets one, and
    whose header texts are of one line and taken by the parsers. *)
Lemma build_returns lib self :
  ~ no_recipients self -> ~ no_subject lib self -> ~ no_body lib self ->
  raw_all "From" (_headers (_msg self)) = [] ->
  (_to self <> [] -> raw_all "To" (_headers (_msg self)) = []) ->
  (_cc self <> [] -> raw_all "Cc" (_headers (_msg self)) = []) ->
  Forall (fun h => one_line (snd h) /\ header_refused lib (lower (fst h)) (snd h) = None)
    (built_headers lib self) ->
  build lib self =
    (Return (add_headers (built_headers lib self) (_msg self)),
     with_msg (add_headers (built_headers lib self) (_msg self)) self).
Proof.
  intros Hr Hs Hn Hfrom Hto Hcc Hok.
  destruct (build_validated lib self Hr Hs Hn) as [(e & s' & Hraise & _) | (H & _)];
    [| exact H].
  exfalso.
  rewrite no_recipients_iff in Hr. rewrite no_subject_iff in Hs.
  apply not_false_is_true in Hr. apply not_false_is_true in Hs.
  destruct (check_body_spec lib self) as [[Hx _] | [_ Hcheck]]; [contradiction |].
  unfold build in Hraise. unfold bind at 1, get_state in Hraise.
  rewrite Hr, Hs in Hraise. cbn [negb] in Hraise.
  unfold bind at 1 in Hraise. rewrite Hcheck in Hraise.
  unfold built_headers in Hok. apply Forall_app in Hok as [HokF Hok].
  apply Forall_app in Hok as [HokT HokC].
  inversion HokF as [| h hs [HF1 HF2] _]; subst. cbn [fst snd] in HF1, HF2.
  unfold bind at 1 in Hraise. unfold on_msg at 1, zoom in Hraise.
  rewrite (setitem_returns lib "From" _ _ Hfrom HF1 HF2) in Hraise.
  cbn [fst snd] in Hraise.
  unfold bind at 1 in Hraise.
  destruct (_to self) as [| t ts] eqn:Et; cbn [list_truthy] in *.
  - unfold ret at 1 in Hraise.
    unfold bind at 1 in Hraise.
    destruct (_cc self) as [| c cs] eqn:Ec; cbn [list_truthy] in *.
    + discriminate.
    + inversion HokC as [| h hs [HC1 HC2] _]; subst. cbn [fst snd] in HC1, HC2.
      unfold on_msg at 1, zoom in Hraise. cbn [_msg with_msg] in Hraise.
      rewrite setitem_returns in Hraise; [discriminate | | exact HC1 | exact HC2].
      cbn [_headers]. rewrite raw_all_app, Hcc by discriminate. reflexivity.
  - inversion HokT as [| h hs [HT1 HT2] _]; subst. cbn [fst snd] in HT1, HT2.
    unfold on_msg at 1, zoom in Hraise. cbn [_msg with_msg] in Hraise.
    rewrite setitem_returns in Hraise; [| | exact HT1 | exact HT2].
    2:{ cbn [_headers]. rewrite raw_all_app, Hto by discriminate. reflexivity. }
    cbn [fst snd] in Hraise. unfold bind at 1 in Hraise.
    destruct (_cc self) as [| c cs] eqn:Ec; cbn [list_truthy] in *.
    + discriminate.
    + inversion HokC as [| h hs [HC1 HC2] _]; subst. cbn [fst snd] in HC1, HC2.
      unfold on_msg at 1, zoom in Hraise. cbn [_msg with_msg] in Hraise.
      rewrite setitem_returns in Hraise; [discriminate | | exact HC1 | exact HC2].
      cbn [_headers]. rewrite !raw_all_app, Hcc by discriminate. reflexivity.
Qed.

Lemma report_builder_returns lib : report_builder lib = (Return tt, report lib).
Proof.
  unfold report_builder.
  unfold bind at 1, set_from_full_name. unfold bind at 1.
  unfold set_subject, on_msg, zoom. cbn [_msg new_builder].
  destruct (plain_subject_kept lib "CashCue Daily Report" eq_refl) as [Hparse _].
  rewrite setitem_returns; [| reflexivity | unfold one_line; vm_compute; lia | exact Hparse].
  cbn [_headers _payload app fst snd with_msg].
  rewrite set_body_returns; [reflexivity | now left |].
  cbn [_msg with_msg]. vm_compute. discriminate.
Qed.

Lemma deliver_cases lib env builder trace printed :
  exists status line trace',
    deliver lib env builder trace printed = (Exit status, printed ++ [line], trace') /\
    ((status = 0%Z /\ line = "Email sent successfully!") \/
     (status = 1%Z /\
      exists text, line = "Email build error: " +++ text \/
                   line = "Email send failed: " +++ text)).
Proof.
  unfold deliver.
  destruct (send lib env _ 60 (builder, trace)) as [[e | u] [b t]].
  - destruct (exc_class_eqb (exc_type e) EmailBuildError);
      do 3 eexists; (split; [reflexivity |]); right; split; eauto.
  - do 3 eexists. split; [reflexivity |]. left. split; reflexivity.
Qed.

(** X17.  Under the one condition that [set_body] takes the text of the
    report, [main] never ends in an exception of its own: it exits with
    status 0 or 1 and has printed at least one line, and it exits with
    status 0 exactly when the last line printed is the one that reports
    the delivery. *)
Theorem main_exits_zero_or_one lib env isfile argv :
  one_line (text_cte lib report_body) ->
  exists status before line trace,
    main lib env isfile argv = (Exit status, before ++ [line], trace) /\
    (status = 0%Z \/ status = 1%Z) /\
    (status = 0%Z <-> line = "Email sent successfully!").
Proof.
  intros Hcte. unfold main. rewrite (report_builder_returns lib).
  assert (Hdeliver : forall builder trace printed,
    exists status before line trace',
      deliver lib env builder trace printed = (Exit status, before ++ [line], trace') /\
      (status = 0%Z \/ status = 1%Z) /\
      (status = 0%Z <-> line = "Email sent successfully!")).
  { intros builder trace printed.
    destruct (deliver_cases lib env builder trace printed)
      as (status & line & trace' & Hd & [[-> ->] | [-> (text & [-> | ->])]]);
      eexists; exists printed; do 2 eexists;
      (split; [exact Hd |]); (split; [auto |]); split; intros H;
      try reflexivity; try discriminate. }
  assert (Hone : forall (line : string) (trace : list Event),
    line <> "Email sent successfully!" ->
    exists status before line' trace',
      (Exit 1, [line], trace) = (Exit status, before ++ [line'], trace') /\
      (status = 0%Z \/ status = 1%Z) /\
      (status = 0%Z <-> line' = "Email sent successfully!")).
  { intros line trace Hline. exists 1%Z, [], line, trace.
    split; [reflexivity |]. split; [auto |]. split; intros H; [discriminate | contradiction]. }
  destruct argv as [| prog [| file rest]].
  - cbn [report _to list_truthy negb]. apply Hone. discriminate.
  - cbn [report _to list_truthy negb]. apply Hone. discriminate.
  - destruct (isfile file); cbn [negb]; [| apply Hone; discriminate].
    rewrite load_recipients_outcome.
    destruct (json_load env [] file) as [e | data].
    + cbn [exc_type exc_class_eqb]. apply Hone. discriminate.
    + destruct (emails_of data) as [cause | items].
      * cbn [exc_type exc_class_eqb]. apply Hone. discriminate.
      * apply Hdeliver.
Qed.

(** A run with a recipients file of one address. *)
Lemma main_exits_on_the_example :
  exists status before line trace,
    main sample_lib (file_env (Return (PyList ["a@x"]))) (fun _ => true)
      ["Example.py"; "recipients.json"] = (Exit status, before ++ [line], trace) /\
    (status = 0%Z \/ status = 1%Z) /\
    (status = 0%Z <-> line = "Email sent successfully!").
Proof.
  apply (main_exits_zero_or_one sample_lib (file_env (Return (PyList ["a@x"])))
           (fun _ => true) ["Example.py"; "recipients.json"]).
  unfold one_line. vm_compute. lia.
Defined.

(** X18.  [main] sends only to the addresses of a recipients file.  Run
    without an argument it exits with status 1, the builder having no To
    address; with the path of something that is not a file it exits with
    status 1 without opening it; with a file the loader refuses it exits
    with status 1 after the one attempt to read it.  It prints the reason
    in each case and runs no process. *)
Theorem main_needs_a_recipients_file lib env isfile :
  one_line (text_cte lib report_body) ->
  (forall argv, length argv <= 1 ->
     main lib env isfile argv = (Exit 1, [no_recipients_line], [])) /\
  (forall prog file rest, isfile file = false ->
     main lib env isfile (prog :: file :: rest) =
       (Exit 1, ["Recipients file not found: " +++ file], [])) /\
  (forall prog file rest cause, isfile file = true ->
     json_load env [] file = Raise cause \/
     (exists data, json_load env [] file = Return data /\
                   emails_of data = inl (exc_str cause)) ->
     main lib env isfile (prog :: file :: rest) =
       (Exit 1,
        ["Failed to load recipients: Error reading recipient file: " +++ exc_str cause],
        [EvJsonLoad file])).
Proof.
  intros Hcte. unfold main. rewrite (report_builder_returns lib).
  split; [| split].
  - intros [| prog [| file rest]] Hlen; [reflexivity | reflexivity |].
    cbn [length] in Hlen. lia.
  - intros prog file rest Hfile. now rewrite Hfile.
  - intros prog file rest cause Hfile Hload. rewrite Hfile. cbn [negb].
    rewrite load_recipients_outcome.
    destruct Hload as [-> | (data & -> & ->)]; reflexivity.
Qed.

(** A run without an argument, with a path that is not a file, and with an
    empty object. *)
Lemma main_without_a_usable_file :
  main sample_lib (file_env (Return (PyDict []))) (fun _ => true) ["Example.py"] =
    (Exit 1, [no_recipients_line], []) /\
  main sample_lib (file_env (Return (PyDict []))) (fun _ => false)
    ["Example.py"; "recipients.json"] =
    (Exit 1, ["Recipients file not found: recipients.json"], []) /\
  main sample_lib (file_env (Return (PyDict []))) (fun _ => true)
    ["Example.py"; "recipients.json"] =
    (Exit 1,
     ["Failed to load recipients: Error reading recipient file: "
      +++ "No emails found in recipient file."],
     [EvJsonLoad "recipients.json"]).
Proof.
  assert (Hcte : one_line (text_cte sample_lib report_body))
    by (unfold one_line; vm_compute; lia).
  split; [| split].
  - refine (proj1 (main_needs_a_recipients_file sample_lib (file_env (Return (PyDict [])))
                     (fun _ => true) Hcte) ["Example.py"] _).
    cbn [length]. lia.
  - exact (proj1 (proj2 (main_needs_a_recipients_file sample_lib
                           (file_env (Return (PyDict []))) (fun _ => false) Hcte))
             "Example.py" "recipients.json" [] eq_refl).
  - refine (proj2 (proj2 (main_needs_a_recipients_file sample_lib
                            (file_env (Return (PyDict []))) (fun _ => true) Hcte))
              "Example.py" "recipients.json" []
              (Exn EmailBuildError "No emails found in recipient file.") eq_refl _).
    right. exists (PyDict []). split; reflexivity.
Defined.

Lemma str_truthy_append a c : str_truthy (a +++ String c "") = true.
Proof. destruct a; reflexivity. Qed.

Lemma chars_from_nonempty s : forall cur,
  str_truthy cur = true \/ s <> "" -> chars_from cur s <> [].
Proof.
  induction s as [| c s IH]; intros cur H; cbn [chars_from].
  - destruct H as [-> | H]; [discriminate | congruence].
  - destruct (is_continuation c).
    + apply IH. left. apply str_truthy_append.
    + intros Happ. apply app_eq_nil in Happ as [_ Happ].
      revert Happ. apply IH. now left.
Qed.

Lemma emails_of_nonempty data items : emails_of data = inr items -> items <> [].
Proof.
  assert (Hin : forall emails, emails_in emails = inr items -> items <> []).
  { intros [| [|] | n | [|] | [| c s] | [| x rest] | [| kv rest]]; cbn [emails_in];
      try discriminate.
    - destruct (n =? 0)%Z; discriminate.
    - intros H. injection H as <-. change (chars_from "" (String c s) <> []).
      apply chars_from_nonempty. right. discriminate.
    - intros H. injection H as <-. discriminate.
    - intros H. injection H as <-. discriminate. }
  destruct data; cbn [emails_of]; try discriminate; apply Hin.
Qed.

Lemma report_subject lib hs :
  raw_all "Subject" hs = [] ->
  get_header lib "Subject"
    (_headers (with_text lib report_body "plain"
                 {| _headers := [("Subject", "CashCue Daily Report")];
                    _payload := PayloadNone |}) ++ hs)
    = Some "CashCue Daily Report".
Proof.
  intros Hnone.
  destruct (plain_subject_kept lib "CashCue Daily Report" eq_refl) as [_ Hkept].
  assert (Hraw : raw_header "Subject"
                   (_headers (with_text lib report_body "plain"
                                {| _headers := [("Subject", "CashCue Daily Report")];
                                   _payload := PayloadNone |}))
                 = Some "CashCue Daily Report") by reflexivity.
  unfold get_header. rewrite (raw_header_skip _ _ _ Hnone), Hraw. cbn [option_map].
  change (lower "Subject") with "subject". now rewrite Hkept.
Qed.

Lemma build_of_the_report lib items :
  items <> [] -> one_line (join ", " items) ->
  header_refused lib "from" (formataddr lib "CashCue Daily Report" MSMTP_FROM_EMAIL) = None ->
  header_refused lib "to" (join ", " items) = None ->
  let builder := append_to items (report lib) in
  let msg := add_headers (built_headers lib builder) (_msg builder) in
  build lib builder = (Return msg, with_msg msg builder).
Proof.
  intros Hne Hto HpF HpT builder msg.
  assert (Htruthy : list_truthy items = true) by (destruct items; [congruence | reflexivity]).
  apply build_returns.
  - rewrite no_recipients_iff. unfold builder. cbn [append_to report _to _cc _bcc app].
    rewrite Htruthy. discriminate.
  - rewrite no_subject_iff. unfold builder. cbn [append_to report _msg].
    rewrite <- (app_nil_r (_headers _)), (report_subject lib [] eq_refl). discriminate.
  - unfold no_body, builder. cbn [append_to report _msg with_text _payload].
    destruct (join LF (bytes_splitlines report_body)); discriminate.
  - reflexivity.
  - reflexivity.
  - reflexivity.
  - unfold built_headers, builder.
    cbn [append_to report _to _cc _bcc _from_full_name app list_truthy].
    rewrite Htruthy. cbn [app].
    apply Forall_cons; [split; [unfold one_line; vm_compute; lia | exact HpF] |].
    apply Forall_cons; [split; [exact Hto | exact HpT] |].
    apply Forall_nil.
Qed.

(** X19.  The delivery of [main]: given a recipients file that yields
    addresses whose joined text is of one line, where the parsers of the
    From and the To header take the texts they are given and the message
    serialises, [main] reads the file, runs /usr/bin/msmtp -a gmail with
    every address once, in first-seen order, the serialised message and a
    timeout of 60, then writes the log under /var/log; when the process
    exits with 0 and the log is written it prints that the recipients
    were loaded and that the mail was sent, and exits with status 0. *)
Theorem main_delivers_to_the_file lib env isfile prog file rest data items proc raw_bytes :
  one_line (text_cte lib report_body) ->
  isfile file = true ->
  json_load env [] file = Return data ->
  emails_of data = inr items ->
  one_line (join ", " items) ->
  header_refused lib "from" (formataddr lib "CashCue Daily Report" MSMTP_FROM_EMAIL) = None ->
  header_refused lib "to" (join ", " items) = None ->
  let builder := append_to items (report lib) in
  let msg := add_headers (built_headers lib builder) (_msg builder) in
  as_bytes lib msg = Return raw_bytes ->
  let cmd := ["/usr/bin/msmtp"; "-a"; "gmail"] ++ first_seen items in
  let ran := [EvJsonLoad file; EvRun cmd raw_bytes 60] in
  let asked := ran ++ [EvMakedirs report_log_dir] in
  let line :=
    log_line lib (datetime_now env asked) true (Some "CashCue Daily Report")
      (first_seen items) None in
  subprocess_run env [EvJsonLoad file] cmd raw_bytes 60 = Return proc ->
  returncode proc = 0%Z ->
  os_makedirs env ran report_log_dir = Return tt ->
  open_append_write env asked report_log line = Return tt ->
  main lib env isfile (prog :: file :: rest) =
    (Exit 0,
     ["Loaded recipients from " +++ file; "Email sent successfully!"],
     asked ++ [EvAppend report_log line]).
Proof.
  intros Hcte Hfile Hload Hitems Hto HpF HpT builder msg Hs cmd ran asked line
    Hrun Hcode Hdir Hlog.
  unfold main. rewrite (report_builder_returns lib), Hfile. cbn [negb].
  rewrite load_recipients_outcome, Hload, Hitems. fold builder.
  unfold deliver.
  pose proof (build_of_the_report lib items (emails_of_nonempty _ _ Hitems) Hto HpF HpT)
    as Hb.
  cbv zeta in Hb. fold builder in Hb. fold msg in Hb.
  rewrite (send_outcome lib env _ 60 builder ([] ++ [EvJsonLoad file]) msg _ raw_bytes Hb Hs).
  cbv zeta.
  assert (Hrec : recipients (with_msg msg builder) = first_seen items).
  { unfold recipients. rewrite dict_fromkeys_first_seen.
    unfold builder. cbn [with_msg append_to report _to _cc _bcc app].
    now rewrite !app_nil_r. }
  rewrite Hrec.
  change (_build_cmd {| msmtp_path := "/usr/bin/msmtp";
                        log_file := Some "/var/log/msmtp_mail.log" |} (first_seen items))
    with cmd.
  cbn [app]. rewrite Hrun, Hcode. cbn [Z.eqb].
  rewrite (write_log_enabled lib env logging_client _ _ _ _ _ "/var/log/msmtp_mail.log"
             eq_refl) by discriminate.
  cbv zeta.
  change (dirname "/var/log/msmtp_mail.log") with report_log_dir.
  assert (Hsub : get_header lib "Subject" (_headers msg) = Some "CashCue Daily Report").
  { unfold msg, add_headers. cbn [_headers]. unfold builder at 1.
    cbn [append_to report _msg]. apply report_subject.
    unfold built_headers. rewrite !raw_all_app.
    destruct (list_truthy (_to builder)), (list_truthy (_cc builder)); reflexivity. }
  rewrite Hsub. unfold line, asked, ran, report_log in Hdir, Hlog.
  rewrite Hdir, Hlog. reflexivity.
Qed.

(** A run with a file that names a@x twice and b@x once. *)
Lemma main_delivers_on_the_example :
  let env := working_env (PyDict [("recipients", PyList ["a@x"; "b@x"; "a@x"])]) in
  exists input,
    main sample_lib env (fun _ => true) ["Example.py"; "recipients.json"] =
      (Exit 0,
       ["Loaded recipients from recipients.json"; "Email sent successfully!"],
       [EvJsonLoad "recipients.json";
        EvRun ["/usr/bin/msmtp"; "-a"; "gmail"; "a@x"; "b@x"] input 60;
        EvMakedirs "/var/log";
        EvAppend "/var/log/msmtp_mail.log"
          ("[2025-03-07 09:05:00] OK | Subject='CashCue Daily Report' | To=['a@x', 'b@x']"
           +++ LF)]).
Proof.
  cbv zeta. eexists.
  refine (main_delivers_to_the_file sample_lib
            (working_env (PyDict [("recipients", PyList ["a@x"; "b@x"; "a@x"])]))
            (fun _ => true) "Example.py"
            "recipients.json" [] (PyDict [("recipients", PyList ["a@x"; "b@x"; "a@x"])])
            ["a@x"; "b@x"; "a@x"] {| returncode := 0; stdout := ""; stderr := "" |}
            (wire (add_headers
                     (built_headers sample_lib
                        (append_to ["a@x"; "b@x"; "a@x"] (report sample_lib)))
                     (_msg (append_to ["a@x"; "b@x"; "a@x"] (report sample_lib)))))
            _ eq_refl eq_refl eq_refl _ eq_refl eq_refl eq_refl eq_refl eq_refl eq_refl
            eq_refl);
    unfold one_line; vm_compute; lia.
Defined.

(** ** Two attachments *)

Lemma mixed_base_mixed lib mlib msg p :
  mixed_already lib {| _headers := _headers (mixed_base lib mlib msg); _payload := p |} = true.
Proof.
  unfold mixed_already. cbn [_headers]. unfold mixed_base.
  destruct (mixed_already lib msg) eqn:E; [exact E |].
  unfold get_content_maintype, get_content_subtype.
  rewrite made_mixed_type. reflexivity.
Qed.

Lemma mixed_base_again lib mlib msg parts :
  let made := {| _headers := _headers (mixed_base lib mlib msg);
                 _payload := PayloadParts parts |} in
  mixed_base lib mlib made = made /\ earlier_parts lib mlib made = parts.
Proof.
  cbv zeta. unfold mixed_base at 1, earlier_parts.
  rewrite mixed_base_mixed. split; reflexivity.
Qed.

(** X20.  Attachments add up in the order of the calls: after two calls of
    [add_attachment] that return, the last two subparts of the message are
    the first and the second attachment, after the subparts the message
    had before; the second call converts nothing and moves nothing. *)
Theorem attachments_in_call_order lib mlib fenv path1 mime_type1 filename1
  path2 mime_type2 filename2 self trace self1 trace1 self2 trace2 :
  add_attachment lib mlib fenv path1 mime_type1 filename1 (self, trace)
    = (Return tt, (self1, trace1)) ->
  add_attachment lib mlib fenv path2 mime_type2 filename2 (self1, trace1)
    = (Return tt, (self2, trace2)) ->
  exists data1 data2,
    _payload (_msg self2) =
      PayloadParts
        (earlier_parts lib mlib (_msg self)
         ++ [attachment_of mlib data1 (chosen_type fenv path1 mime_type1)
               (chosen_name path1 filename1);
             attachment_of mlib data2 (chosen_type fenv path2 mime_type2)
               (chosen_name path2 filename2)]) /\
    _headers (_msg self2) = _headers (_msg self1) /\
    trace2 = trace ++ [EvIsFile path1; EvReadBytes path1; EvIsFile path2; EvReadBytes path2].
Proof.
  intros H1 H2.
  apply add_attachment_returned in H1. cbv zeta in H1.
  destruct H1 as (data1 & _ & _ & _ & _ & _ & -> & ->).
  apply add_attachment_returned in H2. cbv zeta in H2.
  destruct H2 as (data2 & _ & _ & _ & _ & _ & -> & ->).
  exists data1, data2. cbn [_msg with_msg].
  destruct (mixed_base_again lib mlib (_msg self)
              (earlier_parts lib mlib (_msg self)
               ++ [attachment_of mlib data1 (chosen_type fenv path1 mime_type1)
                     (chosen_name path1 filename1)])) as [Hbase Hparts].
  cbv zeta in Hbase, Hparts. rewrite Hbase, Hparts. cbn [_payload _headers].
  split; [now rewrite <- app_assoc |]. split; [reflexivity |].
  now rewrite <- app_assoc.
Qed.

(** The report and a table attached to the builder of the tests. *)
Lemma two_reports_in_call_order :
  let fenv := report_files in
  let self := test_builder "Subject" in
  let self1 := attached self in
  let self2 :=
    fst (snd (add_attachment sample_lib sample_mime fenv "/tmp/data.csv" (Some "text/csv")
                None
                (self1, [EvIsFile "/tmp/report.pdf"; EvReadBytes "/tmp/report.pdf"]))) in
  exists data1 data2,
    _payload (_msg self2) =
      PayloadParts
        [text_part sample_lib sample_mime "Body" "plain";
         attachment_of sample_mime data1 "application/pdf" "report.pdf";
         attachment_of sample_mime data2 "text/csv" "data.csv"].
Proof.
  cbv zeta.
  destruct (attachments_in_call_order sample_lib sample_mime report_files
              "/tmp/report.pdf" None None "/tmp/data.csv" (Some "text/csv") None
              (test_builder "Subject") []
              (attached (test_builder "Subject"))
              [EvIsFile "/tmp/report.pdf"; EvReadBytes "/tmp/report.pdf"]
              (fst (snd (add_attachment sample_lib sample_mime report_files "/tmp/data.csv"
                           (Some "text/csv") None
                           (attached (test_builder "Subject"),
                            [EvIsFile "/tmp/report.pdf"; EvReadBytes "/tmp/report.pdf"]))))
              [EvIsFile "/tmp/report.pdf"; EvReadBytes "/tmp/report.pdf";
               EvIsFile "/tmp/data.csv"; EvReadBytes "/tmp/data.csv"]
              eq_refl eq_refl) as (data1 & data2 & Hparts & _).
  exists data1, data2. rewrite Hparts. reflexivity.
Defined.

